(** * mongodb_oplog: resize (and optionally compact) the MongoDB oplog

    A shallow embedding of [plugins/modules/mongodb_oplog.py] and the
    properties of its read-compare-act flow.

    Conventions of the embedding.
    - Python 3 semantics: [/] is true division (the module also imports
      it from [__future__]), [int] is unbounded ([Z]), [float] is IEEE-754
      binary64 ([spec_float] with [prec = 53], [emax = 1024], rounding to
      nearest even), [round(x, 0)] rounds half to even and keeps the type
      of [x], [str(float)] is the shortest representation that reads back.
    - An exception is represented by its [to_native] text.  Every remote
      call of the module sits in its own [try ... except Exception], so a
      call returns a [reply]: a value or the text of the exception.
    - [module.fail_json] and [module.exit_json] end the process
      ([SystemExit] is not an [Exception], so no handler of the module
      catches it): they end the run with an [outcome].
    - What is imported from outside the file (pymongo, AnsibleModule, the
      helpers of [module_utils.mongodb_common]) is a [Collaborator] over an
      abstract world [W]; a run records the calls it makes, with their
      replies, in a trace of [event]s. *)

From stdpp Require Import base option strings list gmap.
From Stdlib Require Import ZArith Lia SpecFloat DecimalString Sorted.
From Stdlib Require DecimalPos DecimalFacts DecimalZ.

Open Scope Z_scope.

(* ===================================================================== *)
(** * Python numbers *)
(* ===================================================================== *)

Module Py.

(** A Python call either returns or raises; [exc] is [str(exception)]. *)
Inductive reply (A : Type) : Type :=
| Ret (a : A)
| Raise (exc : string).
Arguments Ret {A} a.
Arguments Raise {A} exc.

(** binary64 *)
Definition prec : Z := 53.
Definition emax : Z := 1024.
Definition emin : Z := 3 - emax - prec.

Definition is_finite (x : spec_float) : bool :=
  match x with
  | S754_zero _ | S754_finite _ _ _ => true
  | _ => false
  end.

(** [float(z)]: the nearest binary64 ([OverflowError] beyond the range). *)
Definition float_of_int (z : Z) : reply spec_float :=
  let x := binary_normalize prec emax z 0 false in
  if is_finite x then Ret x
  else Raise "int too large to convert to float".

(** [a / b] on two [int]s: the quotient, correctly rounded to binary64. *)
Definition int_truediv (a b : Z) : reply spec_float :=
  match a, b with
  | _, 0 => Raise "division by zero"
  | 0, _ => Ret (S754_zero (b <? 0))
  | _, _ =>
      let '(mz, ez, lz) := SFdiv_core_binary prec emax (Z.abs a) 0 (Z.abs b) 0 in
      let x := binary_round_aux prec emax (xorb (a <? 0) (b <? 0)) mz ez lz in
      if is_finite x then Ret x
      else Raise "integer division result too large for a float"
  end.

(** [x / b] on a [float] and an [int]: [b] is converted, then IEEE division. *)
Definition float_truediv_int (x : spec_float) (b : Z) : reply spec_float :=
  match float_of_int b with
  | Raise e => Raise e
  | Ret y =>
      match y with
      | S754_zero _ => Raise "float division by zero"
      | _ => Ret (SFdiv prec emax x y)
      end
  end.

(** Comparison of a [float] with an [int]: exact, on the real values. *)
Definition float_compare_int (x : spec_float) (z : Z) : option comparison :=
  match x with
  | S754_nan => None
  | S754_infinity s => Some (if s then Lt else Gt)
  | S754_zero _ => Some (0 ?= z)
  | S754_finite s m e =>
      let v := cond_Zopp s (Zpos m) in
      Some (if 0 <=? e then v * 2 ^ e ?= z else v ?= z * 2 ^ (- e))
  end.

(** [z == x] *)
Definition int_eq_float (z : Z) (x : spec_float) : bool :=
  match float_compare_int x z with
  | Some Eq => true
  | _ => false
  end.

(** [x > z] *)
Definition float_gt_int (x : spec_float) (z : Z) : bool :=
  match float_compare_int x z with
  | Some Gt => true
  | _ => false
  end.

(** [round(z, 0)] on an [int] is the [int] itself. *)
Definition round_int (z : Z) : Z := z.

(** The integer nearest to [m / 2^k], ties to the even one. *)
Definition nearest_even (m k : Z) : Z :=
  let q := m / 2 ^ k in
  let r := m mod 2 ^ k in
  match 2 * r ?= 2 ^ k with
  | Lt => q
  | Gt => q + 1
  | Eq => if Z.even q then q else q + 1
  end.

(** [round(x, 0)] on a [float]: a [float] again, the nearest integer. *)
Definition round_float (x : spec_float) : spec_float :=
  match x with
  | S754_finite s m e =>
      if 0 <=? e then x
      else
        let n := nearest_even (Zpos m) (- e) in
        if n =? 0 then S754_zero s
        else binary_normalize prec emax (cond_Zopp s n) 0 false
  | _ => x
  end.

(** ** [str] *)

Definition str_int (z : Z) : string := NilZero.string_of_int (Z.to_int z).

(** [10^t <= n / d] *)
Definition ratio_ge_pow10 (n d t : Z) : bool :=
  if 0 <=? t then d * 10 ^ t <=? n else d <=? n * 10 ^ (- t).

(** The decimal exponent of [n / d]: [10^t <= n / d < 10^(t+1)]. *)
Definition floor_log10 (n d : Z) : Z :=
  let t0 := ((Z.log2 n - Z.log2 d) * 30103) / 100000 in
  if ratio_ge_pow10 n d (t0 + 2) then t0 + 2
  else if ratio_ge_pow10 n d (t0 + 1) then t0 + 1
  else if ratio_ge_pow10 n d t0 then t0
  else if ratio_ge_pow10 n d (t0 - 1) then t0 - 1
  else t0 - 2.

(** The shortest decimal [d * 10^p] inside the rounding interval
    [lown/den .. highn/den] of [xn/den], and the nearest to it among the
    shortest; [k] is the number of digits tried, [fuel] bounds it by 17. *)
Fixpoint shortest_search (fuel : nat) (k t xn lown highn den : Z) (incl : bool)
  : Z * Z :=
  let p := t - k + 1 in
  let num10 := if 0 <=? p then 10 ^ p else 1 in
  let den10 := if 0 <=? p then 1 else 10 ^ (- p) in
  let dlo := (xn * den10) / (den * num10) in
  let inside d :=
    let c := d * num10 * den in
    if incl then (lown * den10 <=? c) && (c <=? highn * den10)
    else (lown * den10 <? c) && (c <? highn * den10) in
  let dist d := Z.abs (d * num10 * den - xn * den10) in
  let pick :=
    match inside dlo, inside (dlo + 1) with
    | true, true =>
        match dist dlo ?= dist (dlo + 1) with
        | Lt => Some dlo
        | Gt => Some (dlo + 1)
        | Eq => Some (if Z.even dlo then dlo else dlo + 1)
        end
    | true, false => Some dlo
    | false, true => Some (dlo + 1)
    | false, false => None
    end in
  match pick, fuel with
  | Some d, _ => (d, p)
  | None, O => (dlo, p)
  | None, S fuel' => shortest_search fuel' (k + 1) t xn lown highn den incl
  end.

(** In units of [2^(e-2)] the float [m * 2^e] is [4m], the midpoint to its
    successor is [4m + 2], the midpoint to its predecessor [4m - 2], or
    [4m - 1] when [m] is the least normal mantissa. *)
Definition shortest_digits (m : positive) (e : Z) : Z * Z :=
  let u := e - 2 in
  let N := if 0 <=? u then 2 ^ u else 1 in
  let D := if 0 <=? u then 1 else 2 ^ (- u) in
  let x := 4 * Zpos m * N in
  let high := (4 * Zpos m + 2) * N in
  let low :=
    (if (Zpos m =? 2 ^ (prec - 1)) && (emin <? e)
     then 4 * Zpos m - 1 else 4 * Zpos m - 2) * N in
  shortest_search 17 1 (floor_log10 x D) x low high D (Z.even (Zpos m)).

Fixpoint strip_zeros (fuel : nat) (d p : Z) : Z * Z :=
  match fuel with
  | O => (d, p)
  | S f =>
      if (d mod 10 =? 0) && negb (d =? 0) then strip_zeros f (d / 10) (p + 1)
      else (d, p)
  end.

Definition zeros (n : Z) : string :=
  String.concat "" (repeat "0"%string (Z.to_nat n)).

(** [repr] format: the value is [0.digits * 10^decpt]; exponent notation
    when [decpt <= -4] or [decpt > 16], a trailing [.0] on integers. *)
Definition format_repr (neg : bool) (digits : string) (decpt : Z) : string :=
  let len := String.length digits in
  let nd := Z.of_nat len in
  let ex := decpt - 1 in
  let exs := str_int (Z.abs ex) in
  let exs := if Z.abs ex <? 10 then String.append "0" exs else exs in
  let frac :=
    if 1 <? nd then String.append "." (String.substring 1 (len - 1) digits)
    else EmptyString in
  let esign : string := if ex <? 0 then "-"%string else "+"%string in
  let dp := Z.to_nat decpt in
  let body :=
    if (decpt <=? -4) || (16 <? decpt) then
      String.concat "" [String.substring 0 1 digits; frac; "e"%string; esign; exs]
    else if decpt <=? 0 then
      String.concat "" ["0."%string; zeros (- decpt); digits]
    else if nd <=? decpt then
      String.concat "" [digits; zeros (decpt - nd); ".0"%string]
    else
      String.concat "" [String.substring 0 dp digits; "."%string;
                        String.substring dp (len - dp) digits] in
  String.append (if neg then "-"%string else EmptyString) body.

Definition str_float (x : spec_float) : string :=
  match x with
  | S754_nan => "nan"
  | S754_infinity s => if s then "-inf" else "inf"
  | S754_zero s => if s then "-0.0" else "0.0"
  | S754_finite s m e =>
      let '(d, p) := shortest_digits m e in
      let '(d, p) := strip_zeros 20 d p in
      let ds := str_int d in
      format_repr s ds (p + Z.of_nat (String.length ds))
  end.

End Py.

Export Py.

(* ===================================================================== *)
(** * The module and its collaborators *)
(* ===================================================================== *)

(** Values of the [result] dictionary. *)
Inductive pyval : Type :=
| PyBool (b : bool)
| PyStr (s : string).

(** How a run ends: [module.exit_json( **result)] or [module.fail_json(msg=...)]. *)
Inductive outcome : Type :=
| Exited (result : gmap string pyval)
| Failed (msg : string).

(** What the caller gives for an option of type [int]: a value that
    [AnsibleModule] converts to an integer, or one that its conversion
    refuses, with the message of the refusal. *)
Inductive int_arg : Type :=
| IntArg (z : Z)
| Unconvertible (msg : string).

(** The task arguments as the caller wrote them; [None] is an omitted
    option.  [AnsibleModule] converts each value to the declared type
    before [main] sees it; the values are given converted, except the one
    for [oplog_size_mb], the option the properties are about.  An option
    written with an explicit null is not represented. *)
Record Args : Type := {
  a_login_user : option string;
  a_login_password : option string;
  a_login_database : option string;
  a_login_host : option string;
  a_login_port : option Z;
  a_oplog_size_mb : option int_arg;
  a_compact : option bool;
  a_ssl : option bool;
  a_ssl_cert_reqs : option string;
  a_check_mode : bool
}.

(** [module.params] and [module.check_mode]. *)
Record Module : Type := {
  login_user : option string;
  login_password : option string;
  login_database : string;
  login_host : string;
  login_port : Z;
  oplog_size_mb : Z;
  compact : bool;
  ssl : bool;
  ssl_cert_reqs : string;
  check_mode : bool
}.

(** [connection_params]: host and port, and the two ssl entries when [ssl]
    is set. *)
Record ConnectionParams : Type := {
  cp_host : string;
  cp_port : Z;
  cp_ssl : option (bool * string)
}.

(** What [check_compatibility] can do: return, call [module.fail_json]
    itself, or raise. *)
Inductive compat_reply : Type :=
| CompatOk
| CompatFailJson (msg : string)
| CompatRaise (exc : string).

(** The imports of the module, over a world [W] they read and change.
    [collStats_maxSize] is
    [int(client["local"].command("collStats", "oplog.rs")["maxSize"])];
    [replSetResizeOplog] and [compact_cmd] are the two commands that write. *)
Record Collaborator (W : Type) : Type := {
  pymongo_found : bool;
  missing_required_lib : string -> string;
  PyMongoVersion : string;
  MongoClient : ConnectionParams -> W -> reply unit * W;
  load_mongocnf : W -> option (string * string);
  authenticate : string -> string -> string -> W -> reply unit * W;
  server_info_version : W -> reply string * W;
  check_compatibility : string -> string -> compat_reply;
  collStats_maxSize : W -> reply Z * W;
  member_state : W -> reply string * W;
  replSetResizeOplog : Z -> W -> reply unit * W;
  compact_cmd : W -> reply unit * W
}.
Arguments pymongo_found {W} _.
Arguments missing_required_lib {W} _ _.
Arguments PyMongoVersion {W} _.
Arguments MongoClient {W} _ _ _.
Arguments load_mongocnf {W} _ _.
Arguments authenticate {W} _ _ _ _ _.
Arguments server_info_version {W} _ _.
Arguments check_compatibility {W} _ _ _.
Arguments collStats_maxSize {W} _ _.
Arguments member_state {W} _ _.
Arguments replSetResizeOplog {W} _ _ _.
Arguments compact_cmd {W} _ _.

(** One call made by a run, with what it returned. *)
Inductive event : Type :=
| EvMongoClient (p : ConnectionParams) (r : reply unit)
| EvLoadMongocnf (r : option (string * string))
| EvAuthenticate (user password source : string) (r : reply unit)
| EvServerInfo (r : reply string)
| EvCollStats (r : reply Z)
| EvMemberState (r : reply string)
| EvResize (size : Z) (r : reply unit)
| EvCompact (r : reply unit).

(** The calls that change the member. *)
Definition is_write (ev : event) : bool :=
  match ev with
  | EvResize _ _ | EvCompact _ => true
  | _ => false
  end.

(** ** The run monad: world, trace of calls, early exit *)

Inductive step (A : Type) : Type :=
| Next (a : A)
| Exit (o : outcome).
Arguments Next {A} a.
Arguments Exit {A} o.

Definition M (W A : Type) : Type := W -> step A * W * list event.

Definition ret {W A} (a : A) : M W A := fun w => (Next a, w, []).

Definition bind {W A B} (m : M W A) (f : A -> M W B) : M W B :=
  fun w =>
    match m w with
    | (Exit o, w1, t1) => (Exit o, w1, t1)
    | (Next a, w1, t1) =>
        match f a w1 with
        | (s, w2, t2) => (s, w2, t1 ++ t2)
        end
    end.

#[global] Instance M_ret {W} : MRet (M W) := fun A a => ret a.
#[global] Instance M_bind {W} : MBind (M W) := fun A B f m => bind m f.

Definition fail_json {W A} (msg : string) : M W A :=
  fun w => (Exit (Failed msg), w, []).

Definition exit_json {W A} (result : gmap string pyval) : M W A :=
  fun w => (Exit (Exited result), w, []).

(** A call that changes the world, recorded with its reply. *)
Definition call {W A} (op : W -> A * W) (ev : A -> event) : M W A :=
  fun w => match op w with (r, w1) => (Next r, w1, [ev r]) end.

(** A call that only reads the world. *)
Definition peek {W A} (op : W -> A) (ev : A -> event) : M W A :=
  fun w => (Next (op w), w, [ev (op w)]).

(** [try: x = c  except Exception as excep: handler(to_native(excep))] *)
Definition try_except {W A} (c : M W (reply A)) (handler : string -> M W A) : M W A :=
  (r ← c;
   match r with
   | Ret a => ret a
   | Raise excep => handler excep
   end).

(** ** [AnsibleModule(argument_spec=..., supports_check_mode=True)]

    The argument specification of lines 136-146: defaults, the one required
    option and the one option with choices.  The checks are made in the
    order of [AnsibleModule]: required options, types, choices. *)
Definition ssl_cert_reqs_choices : list string :=
  ["CERT_NONE"; "CERT_OPTIONAL"; "CERT_REQUIRED"]%string.

Definition argument_spec (a : Args) : Module + string :=
  match a_oplog_size_mb a with
  | None => inr "missing required arguments: oplog_size_mb"%string
  | Some (Unconvertible msg) => inr msg
  | Some (IntArg size) =>
      let reqs := default "CERT_REQUIRED"%string (a_ssl_cert_reqs a) in
      if bool_decide (reqs ∈ ssl_cert_reqs_choices) then
        inl {| login_user := a_login_user a;
               login_password := a_login_password a;
               login_database := default "admin"%string (a_login_database a);
               login_host := default "localhost"%string (a_login_host a);
               login_port := default 27017 (a_login_port a);
               oplog_size_mb := size;
               compact := default false (a_compact a);
               ssl := default false (a_ssl a);
               ssl_cert_reqs := reqs;
               check_mode := a_check_mode a |}
      else
        inr (String.concat ""
               ["value of ssl_cert_reqs must be one of: ";
                String.concat ", " ssl_cert_reqs_choices; ", got: "; reqs])
  end.

(** An argument that fails its specification ends the run in the
    constructor, before [main] does anything else. *)
Definition AnsibleModule {W} (a : Args) : M W Module :=
  match argument_spec a with
  | inl module => ret module
  | inr msg => fail_json msg
  end.

(** ** Lines 122-131 *)

(** The arithmetic of line 123 on the byte count [int(...["maxSize"])]:
    [maxSize / 1024 / 1024]. *)
Definition mb_of_bytes (maxSize : Z) : reply spec_float :=
  match int_truediv maxSize 1024 with
  | Raise e => Raise e
  | Ret x => float_truediv_int x 1024
  end.

Section Program.

Context {W : Type} (C : Collaborator W).

Definition get_olplog_size : M W (reply spec_float) :=
  (r ← call (collStats_maxSize C) EvCollStats;
   ret match r with
       | Raise e => Raise e
       | Ret maxSize => mb_of_bytes maxSize
       end).

Definition set_oplog_size (size : Z) : M W (reply unit) :=
  call (replSetResizeOplog C size) (EvResize size).

Definition compact_oplog : M W (reply unit) :=
  call (compact_cmd C) EvCompact.

(** ** [main], lines 134-242 *)

(** The message of lines 219-220 and 229-230. *)
Definition resized_msg (current_oplog_size : spec_float) (size : Z) : string :=
  "oplog has been resized from " +:+ str_float (round_float current_oplog_size)
  +:+ " mb to " +:+ str_int (round_int size) +:+ " mb".

(** Line 210. *)
Definition already_msg (size : Z) : string :=
  "oplog_size_mb is already " +:+ str_int size +:+ " mb".

(** Lines 189-203: authentication and the version check.  The inner
    [fail_json] of line 196 and the one inside [check_compatibility] leave
    the process; an exception of [authenticate] or of
    [check_compatibility] reaches the handler of line 202. *)
Definition main_authenticate (module : Module) (user password : string) : M W unit :=
  (try_except
     (r ← call (authenticate C user password (login_database module))
             (EvAuthenticate user password (login_database module));
      match r with
      | Raise e => ret (Raise e)
      | Ret _ =>
          srv_version ←
            try_except (call (server_info_version C) EvServerInfo)
              (fun excep =>
                 fail_json (String.append "Unable to get MongoDB server version: " excep));
          match check_compatibility C srv_version (PyMongoVersion C) with
          | CompatOk => ret (Ret tt)
          | CompatFailJson msg => fail_json msg
          | CompatRaise e => ret (Raise e)
          end
      end)
     (fun excep => fail_json (String.append "Unable to authenticate with MongoDB: " excep))).

(** Lines 205-240: read, compare, act.  Returns the final [result]. *)
Definition main_oplog (module : Module) (result : gmap string pyval)
  : M W (gmap string pyval) :=
  (current_oplog_size ←
     try_except get_olplog_size
       (fun excep => fail_json (String.append "Unable to get current oplog size: " excep));
   if int_eq_float (oplog_size_mb module) current_oplog_size then
     let result := <["msg" := PyStr (already_msg (oplog_size_mb module))]> result in
     let result := <["compacted" := PyBool false]> result in
     ret result
   else
     state ←
       try_except (call (member_state C) EvMemberState)
         (fun excep => fail_json (String.append "Unable to get member state: " excep));
     if check_mode module then
       let result := <["changed" := PyBool true]> result in
       let result :=
         <["msg" := PyStr (resized_msg current_oplog_size (oplog_size_mb module))]> result in
       if bool_decide (state = "SECONDARY"%string) && compact module then
         ret (<["compacted" := PyBool true]> result)
       else
         ret (<["compacted" := PyBool false]> result)
     else
       _ ← try_except (set_oplog_size (oplog_size_mb module))
             (fun excep => fail_json (String.append "Unable to set oplog size: " excep));
       let result := <["changed" := PyBool true]> result in
       let result :=
         <["msg" := PyStr (resized_msg current_oplog_size (oplog_size_mb module))]> result in
       if bool_decide (state = "SECONDARY"%string) && compact module
          && float_gt_int current_oplog_size (oplog_size_mb module) then
         _ ← try_except compact_oplog
               (fun excep => fail_json (String.append "Error compacting member oplog: " excep));
         ret (<["compacted" := PyBool true]> result)
       else
         ret (<["compacted" := PyBool false]> result)).

Definition main (args : Args) : M W Empty_set :=
  (module ← AnsibleModule args;
   _ ← (if pymongo_found C then ret tt
        else fail_json (missing_required_lib C "pymongo"));
   let result : gmap string pyval := {["changed" := PyBool false]} in
   let connection_params :=
     {| cp_host := login_host module;
        cp_port := login_port module;
        cp_ssl := if ssl module then Some (ssl module, ssl_cert_reqs module) else None |} in
   _ ← try_except (call (MongoClient C connection_params) (EvMongoClient connection_params))
         (fun excep => fail_json (String.append "Unable to connect to MongoDB: " excep));
   creds ←
     match login_user module, login_password module with
     | None, None =>
         mongocnf_creds ← peek (load_mongocnf C) EvLoadMongocnf;
         match mongocnf_creds with
         | Some (user, password) => ret (Some user, Some password)
         | None => ret (None, None)
         end
     | Some user, Some password => ret (Some user, Some password)
     | _, _ =>
         fail_json
           "When supplying login arguments, both 'login_user' and 'login_password' must be provided"
     end;
   match creds with
   | (Some user, Some password) =>
       _ ← main_authenticate module user password;
       result ← main_oplog module result;
       exit_json result
   | _ => exit_json result
   end).

(** A run from world [w]: how it ends, the world it leaves, the calls made. *)
Definition run (args : Args) (w : W) : outcome * W * list event :=
  match main args w with
  | (Exit o, w', t) => (o, w', t)
  | (Next e, _, _) => match e with end
  end.

End Program.

(* ===================================================================== *)
(** * The runs of [main] *)
(* ===================================================================== *)

(** The calls of lines 176-203: connection, credentials, authentication. *)
Definition is_session (ev : event) : bool :=
  match ev with
  | EvMongoClient _ _ | EvLoadMongocnf _ | EvAuthenticate _ _ _ _ | EvServerInfo _ => true
  | _ => false
  end.

(** The [result] of a run that reached line 209. *)
Definition result_of (changed compacted : bool) (msg : string) : gmap string pyval :=
  <["compacted" := PyBool compacted]>
    (<["msg" := PyStr msg]> {["changed" := PyBool changed]}).

(** The condition of line 233. *)
Definition compact_guard (module : Module) (state : string) (current : spec_float) : bool :=
  bool_decide (state = "SECONDARY"%string) && compact module
  && float_gt_int current (oplog_size_mb module).

(** The condition of line 221. *)
Definition compact_predicted (module : Module) (state : string) : bool :=
  bool_decide (state = "SECONDARY"%string) && compact module.

(** Line 242 after lines 205-240. *)
Definition finish (s : step (gmap string pyval)) : outcome :=
  match s with
  | Next result => Exited result
  | Exit o => o
  end.

(** The four conditions under which the oplog is compacted, read off the
    accepted arguments and the calls of the run: the member answered
    [SECONDARY], [compact] is set, the size read is greater than the
    desired one, and the resize call returned. *)
Definition compact_conditions (module : Module) (t : list event) : Prop :=
  exists maxSize current,
    In (EvCollStats (Ret maxSize)) t /\ mb_of_bytes maxSize = Ret current /\
    In (EvMemberState (Ret "SECONDARY"%string)) t /\
    compact module = true /\
    float_gt_int current (oplog_size_mb module) = true /\
    In (EvResize (oplog_size_mb module) (Ret tt)) t.

(** The nine ways through lines 205-240, each with the calls it makes. *)
Inductive oplog_shape (module : Module) : outcome -> list event -> Prop :=
| OS_read_failed e :
    oplog_shape module
      (Failed (String.append "Unable to get current oplog size: " e))
      [EvCollStats (Raise e)]
| OS_size_failed maxSize e :
    mb_of_bytes maxSize = Raise e ->
    oplog_shape module
      (Failed (String.append "Unable to get current oplog size: " e))
      [EvCollStats (Ret maxSize)]
| OS_noop maxSize x :
    mb_of_bytes maxSize = Ret x ->
    int_eq_float (oplog_size_mb module) x = true ->
    oplog_shape module
      (Exited (result_of false false (already_msg (oplog_size_mb module))))
      [EvCollStats (Ret maxSize)]
| OS_state_failed maxSize x e :
    mb_of_bytes maxSize = Ret x ->
    int_eq_float (oplog_size_mb module) x = false ->
    oplog_shape module
      (Failed (String.append "Unable to get member state: " e))
      [EvCollStats (Ret maxSize); EvMemberState (Raise e)]
| OS_simulate maxSize x state :
    mb_of_bytes maxSize = Ret x ->
    int_eq_float (oplog_size_mb module) x = false ->
    check_mode module = true ->
    oplog_shape module
      (Exited (result_of true (compact_predicted module state)
                 (resized_msg x (oplog_size_mb module))))
      [EvCollStats (Ret maxSize); EvMemberState (Ret state)]
| OS_resize_failed maxSize x state e :
    mb_of_bytes maxSize = Ret x ->
    int_eq_float (oplog_size_mb module) x = false ->
    check_mode module = false ->
    oplog_shape module
      (Failed (String.append "Unable to set oplog size: " e))
      [EvCollStats (Ret maxSize); EvMemberState (Ret state);
       EvResize (oplog_size_mb module) (Raise e)]
| OS_resized maxSize x state :
    mb_of_bytes maxSize = Ret x ->
    int_eq_float (oplog_size_mb module) x = false ->
    check_mode module = false ->
    compact_guard module state x = false ->
    oplog_shape module
      (Exited (result_of true false (resized_msg x (oplog_size_mb module))))
      [EvCollStats (Ret maxSize); EvMemberState (Ret state);
       EvResize (oplog_size_mb module) (Ret tt)]
| OS_compact_failed maxSize x state e :
    mb_of_bytes maxSize = Ret x ->
    int_eq_float (oplog_size_mb module) x = false ->
    check_mode module = false ->
    compact_guard module state x = true ->
    oplog_shape module
      (Failed (String.append "Error compacting member oplog: " e))
      [EvCollStats (Ret maxSize); EvMemberState (Ret state);
       EvResize (oplog_size_mb module) (Ret tt); EvCompact (Raise e)]
| OS_compacted maxSize x state :
    mb_of_bytes maxSize = Ret x ->
    int_eq_float (oplog_size_mb module) x = false ->
    check_mode module = false ->
    compact_guard module state x = true ->
    oplog_shape module
      (Exited (result_of true true (resized_msg x (oplog_size_mb module))))
      [EvCollStats (Ret maxSize); EvMemberState (Ret state);
       EvResize (oplog_size_mb module) (Ret tt); EvCompact (Ret tt)].

(** The ways through [main]: the arguments are refused; the session fails;
    there are no credentials and line 242 is reached with the initial
    [result]; or lines 205-240 run after the session calls. *)
Inductive run_shape (args : Args) : outcome -> list event -> Prop :=
| RS_invalid msg :
    argument_spec args = inr msg ->
    run_shape args (Failed msg) []
| RS_session_failed module msg t :
    argument_spec args = inl module ->
    Forall (fun ev => is_session ev = true) t ->
    run_shape args (Failed msg) t
| RS_no_credentials module t :
    argument_spec args = inl module ->
    Forall (fun ev => is_session ev = true) t ->
    run_shape args (Exited {["changed" := PyBool false]}) t
| RS_oplog module t1 o t2 :
    argument_spec args = inl module ->
    Forall (fun ev => is_session ev = true) t1 ->
    oplog_shape module o t2 ->
    run_shape args o (t1 ++ t2).

(** A trace is made of calls the collaborator answered, in order, each
    from the world the previous one left. *)
Inductive calls {W : Type} (C : Collaborator W) : W -> list event -> W -> Prop :=
| calls_nil w : calls C w [] w
| calls_MongoClient p r w w1 t w2 :
    MongoClient C p w = (r, w1) -> calls C w1 t w2 ->
    calls C w (EvMongoClient p r :: t) w2
| calls_load_mongocnf w t w2 :
    calls C w t w2 ->
    calls C w (EvLoadMongocnf (load_mongocnf C w) :: t) w2
| calls_authenticate user password source r w w1 t w2 :
    authenticate C user password source w = (r, w1) -> calls C w1 t w2 ->
    calls C w (EvAuthenticate user password source r :: t) w2
| calls_server_info r w w1 t w2 :
    server_info_version C w = (r, w1) -> calls C w1 t w2 ->
    calls C w (EvServerInfo r :: t) w2
| calls_collStats r w w1 t w2 :
    collStats_maxSize C w = (r, w1) -> calls C w1 t w2 ->
    calls C w (EvCollStats r :: t) w2
| calls_member_state r w w1 t w2 :
    member_state C w = (r, w1) -> calls C w1 t w2 ->
    calls C w (EvMemberState r :: t) w2
| calls_resize size r w w1 t w2 :
    replSetResizeOplog C size w = (r, w1) -> calls C w1 t w2 ->
    calls C w (EvResize size r :: t) w2
| calls_compact r w w1 t w2 :
    compact_cmd C w = (r, w1) -> calls C w1 t w2 ->
    calls C w (EvCompact r :: t) w2.

(** A collaborator that applies writes: [stored] is the configured size in
    bytes; [collStats] reports it, a resize to [size] megabytes that
    returns sets it to [size * 1024 * 1024], and the compact command and
    the session calls leave it as it is. *)
Record applies_writes {W : Type} (C : Collaborator W) (stored : W -> Z) : Prop := {
  aw_MongoClient p w r w1 : MongoClient C p w = (r, w1) -> stored w1 = stored w;
  aw_authenticate u p s w r w1 : authenticate C u p s w = (r, w1) -> stored w1 = stored w;
  aw_server_info w r w1 : server_info_version C w = (r, w1) -> stored w1 = stored w;
  aw_collStats w maxSize w1 :
    collStats_maxSize C w = (Ret maxSize, w1) -> maxSize = stored w;
  aw_resize size w w1 :
    replSetResizeOplog C size w = (Ret tt, w1) -> stored w1 = size * 1048576;
  aw_compact w r w1 : compact_cmd C w = (r, w1) -> stored w1 = stored w
}.

(* ===================================================================== *)
(** * A replica-set member that applies what it is told *)
(* ===================================================================== *)

(** The state of one member: the configured oplog size in bytes, the
    replication state, and how the next resize or compact answers. *)
Record Member : Type := {
  m_maxSize : Z;
  m_state : string;
  m_version : string;
  m_mongocnf : option (string * string);
  m_resize_error : option string;
  m_compact_error : option string
}.

Definition set_maxSize (bytes : Z) (w : Member) : Member :=
  {| m_maxSize := bytes;
     m_state := m_state w;
     m_version := m_version w;
     m_mongocnf := m_mongocnf w;
     m_resize_error := m_resize_error w;
     m_compact_error := m_compact_error w |}.

(** [replSetResizeOplog] takes megabytes; [collStats] reports bytes. *)
Definition member : Collaborator Member := {|
  pymongo_found := true;
  missing_required_lib := fun lib =>
    String.concat "" ["Failed to import the required Python library ("; lib; ")"]%string;
  PyMongoVersion := "3.12.0";
  MongoClient := fun _ w => (Ret tt, w);
  load_mongocnf := m_mongocnf;
  authenticate := fun _ _ _ w => (Ret tt, w);
  server_info_version := fun w => (Ret (m_version w), w);
  check_compatibility := fun _ _ => CompatOk;
  collStats_maxSize := fun w => (Ret (m_maxSize w), w);
  member_state := fun w => (Ret (m_state w), w);
  replSetResizeOplog := fun size w =>
    match m_resize_error w with
    | Some e => (Raise e, w)
    | None => (Ret tt, set_maxSize (size * 1048576) w)
    end;
  compact_cmd := fun w =>
    match m_compact_error w with
    | Some e => (Raise e, w)
    | None => (Ret tt, w)
    end
|}.

Definition member_of_bytes (bytes : Z) (state : string) : Member :=
  {| m_maxSize := bytes;
     m_state := state;
     m_version := "4.4.0";
     m_mongocnf := None;
     m_resize_error := None;
     m_compact_error := None |}.

Definition a_member (mb : Z) (state : string) : Member :=
  member_of_bytes (mb * 1048576) state.

(** The same member, answering the next resize or compact with an error. *)
Definition refusing (resize compact : option string) (w : Member) : Member :=
  {| m_maxSize := m_maxSize w;
     m_state := m_state w;
     m_version := m_version w;
     m_mongocnf := m_mongocnf w;
     m_resize_error := resize;
     m_compact_error := compact |}.

(** A task with credentials, a size, and the two flags. *)
Definition task (size : Z) (compact check : bool) : Args :=
  {| a_login_user := Some "admin"%string;
     a_login_password := Some "secret"%string;
     a_login_database := None;
     a_login_host := None;
     a_login_port := None;
     a_oplog_size_mb := Some (IntArg size);
     a_compact := Some compact;
     a_ssl := None;
     a_ssl_cert_reqs := None;
     a_check_mode := check |}.

(** What [AnsibleModule] makes of it. *)
Definition task_module (size : Z) (compact check : bool) : Module :=
  {| login_user := Some "admin"%string;
     login_password := Some "secret"%string;
     login_database := "admin";
     login_host := "localhost";
     login_port := 27017;
     oplog_size_mb := size;
     compact := compact;
     ssl := false;
     ssl_cert_reqs := "CERT_REQUIRED";
     check_mode := check |}.

(** The same task without [login_user] and [login_password]. *)
Definition anonymous (a : Args) : Args :=
  {| a_login_user := None;
     a_login_password := None;
     a_login_database := a_login_database a;
     a_login_host := a_login_host a;
     a_login_port := a_login_port a;
     a_oplog_size_mb := a_oplog_size_mb a;
     a_compact := a_compact a;
     a_ssl := a_ssl a;
     a_ssl_cert_reqs := a_ssl_cert_reqs a;
     a_check_mode := a_check_mode a |}.


Definition session_events : list event :=
  [EvMongoClient {| cp_host := "localhost"; cp_port := 27017; cp_ssl := None |} (Ret tt);
   EvAuthenticate "admin" "secret" "admin" (Ret tt);
   EvServerInfo (Ret "4.4.0"%string)].

(* ===================================================================== *)
(** * The session of [main], call by call *)
(* ===================================================================== *)

(** [connection_params] as lines 167-174 build it. *)
Definition connection_params_of (module : Module) : ConnectionParams :=
  {| cp_host := login_host module;
     cp_port := login_port module;
     cp_ssl := if ssl module then Some (ssl module, ssl_cert_reqs module) else None |}.

(** The message of line 187. *)
Definition both_required_msg : string :=
  "When supplying login arguments, both 'login_user' and 'login_password' must be provided".

(** Where the credentials used in line 191 come from (lines 181-185), with
    the call made to get them: the two arguments, or the credentials file
    when neither argument is given. *)
Inductive credentials (module : Module) : list event -> string -> string -> Prop :=
| cred_given user password :
    login_user module = Some user ->
    login_password module = Some password ->
    credentials module [] user password
| cred_file user password :
    login_user module = None ->
    login_password module = None ->
    credentials module [EvLoadMongocnf (Some (user, password))] user password.

(** The ways through lines 189-203; [None] is the way on to line 205. *)
Inductive auth_shape {W : Type} (C : Collaborator W) (module : Module)
    (user password : string) : option outcome -> list event -> Prop :=
| AS_auth_failed e :
    auth_shape C module user password
      (Some (Failed ("Unable to authenticate with MongoDB: " +:+ e)))
      [EvAuthenticate user password (login_database module) (Raise e)]
| AS_version_failed e :
    auth_shape C module user password
      (Some (Failed ("Unable to get MongoDB server version: " +:+ e)))
      [EvAuthenticate user password (login_database module) (Ret tt);
       EvServerInfo (Raise e)]
| AS_incompatible version msg :
    check_compatibility C version (PyMongoVersion C) = CompatFailJson msg ->
    auth_shape C module user password
      (Some (Failed msg))
      [EvAuthenticate user password (login_database module) (Ret tt);
       EvServerInfo (Ret version)]
| AS_compatibility_raised version e :
    check_compatibility C version (PyMongoVersion C) = CompatRaise e ->
    auth_shape C module user password
      (Some (Failed ("Unable to authenticate with MongoDB: " +:+ e)))
      [EvAuthenticate user password (login_database module) (Ret tt);
       EvServerInfo (Ret version)]
| AS_authenticated version :
    check_compatibility C version (PyMongoVersion C) = CompatOk ->
    auth_shape C module user password None
      [EvAuthenticate user password (login_database module) (Ret tt);
       EvServerInfo (Ret version)].

(** The ways through lines 150-203. *)
Inductive session_shape {W : Type} (C : Collaborator W) (module : Module)
  : option outcome -> list event -> Prop :=
| SS_no_pymongo :
    pymongo_found C = false ->
    session_shape C module (Some (Failed (missing_required_lib C "pymongo"))) []
| SS_connect_failed e :
    session_shape C module
      (Some (Failed ("Unable to connect to MongoDB: " +:+ e)))
      [EvMongoClient (connection_params_of module) (Raise e)]
| SS_one_credential :
    (login_user module = None <-> login_password module <> None) ->
    session_shape C module
      (Some (Failed both_required_msg))
      [EvMongoClient (connection_params_of module) (Ret tt)]
| SS_no_credentials :
    login_user module = None ->
    login_password module = None ->
    session_shape C module
      (Some (Exited {["changed" := PyBool false]}))
      [EvMongoClient (connection_params_of module) (Ret tt); EvLoadMongocnf None]
| SS_auth tc user password r ta :
    credentials module tc user password ->
    auth_shape C module user password r ta ->
    session_shape C module r
      (EvMongoClient (connection_params_of module) (Ret tt) :: tc ++ ta).

(** The ways through [main], call by call. *)
Inductive main_shape {W : Type} (C : Collaborator W) (args : Args)
  : outcome -> list event -> Prop :=
| MS_invalid msg :
    argument_spec args = inr msg ->
    main_shape C args (Failed msg) []
| MS_session module o t :
    argument_spec args = inl module ->
    session_shape C module (Some o) t ->
    main_shape C args o t
| MS_oplog module t1 o t2 :
    argument_spec args = inl module ->
    session_shape C module None t1 ->
    oplog_shape module o t2 ->
    main_shape C args o (t1 ++ t2).

(** The place of a call in the order of the source. *)
Definition call_rank (ev : event) : nat :=
  match ev with
  | EvMongoClient _ _ => 0
  | EvLoadMongocnf _ => 1
  | EvAuthenticate _ _ _ _ => 2
  | EvServerInfo _ => 3
  | EvCollStats _ => 4
  | EvMemberState _ => 5
  | EvResize _ _ => 6
  | EvCompact _ => 7
  end%nat.

(** A collaborator whose stored size changes only by a resize that
    returns: every other call, and a resize that raises, leaves it. *)
Record only_resize_writes {W : Type} (C : Collaborator W) (stored : W -> Z) : Prop := {
  orw_MongoClient p w r w1 : MongoClient C p w = (r, w1) -> stored w1 = stored w;
  orw_authenticate u p s w r w1 : authenticate C u p s w = (r, w1) -> stored w1 = stored w;
  orw_server_info w r w1 : server_info_version C w = (r, w1) -> stored w1 = stored w;
  orw_collStats w r w1 : collStats_maxSize C w = (r, w1) -> stored w1 = stored w;
  orw_member_state w r w1 : member_state C w = (r, w1) -> stored w1 = stored w;
  orw_resize size w w1 :
    replSetResizeOplog C size w = (Ret tt, w1) -> stored w1 = size * 1048576;
  orw_resize_failed size e w w1 :
    replSetResizeOplog C size w = (Raise e, w1) -> stored w1 = stored w;
  orw_compact w r w1 : compact_cmd C w = (r, w1) -> stored w1 = stored w
}.

(** ** A member with faults *)

(** What can go wrong around the member of the previous section. *)
Record Faults : Type := {
  f_pymongo_found : bool;
  f_connect : option string;
  f_authenticate : option string;
  f_server_info : option string;
  f_compatibility : compat_reply;
  f_collStats : option string;
  f_member_state : option string
}.

Definition no_faults : Faults :=
  {| f_pymongo_found := true;
     f_connect := None;
     f_authenticate := None;
     f_server_info := None;
     f_compatibility := CompatOk;
     f_collStats := None;
     f_member_state := None |}.

Definition answer {A : Type} (fault : option string) (a : A) : reply A :=
  match fault with
  | Some e => Raise e
  | None => Ret a
  end.

Definition faulty (f : Faults) : Collaborator Member := {|
  pymongo_found := f_pymongo_found f;
  missing_required_lib := missing_required_lib member;
  PyMongoVersion := PyMongoVersion member;
  MongoClient := fun _ w => (answer (f_connect f) tt, w);
  load_mongocnf := m_mongocnf;
  authenticate := fun _ _ _ w => (answer (f_authenticate f) tt, w);
  server_info_version := fun w => (answer (f_server_info f) (m_version w), w);
  check_compatibility := fun _ _ => f_compatibility f;
  collStats_maxSize := fun w => (answer (f_collStats f) (m_maxSize w), w);
  member_state := fun w => (answer (f_member_state f) (m_state w), w);
  replSetResizeOplog := replSetResizeOplog member;
  compact_cmd := compact_cmd member
|}.

(** The member with a credentials file. *)
Definition with_mongocnf (user password : string) (w : Member) : Member :=
  {| m_maxSize := m_maxSize w;
     m_state := m_state w;
     m_version := m_version w;
     m_mongocnf := Some (user, password);
     m_resize_error := m_resize_error w;
     m_compact_error := m_compact_error w |}.

(** The task with [login_password] left out. *)
Definition without_password (a : Args) : Args :=
  {| a_login_user := a_login_user a;
     a_login_password := None;
     a_login_database := a_login_database a;
     a_login_host := a_login_host a;
     a_login_port := a_login_port a;
     a_oplog_size_mb := a_oplog_size_mb a;
     a_compact := a_compact a;
     a_ssl := a_ssl a;
     a_ssl_cert_reqs := a_ssl_cert_reqs a;
     a_check_mode := a_check_mode a |}.


(** ** Reading a trace *)

(** The exception a call raised, if it did. *)
Definition raised (ev : event) : option string :=
  match ev with
  | EvMongoClient _ (Raise e)
  | EvAuthenticate _ _ _ (Raise e)
  | EvServerInfo (Raise e)
  | EvCollStats (Raise e)
  | EvMemberState (Raise e)
  | EvResize _ (Raise e)
  | EvCompact (Raise e) => Some e
  | _ => None
  end.

(** The size of the last resize that returned. *)
Fixpoint last_resize (t : list event) : option Z :=
  match t with
  | [] => None
  | ev :: t' =>
      match last_resize t', ev with
      | Some size, _ => Some size
      | None, EvResize size (Ret _) => Some size
      | None, _ => None
      end
  end.

(** The same task run with or without [--check]. *)
Definition with_check_mode (check : bool) (a : Args) : Args :=
  {| a_login_user := a_login_user a;
     a_login_password := a_login_password a;
     a_login_database := a_login_database a;
     a_login_host := a_login_host a;
     a_login_port := a_login_port a;
     a_oplog_size_mb := a_oplog_size_mb a;
     a_compact := a_compact a;
     a_ssl := a_ssl a;
     a_ssl_cert_reqs := a_ssl_cert_reqs a;
     a_check_mode := check |}.

Definition in_check_mode (check : bool) (module : Module) : Module :=
  {| login_user := login_user module;
     login_password := login_password module;
     login_database := login_database module;
     login_host := login_host module;
     login_port := login_port module;
     oplog_size_mb := oplog_size_mb module;
     compact := compact module;
     ssl := ssl module;
     ssl_cert_reqs := ssl_cert_reqs module;
     check_mode := check |}.

(** ** Scenarios *)

Definition pymongo_missing : Faults :=
  {| f_pymongo_found := false;
     f_connect := None;
     f_authenticate := None;
     f_server_info := None;
     f_compatibility := CompatOk;
     f_collStats := None;
     f_member_state := None |}.

Definition connect_fails (e : string) : Faults :=
  {| f_pymongo_found := true;
     f_connect := Some e;
     f_authenticate := None;
     f_server_info := None;
     f_compatibility := CompatOk;
     f_collStats := None;
     f_member_state := None |}.

Definition authenticate_fails (e : string) : Faults :=
  {| f_pymongo_found := true;
     f_connect := None;
     f_authenticate := Some e;
     f_server_info := None;
     f_compatibility := CompatOk;
     f_collStats := None;
     f_member_state := None |}.

Definition incompatible (r : compat_reply) : Faults :=
  {| f_pymongo_found := true;
     f_connect := None;
     f_authenticate := None;
     f_server_info := None;
     f_compatibility := r;
     f_collStats := None;
     f_member_state := None |}.

Definition member_state_fails (e : string) : Faults :=
  {| f_pymongo_found := true;
     f_connect := None;
     f_authenticate := None;
     f_server_info := None;
     f_compatibility := CompatOk;
     f_collStats := None;
     f_member_state := Some e |}.

(** The task over TLS, without certificate validation. *)
Definition over_ssl (a : Args) : Args :=
  {| a_login_user := a_login_user a;
     a_login_password := a_login_password a;
     a_login_database := a_login_database a;
     a_login_host := a_login_host a;
     a_login_port := a_login_port a;
     a_oplog_size_mb := a_oplog_size_mb a;
     a_compact := a_compact a;
     a_ssl := Some true;
     a_ssl_cert_reqs := Some "CERT_NONE"%string;
     a_check_mode := a_check_mode a |}.

(** What [AnsibleModule] makes of a [task] given these credentials. *)
Definition task_module_with (user password : option string) (size : Z)
    (compact check : bool) : Module :=
  {| login_user := user;
     login_password := password;
     login_database := "admin";
     login_host := "localhost";
     login_port := 27017;
     oplog_size_mb := size;
     compact := compact;
     ssl := false;
     ssl_cert_reqs := "CERT_REQUIRED";
     check_mode := check |}.

Definition local : ConnectionParams :=
  {| cp_host := "localhost"; cp_port := 27017; cp_ssl := None |}.

(** ** Whole numbers and floats *)

(** An [int] of at most 53 significant bits: the integers that a binary64
    float holds exactly. *)
Definition exact_float (z : Z) : bool :=
  Z.abs z mod 2 ^ Z.max 0 (Z.log2 (Z.abs z) - 52) =? 0.

(** The value of a finite float, as a fraction. *)
Definition float_ratio (x : spec_float) : Z * Z :=
  match x with
  | S754_finite s m e =>
      if 0 <=? e then (cond_Zopp s (Zpos m) * 2 ^ e, 1)
      else (cond_Zopp s (Zpos m), 2 ^ (- e))
  | _ => (0, 1)
  end.

Definition float_sign (x : spec_float) : bool :=
  match x with
  | S754_zero s | S754_infinity s | S754_finite s _ _ => s
  | S754_nan => false
  end.

(** [z] is the integer nearest to [x], the even one of the two when [x] is
    half way between them. *)
Definition nearest_whole (x : spec_float) (z : Z) : Prop :=
  let '(num, den) := float_ratio x in
  2 * Z.abs (num - z * den) <= den /\ (2 * Z.abs (num - z * den) = den -> Z.even z = true).

(** How Python prints a float that holds the whole number [n], of at most
    16 digits: a sign, the digits of [n], and [.0]. *)
Definition whole_text (negative : bool) (n : Z) : string :=
  (if negative then "-" else "") +:+ str_int n +:+ ".0".

(* ===================================================================== *)
(** * The arithmetic of line 123 *)
(* ===================================================================== *)

Lemma digits2_pos_size p : digits2_pos p = Pos.size p.
Proof. induction p; simpl; congruence. Qed.

Lemma Zdigits2_log2 z : 0 < z -> Zdigits2 z = Z.log2 z + 1.
Proof.
  destruct z as [|p|p]; try lia. intros _. simpl. rewrite digits2_pos_size.
  destruct p; simpl; lia.
Qed.

Lemma div_eucl_pow2 a j : 0 <= j -> Z.div_eucl (a * 2 ^ j) (2 ^ j) = (a, 0).
Proof.
  intros Hj. assert (H2 : 0 < 2 ^ j) by (apply Z.pow_pos_nonneg; lia).
  pose proof (Z.div_mul a (2 ^ j) ltac:(lia)) as Hd.
  pose proof (Z.mod_mul a (2 ^ j) ltac:(lia)) as Hm.
  unfold Z.div, Z.modulo in *. destruct (Z.div_eucl (a * 2 ^ j) (2 ^ j)). simpl in *. congruence.
Qed.

Lemma new_location_zero n : new_location n 0 = loc_Exact.
Proof. unfold new_location, new_location_even, new_location_odd. destruct (Z.even n); reflexivity. Qed.

(** Rounding a 54-bit even mantissa drops its last bit and nothing else. *)
Lemma binary_round_aux_54 (s : bool) (p : positive) (e : Z) :
  Z.log2 (Zpos p) = 52 -> emin <= e + 1 -> e + 1 <= emax - prec ->
  binary_round_aux prec emax s (Zpos p~0) e loc_Exact = S754_finite s p (e + 1).
Proof.
  intros Hp He1 He2.
  assert (Hd : Zpos (digits2_pos p) = 53).
  { pose proof (Zdigits2_log2 (Zpos p) ltac:(lia)) as H. unfold Zdigits2 in H. lia. }
  unfold binary_round_aux, shr_fexp.
  assert (Hd' : Zdigits2 (Zpos p~0) = 54).
  { simpl. rewrite Pos2Z.inj_succ. lia. }
  rewrite Hd'.
  replace (fexp prec emax (54 + e) - e) with 1 by (unfold fexp, SpecFloat.emin, emin, prec, emax in *; lia).
  cbn [shr shr_record_of_loc iter_pos shr_1 shr_m loc_of_shr_record round_nearest_even orb].
  cbn [Zdigits2]. rewrite Hd.
  replace (fexp prec emax (53 + (e + 1)) - (e + 1)) with 0 by (unfold fexp, SpecFloat.emin, emin, prec, emax in *; lia).
  cbn [shr shr_record_of_loc shr_m].
  destruct (Z.leb_spec (e + 1) (emax - prec)); [reflexivity | lia].
Qed.

(** Division of a mantissa of at most 53 bits by a power of two is exact. *)
Lemma div_core_pow2 (s : bool) (m1 : positive) (e1 e2 j : Z) :
  let d1 := Z.log2 (Zpos m1) + 1 in
  d1 <= 53 -> 0 <= j ->
  emin < e1 - e2 + d1 - j - 53 <= emax - prec ->
  (let '(mz, ez, lz) := SFdiv_core_binary prec emax (Zpos m1) e1 (2 ^ j) e2 in
   binary_round_aux prec emax s mz ez lz)
  = S754_finite s (Z.to_pos (Zpos m1 * 2 ^ (53 - d1))) (e1 - e2 + d1 - j - 53).
Proof.
  intros d1 Hd1 Hj He.
  assert (H2j : 0 < 2 ^ j) by (apply Z.pow_pos_nonneg; lia).
  unfold SFdiv_core_binary.
  rewrite (Zdigits2_log2 (Zpos m1)) by lia.
  rewrite (Zdigits2_log2 (2 ^ j)) by lia.
  rewrite Z.log2_pow2 by lia. fold d1.
  set (e' := Z.min _ _).
  assert (He' : e' = e1 - e2 + d1 - j - 54).
  { subst e'. unfold fexp, SpecFloat.emin, emin, prec, emax in *. lia. }
  rewrite He'. clear e' He'.
  replace (e1 - e2 - (e1 - e2 + d1 - j - 54)) with (54 + j - d1) by lia.
  destruct (54 + j - d1) as [|sp|sp] eqn:Hs; try lia.
  rewrite Z.shiftl_mul_pow2 by lia. rewrite <- Hs.
  replace (2 ^ (54 + j - d1)) with (2 ^ (54 - d1) * 2 ^ j) by (rewrite <- Z.pow_add_r by lia; f_equal; lia).
  rewrite Z.mul_assoc, div_eucl_pow2 by lia.
  rewrite new_location_zero.
  assert (Hpos : 0 < Zpos m1 * 2 ^ (53 - d1)).
  { apply Z.mul_pos_pos; [lia | apply Z.pow_pos_nonneg; lia]. }
  replace (2 ^ (54 - d1)) with (2 ^ (53 - d1) * 2)
    by (replace (54 - d1) with (53 - d1 + 1) by lia; rewrite Z.pow_add_r by lia; reflexivity).
  replace (Zpos m1 * (2 ^ (53 - d1) * 2)) with (Zpos (Z.to_pos (Zpos m1 * 2 ^ (53 - d1)))~0)
    by (rewrite Pos2Z.inj_xO, Z2Pos.id by lia; lia).
  rewrite binary_round_aux_54.
  - f_equal. lia.
  - rewrite Z2Pos.id by lia. rewrite Z.log2_mul_pow2 by lia. lia.
  - lia.
  - lia.
Qed.

Lemma float_of_int_1024 : float_of_int 1024 = Ret (S754_finite false 4503599627370496 (-42)).
Proof. reflexivity. Qed.

(** Below [2^53] bytes both divisions of line 123 are exact: the result is
    the float [maxSize * 2^-20], written with a 53-bit mantissa. *)
Lemma mb_of_bytes_exact (a : Z) :
  a <> 0 -> Z.abs a < 2 ^ 53 ->
  mb_of_bytes a =
  Ret (S754_finite (a <? 0) (Z.to_pos (Z.abs a * 2 ^ (52 - Z.log2 (Z.abs a))))
         (Z.log2 (Z.abs a) - 72)).
Proof.
  intros Ha Hlt.
  set (L := Z.log2 (Z.abs a)).
  assert (HL : 0 <= L < 53).
  { subst L. split; [apply Z.log2_nonneg |]. apply Z.log2_lt_pow2; lia. }
  assert (Habs : exists p, Z.abs a = Zpos p) by (destruct a; [lia | eauto | eauto]).
  destruct Habs as [p Hp].
  assert (Hstep1 : int_truediv a 1024 =
            Ret (S754_finite (a <? 0) (Z.to_pos (Z.abs a * 2 ^ (52 - L))) (L - 62))).
  { unfold int_truediv.
    replace (xorb (a <? 0) (1024 <? 0)) with (a <? 0) by (cbn; rewrite xorb_false_r; reflexivity).
    change (Z.abs 1024) with (2 ^ 10).
    pose proof (div_core_pow2 (a <? 0) p 0 0 10) as H. cbv zeta in H.
    rewrite <- Hp in H. fold L in H.
    replace (53 - (L + 1)) with (52 - L) in H by lia.
    replace (0 - 0 + (L + 1) - 10 - 53) with (L - 62) in H by lia.
    specialize (H ltac:(lia) ltac:(lia) ltac:(unfold emin, emax, prec; lia)).
    destruct a; [lia | |];
      (destruct (SFdiv_core_binary _ _ _ _ _ _) as [[mz ez] lz]; rewrite H; reflexivity). }
  unfold mb_of_bytes. rewrite Hstep1. unfold float_truediv_int.
  rewrite float_of_int_1024. cbv iota beta.
  f_equal. unfold SFdiv.
  replace (xorb (a <? 0) false) with (a <? 0) by (rewrite xorb_false_r; reflexivity).
  assert (Hm : 0 < Z.abs a * 2 ^ (52 - L)).
  { apply Z.mul_pos_pos; [lia | apply Z.pow_pos_nonneg; lia]. }
  assert (Hlog : Z.log2 (Zpos (Z.to_pos (Z.abs a * 2 ^ (52 - L)))) = 52).
  { rewrite Z2Pos.id by lia. rewrite Z.log2_mul_pow2 by lia. fold L. lia. }
  pose proof (div_core_pow2 (a <? 0) (Z.to_pos (Z.abs a * 2 ^ (52 - L))) (L - 62) (-42) 52) as H.
  cbv zeta in H. rewrite Hlog in H.
  specialize (H ltac:(lia) ltac:(lia) ltac:(unfold emin, emax, prec; lia)).
  change (Zpos 4503599627370496) with (2 ^ 52).
  destruct (SFdiv_core_binary _ _ _ _ _ _) as [[mz ez] lz]. rewrite H.
  f_equal; [| lia]. rewrite Z2Pos.id by lia.
  replace (53 - (52 + 1)) with 0 by lia. f_equal. lia.
Qed.

(** The comparison of the size in megabytes with an [int] is the
    comparison of the byte count with that many megabytes. *)
Lemma mb_of_bytes_compare (a z : Z) :
  Z.abs a < 2 ^ 53 ->
  exists x, mb_of_bytes a = Ret x /\
            float_compare_int x z = Some (a ?= z * 1048576).
Proof.
  intros Hlt. destruct (Z.eq_dec a 0) as [-> | Ha].
  - exists (S754_zero false). split; [reflexivity |]. destruct z; reflexivity.
  - eexists. split; [apply mb_of_bytes_exact; assumption |].
    set (L := Z.log2 (Z.abs a)).
    assert (HL : 0 <= L < 53).
    { subst L. split; [apply Z.log2_nonneg |]. apply Z.log2_lt_pow2; lia. }
    assert (HK : 0 < 2 ^ (52 - L)) by (apply Z.pow_pos_nonneg; lia).
    unfold float_compare_int.
    destruct (Z.leb_spec 0 (L - 72)); [lia |]. f_equal.
    rewrite Z2Pos.id by (apply Z.mul_pos_pos; lia).
    replace (cond_Zopp (a <? 0) (Z.abs a * 2 ^ (52 - L))) with (a * 2 ^ (52 - L)).
    2:{ unfold cond_Zopp. destruct (Z.ltb_spec a 0); lia. }
    replace (- (L - 72)) with (20 + (52 - L)) by lia.
    rewrite Z.pow_add_r by lia. change (2 ^ 20) with 1048576.
    rewrite Z.mul_assoc.
    destruct (Z.compare_spec a (z * 1048576));
      [apply Z.compare_eq_iff | apply Z.compare_lt_iff | apply Z.compare_gt_iff]; nia.
Qed.

(** ** [round(x, 0)] *)

Lemma pos_iter_xO (m d : positive) : Zpos (Pos.iter xO m d) = Zpos m * 2 ^ Zpos d.
Proof.
  induction d as [| d IH] using Pos.peano_ind.
  - cbn [Pos.iter]. rewrite Pos2Z.inj_xO. lia.
  - rewrite Pos.iter_succ, Pos2Z.inj_xO, IH, Pos2Z.inj_succ, Z.pow_succ_r by lia. lia.
Qed.

(** A 53-bit mantissa in the exponent range is left as it is. *)
Lemma binary_round_aux_53 (s : bool) (p : positive) (e : Z) :
  Z.log2 (Zpos p) = 52 -> emin <= e <= emax - prec ->
  binary_round_aux prec emax s (Zpos p) e loc_Exact = S754_finite s p e.
Proof.
  intros Hp He.
  assert (Hd : Zdigits2 (Zpos p) = 53) by (rewrite Zdigits2_log2; lia).
  unfold binary_round_aux, shr_fexp. rewrite Hd.
  replace (fexp prec emax (53 + e) - e) with 0
    by (unfold fexp, SpecFloat.emin, emin, prec, emax in *; lia).
  cbn [shr shr_record_of_loc shr_m loc_of_shr_record round_nearest_even].
  rewrite Hd.
  replace (fexp prec emax (53 + e) - e) with 0
    by (unfold fexp, SpecFloat.emin, emin, prec, emax in *; lia).
  cbn [shr shr_record_of_loc shr_m].
  destruct (Z.leb_spec e (emax - prec)); [reflexivity | lia].
Qed.

(** An [int] of magnitude below [2^53] converts to [float] exactly. *)
Lemma binary_normalize_exact (n : Z) :
  n <> 0 -> Z.abs n < 2 ^ 53 ->
  binary_normalize prec emax n 0 false =
  S754_finite (n <? 0) (Z.to_pos (Z.abs n * 2 ^ (52 - Z.log2 (Z.abs n))))
    (Z.log2 (Z.abs n) - 52).
Proof.
  intros Hn Hlt.
  set (L := Z.log2 (Z.abs n)).
  assert (HL : 0 <= L < 53).
  { subst L. split; [apply Z.log2_nonneg |]. apply Z.log2_lt_pow2; lia. }
  assert (Hgen : forall (s : bool) (m : positive),
             Zpos m = Z.abs n ->
             binary_round prec emax s m 0 =
             S754_finite s (Z.to_pos (Z.abs n * 2 ^ (52 - L))) (L - 52)).
  { intros s m Hm. unfold binary_round.
    change (Zpos (digits2_pos m)) with (Zdigits2 (Zpos m)).
    rewrite Zdigits2_log2 by lia. rewrite Hm. fold L.
    replace (fexp prec emax (L + 1 + 0)) with (L - 52)
      by (unfold fexp, SpecFloat.emin, emin, prec, emax in *; lia).
    unfold shl_align.
    destruct (L - 52 - 0) as [| d | d] eqn:Hd; try lia.
    - assert (L = 52) by lia.
      replace (52 - L) with 0 by lia. rewrite Z.mul_1_r, <- Hm. cbn [Z.to_pos].
      replace (L - 52) with 0 by lia.
      apply binary_round_aux_53; [rewrite Hm; fold L; lia |].
      unfold emin, emax, prec. lia.
    - assert (Hiter : Zpos (Pos.iter xO m d) = Z.abs n * 2 ^ (52 - L)).
      { rewrite pos_iter_xO, Hm. f_equal. f_equal. lia. }
      rewrite binary_round_aux_53.
      + f_equal. rewrite <- Hiter. reflexivity.
      + rewrite Hiter, Z.log2_mul_pow2 by lia. fold L. lia.
      + unfold emin, emax, prec. lia. }
  destruct n as [| p | p]; [lia | |]; cbn [binary_normalize]; apply Hgen; reflexivity.
Qed.

Lemma nearest_even_scale (m k j : Z) :
  0 <= k -> 0 <= j -> nearest_even (m * 2 ^ j) (k + j) = nearest_even m k.
Proof.
  intros Hk Hj. unfold nearest_even.
  assert (Hpk : 0 < 2 ^ k) by (apply Z.pow_pos_nonneg; lia).
  assert (Hpj : 0 < 2 ^ j) by (apply Z.pow_pos_nonneg; lia).
  rewrite Z.pow_add_r by lia.
  rewrite Z.div_mul_cancel_r by lia.
  rewrite Z.mul_mod_distr_r by lia.
  replace (2 * (m mod 2 ^ k * 2 ^ j) ?= 2 ^ k * 2 ^ j) with (2 * (m mod 2 ^ k) ?= 2 ^ k).
  - reflexivity.
  - destruct (Z.compare_spec (2 * (m mod 2 ^ k)) (2 ^ k)); symmetry;
      [apply Z.compare_eq_iff | apply Z.compare_lt_iff | apply Z.compare_gt_iff]; nia.
Qed.

(** [nearest_even m k] is within half a unit of [m / 2^k]. *)
Lemma nearest_even_near (m k : Z) :
  0 <= m -> 0 <= k ->
  0 <= nearest_even m k /\ 2 * Z.abs (m - nearest_even m k * 2 ^ k) <= 2 ^ k.
Proof.
  intros Hm Hk. unfold nearest_even.
  assert (Hpk : 0 < 2 ^ k) by (apply Z.pow_pos_nonneg; lia).
  pose proof (Z.div_mod m (2 ^ k) ltac:(lia)) as Hdm.
  pose proof (Z.mod_pos_bound m (2 ^ k) Hpk) as Hr.
  pose proof (Z.div_pos m (2 ^ k) Hm Hpk) as Hq.
  set (q := m / 2 ^ k) in *. set (r := m mod 2 ^ k) in *. set (P := 2 ^ k) in *.
  destruct (Z.compare_spec (2 * r) P); [destruct (Z.even q) | |]; split; nia.
Qed.

(** Below [2^53] bytes, [round(current, 0)] is an integer [n] of
    megabytes, the nearest to the byte count. *)
Lemma round_mb_of_bytes (a : Z) :
  Z.abs a < 2 ^ 53 ->
  exists current n,
    mb_of_bytes a = Ret current /\
    float_compare_int (round_float current) n = Some Eq /\
    2 * Z.abs (a - n * 1048576) <= 1048576.
Proof.
  intros Hlt. destruct (Z.eq_dec a 0) as [-> | Ha].
  - exists (S754_zero false), 0. split_and!; [reflexivity | reflexivity | cbn; lia].
  - eexists. eexists (cond_Zopp (a <? 0) (nearest_even (Z.abs a) 20)).
    split; [apply mb_of_bytes_exact; assumption |].
    set (L := Z.log2 (Z.abs a)).
    assert (HL : 0 <= L < 53).
    { subst L. split; [apply Z.log2_nonneg |]. apply Z.log2_lt_pow2; lia. }
    assert (HK : 0 < 2 ^ (52 - L)) by (apply Z.pow_pos_nonneg; lia).
    pose proof (nearest_even_near (Z.abs a) 20 ltac:(lia) ltac:(lia)) as [Hn0 Hnear].
    change (2 ^ 20) with 1048576 in Hnear.
    set (n0 := nearest_even (Z.abs a) 20) in *.
    split.
    + unfold round_float.
      destruct (Z.leb_spec 0 (L - 72)); [lia |].
      rewrite Z2Pos.id by (apply Z.mul_pos_pos; lia).
      replace (- (L - 72)) with (20 + (52 - L)) by lia.
      rewrite nearest_even_scale by lia. fold n0.
      destruct (Z.eqb_spec n0 0) as [-> | Hn0'].
      * unfold cond_Zopp. destruct (a <? 0); reflexivity.
      * assert (Hn53 : Z.abs (cond_Zopp (a <? 0) n0) < 2 ^ 53).
        { assert (n0 * 1048576 < 2 ^ 53 + 1048576) by lia.
          change (2 ^ 53) with 9007199254740992 in *.
          unfold cond_Zopp. destruct (a <? 0); lia. }
        rewrite binary_normalize_exact by (unfold cond_Zopp; destruct (a <? 0); lia).
        set (n := cond_Zopp (a <? 0) n0) in *.
        set (Ln := Z.log2 (Z.abs n)).
        assert (HLn : 0 <= Ln < 53).
        { subst Ln. split; [apply Z.log2_nonneg |]. apply Z.log2_lt_pow2; [| assumption].
          subst n. unfold cond_Zopp. destruct (a <? 0); lia. }
        assert (HKn : 0 < 2 ^ (52 - Ln)) by (apply Z.pow_pos_nonneg; lia).
        assert (Hnz : n <> 0) by (subst n; unfold cond_Zopp; destruct (a <? 0); lia).
        unfold float_compare_int. f_equal.
        rewrite Z2Pos.id by (apply Z.mul_pos_pos; lia).
        replace (cond_Zopp (n <? 0) (Z.abs n * 2 ^ (52 - Ln))) with (n * 2 ^ (52 - Ln))
          by (unfold cond_Zopp; destruct (Z.ltb_spec n 0); lia).
        destruct (Z.leb_spec 0 (Ln - 52)).
        -- replace (Ln - 52) with 0 by lia. replace (52 - Ln) with 0 by lia.
           apply Z.compare_eq_iff. lia.
        -- replace (- (Ln - 52)) with (52 - Ln) by lia. apply Z.compare_eq_iff. reflexivity.
    + unfold cond_Zopp. destruct (Z.ltb_spec a 0); lia.
Qed.

Lemma iter_pos_nat {A} (f : A -> A) (p : positive) (x : A) :
  iter_pos f p x = Nat.iter (Pos.to_nat p) f x.
Proof.
  revert x. induction p as [p IH | p IH |]; intros x; cbn [iter_pos].
  - rewrite !IH, Pos2Nat.inj_xI.
    replace (S (2 * Pos.to_nat p))%nat with (Pos.to_nat p + S (Pos.to_nat p))%nat by lia.
    rewrite Nat.iter_add, Nat.iter_succ_r. reflexivity.
  - rewrite !IH, Pos2Nat.inj_xO.
    replace (2 * Pos.to_nat p)%nat with (Pos.to_nat p + Pos.to_nat p)%nat by lia.
    rewrite Nat.iter_add. reflexivity.
  - reflexivity.
Qed.

(** Shifting out zero bits loses nothing. *)
Lemma shr_zeros (M : positive) (n : nat) :
  Nat.iter n shr_1 {| shr_m := Zpos M * 2 ^ Z.of_nat n; shr_r := false; shr_s := false |}
  = {| shr_m := Zpos M; shr_r := false; shr_s := false |}.
Proof.
  induction n as [| n IH].
  - cbn [Nat.iter]. rewrite Z.mul_1_r. reflexivity.
  - rewrite Nat.iter_succ_r, Nat2Z.inj_succ, Z.pow_succ_r by lia.
    replace (Zpos M * (2 * 2 ^ Z.of_nat n)) with (2 * (Zpos M * 2 ^ Z.of_nat n)) by lia.
    assert (Hpos : 0 < Zpos M * 2 ^ Z.of_nat n)
      by (apply Z.mul_pos_pos; [lia | apply Z.pow_pos_nonneg; lia]).
    destruct (Zpos M * 2 ^ Z.of_nat n) as [| q | q] eqn:E; try lia.
    cbn [Z.mul Pos.mul shr_1 orb]. exact IH.
Qed.

(** Rounding a mantissa of 53 bits followed by [j] zero bits drops the
    zero bits; the result overflows when the exponent is out of range. *)
Lemma binary_round_aux_zeros (s : bool) (M : positive) (e j : Z) :
  Z.log2 (Zpos M) = 52 -> 0 <= j -> emin <= e + j ->
  binary_round_aux prec emax s (Zpos M * 2 ^ j) e loc_Exact
  = if e + j <=? emax - prec then S754_finite s M (e + j) else S754_infinity s.
Proof.
  intros HM Hj He.
  assert (Hpos : 0 < Zpos M * 2 ^ j)
    by (apply Z.mul_pos_pos; [lia | apply Z.pow_pos_nonneg; lia]).
  assert (Hd : Zdigits2 (Zpos M * 2 ^ j) = 53 + j).
  { rewrite Zdigits2_log2 by lia. rewrite Z.log2_mul_pow2 by lia. lia. }
  assert (HdM : Zdigits2 (Zpos M) = 53) by (rewrite Zdigits2_log2; lia).
  unfold binary_round_aux, shr_fexp. rewrite Hd.
  replace (fexp prec emax (53 + j + e) - e) with j
    by (unfold fexp, SpecFloat.emin, emin, prec, emax in *; lia).
  assert (Hshr : shr (shr_record_of_loc (Zpos M * 2 ^ j) loc_Exact) e j
                 = ({| shr_m := Zpos M; shr_r := false; shr_s := false |}, e + j)).
  { unfold shr, shr_record_of_loc. destruct j as [| pj | pj]; try lia.
    - rewrite Z.mul_1_r, Z.add_0_r. reflexivity.
    - f_equal. rewrite iter_pos_nat.
      rewrite <- (positive_nat_Z pj). apply shr_zeros. }
  rewrite Hshr.
  cbn [shr_m loc_of_shr_record round_nearest_even].
  rewrite HdM.
  replace (fexp prec emax (53 + (e + j)) - (e + j)) with 0
    by (unfold fexp, SpecFloat.emin, emin, prec, emax in *; lia).
  cbn [shr shr_record_of_loc shr_m]. reflexivity.
Qed.

(** Division of a 53-bit mantissa followed by [k] zero bits by a power of
    two is exact, or overflows. *)
Lemma div_core_pow2_zeros (s : bool) (M : positive) (k e1 e2 j : Z) :
  Z.log2 (Zpos M) = 52 -> 0 <= k -> 0 <= j ->
  emin <= e1 - e2 + k - j ->
  (let '(mz, ez, lz) := SFdiv_core_binary prec emax (Zpos M * 2 ^ k) e1 (2 ^ j) e2 in
   binary_round_aux prec emax s mz ez lz)
  = if e1 - e2 + k - j <=? emax - prec
    then S754_finite s M (e1 - e2 + k - j) else S754_infinity s.
Proof.
  intros HM Hk Hj HE.
  set (E := e1 - e2 + k - j) in *.
  assert (H2j : 0 < 2 ^ j) by (apply Z.pow_pos_nonneg; lia).
  assert (H2k : 0 < 2 ^ k) by (apply Z.pow_pos_nonneg; lia).
  assert (Hpos : 0 < Zpos M * 2 ^ k) by (apply Z.mul_pos_pos; lia).
  unfold SFdiv_core_binary.
  rewrite (Zdigits2_log2 (Zpos M * 2 ^ k)) by lia.
  rewrite Z.log2_mul_pow2 by lia.
  rewrite (Zdigits2_log2 (2 ^ j)) by lia.
  rewrite Z.log2_pow2 by lia. rewrite HM.
  set (e' := Z.min _ _).
  assert (He' : e' <= e1 - e2 /\ e' <= E /\ emin <= E)
    by (subst e' E; unfold fexp, SpecFloat.emin, emin, prec, emax in *; lia).
  assert (Hm' : match e1 - e2 - e' with
                | 0 => Zpos M * 2 ^ k
                | Zpos _ => Z.shiftl (Zpos M * 2 ^ k) (e1 - e2 - e')
                | Zneg _ => 0
                end = Zpos M * 2 ^ (E - e') * 2 ^ j).
  { rewrite <- Z.mul_assoc, <- Z.pow_add_r by lia.
    destruct (e1 - e2 - e') as [| sp | sp] eqn:Hs; try lia.
    - f_equal. f_equal. subst E. lia.
    - rewrite Z.shiftl_mul_pow2 by lia. rewrite <- Z.mul_assoc, <- Z.pow_add_r by lia.
      f_equal. f_equal. subst E. lia. }
  rewrite Hm'. rewrite div_eucl_pow2 by lia. rewrite new_location_zero.
  rewrite binary_round_aux_zeros; [| assumption | lia | lia].
  replace (e' + (E - e')) with E by lia. reflexivity.
Qed.

(** A byte count of 53 significant bits followed by [k] zero bits is
    divided exactly; line 123 raises [OverflowError] when the first
    quotient is out of the range of a float. *)
Lemma mb_of_bytes_zeros (a : Z) (M : positive) (k : Z) :
  Z.abs a = Zpos M * 2 ^ k -> Z.log2 (Zpos M) = 52 -> 0 <= k ->
  mb_of_bytes a =
  if k - 10 <=? emax - prec then Ret (S754_finite (a <? 0) M (k - 20))
  else Raise "integer division result too large for a float".
Proof.
  intros Ha HM Hk.
  assert (H2k : 0 < 2 ^ k) by (apply Z.pow_pos_nonneg; lia).
  assert (Hstep1 : int_truediv a 1024 =
            if k - 10 <=? emax - prec then Ret (S754_finite (a <? 0) M (k - 10))
            else Raise "integer division result too large for a float").
  { unfold int_truediv.
    replace (xorb (a <? 0) (1024 <? 0)) with (a <? 0)
      by (cbn; rewrite xorb_false_r; reflexivity).
    change (Z.abs 1024) with (2 ^ 10). rewrite Ha.
    pose proof (div_core_pow2_zeros (a <? 0) M k 0 0 10 HM Hk ltac:(lia)
                  ltac:(unfold emin, emax, prec; lia)) as H.
    replace (0 - 0 + k - 10) with (k - 10) in H by lia.
    destruct a; [nia | |];
      (destruct (SFdiv_core_binary _ _ _ _ _ _) as [[mz ez] lz]; rewrite H;
       destruct (k - 10 <=? emax - prec); reflexivity). }
  unfold mb_of_bytes. rewrite Hstep1.
  destruct (Z.leb_spec (k - 10) (emax - prec)) as [Hle | Hgt]; [| reflexivity].
  unfold float_truediv_int. rewrite float_of_int_1024. cbv iota beta.
  f_equal. unfold SFdiv.
  replace (xorb (a <? 0) false) with (a <? 0) by (rewrite xorb_false_r; reflexivity).
  pose proof (div_core_pow2_zeros (a <? 0) M 0 (k - 10) (-42) 52 HM ltac:(lia) ltac:(lia)
                ltac:(unfold emin, emax, prec; lia)) as H.
  rewrite Z.mul_1_r in H.
  change (Zpos 4503599627370496) with (2 ^ 52).
  destruct (SFdiv_core_binary _ _ _ _ _ _) as [[mz ez] lz]. rewrite H.
  replace (k - 10 - -42 + 0 - 52) with (k - 20) by lia.
  destruct (Z.leb_spec (k - 20) (emax - prec)); [reflexivity | lia].
Qed.

(** An integer of at most 53 significant bits. *)
Lemma exact_float_split (z : Z) :
  exact_float z = true -> 2 ^ 53 <= Z.abs z ->
  exists (M : positive) (k : Z),
    Z.abs z = Zpos M * 2 ^ k /\ Z.log2 (Zpos M) = 52 /\ 1 <= k.
Proof.
  unfold exact_float. intros Hex Hge. apply Z.eqb_eq in Hex.
  set (L := Z.log2 (Z.abs z)) in *.
  assert (HL : 53 <= L) by (subst L; apply Z.log2_le_pow2; lia).
  rewrite Z.max_r in Hex by lia.
  assert (H2 : 0 < 2 ^ (L - 52)) by (apply Z.pow_pos_nonneg; lia).
  pose proof (Z.div_mod (Z.abs z) (2 ^ (L - 52)) ltac:(lia)) as Hdm.
  rewrite Hex, Z.add_0_r in Hdm.
  set (q := Z.abs z / 2 ^ (L - 52)) in *.
  assert (Hq : 0 < q) by nia.
  exists (Z.to_pos q), (L - 52). rewrite Z2Pos.id by lia.
  split_and!; [lia | | lia].
  assert (HLq : Z.log2 (q * 2 ^ (L - 52)) = L) by (subst L; f_equal; lia).
  rewrite Z.log2_mul_pow2 in HLq by lia. lia.
Qed.

Lemma exact_float_bytes (size : Z) :
  exact_float size = true -> exact_float (size * 1048576) = true.
Proof.
  unfold exact_float. intros Hex. apply Z.eqb_eq in Hex. apply Z.eqb_eq.
  destruct (Z.eq_dec size 0) as [-> | Hnz]; [reflexivity |].
  rewrite Z.abs_mul. change (Z.abs 1048576) with (2 ^ 20).
  rewrite Z.log2_mul_pow2 by lia.
  set (L := Z.log2 (Z.abs size)) in *.
  assert (HL : 0 <= L) by (subst L; apply Z.log2_nonneg).
  set (ex := Z.max 0 _).
  destruct (Z.le_gt_cases 52 L) as [Hbig | Hsmall].
  - rewrite Z.max_r in Hex by lia.
    assert (Hexv : ex = L - 52 + 20) by (subst ex; lia).
    assert (H2 : 0 < 2 ^ (L - 52)) by (apply Z.pow_pos_nonneg; lia).
    pose proof (Z.div_mod (Z.abs size) (2 ^ (L - 52)) ltac:(lia)) as Hdm.
    rewrite Hex, Z.add_0_r in Hdm. rewrite Hdm.
    replace (2 ^ (L - 52) * (Z.abs size / 2 ^ (L - 52)) * 2 ^ 20)
      with (Z.abs size / 2 ^ (L - 52) * 2 ^ ex).
    + apply Z.mod_mul. apply Z.pow_nonzero; lia.
    + rewrite Hexv, Z.pow_add_r by lia. lia.
  - assert (Hex' : 0 <= ex <= 20) by (subst ex; lia).
    replace (Z.abs size * 2 ^ 20) with (Z.abs size * 2 ^ (20 - ex) * 2 ^ ex).
    + apply Z.mod_mul. apply Z.pow_nonzero; lia.
    + rewrite <- Z.mul_assoc, <- Z.pow_add_r by lia. f_equal. f_equal. lia.
Qed.

(** The bytes of a size of at most 53 significant bits read back as that
    size. *)
Lemma mb_of_bytes_exact_float (size : Z) (x : spec_float) :
  exact_float size = true ->
  mb_of_bytes (size * 1048576) = Ret x ->
  float_compare_int x size = Some Eq.
Proof.
  intros Hex Hx.
  destruct (Z.lt_ge_cases (Z.abs (size * 1048576)) (2 ^ 53)) as [Hlt | Hge].
  - destruct (mb_of_bytes_compare (size * 1048576) size Hlt) as (x' & Hx' & Hcmp).
    rewrite Hx in Hx'. injection Hx' as <-. rewrite Hcmp, Z.compare_refl. reflexivity.
  - destruct (exact_float_split _ (exact_float_bytes size Hex) Hge)
      as (M & k & HM & HlM & Hk).
    rewrite (mb_of_bytes_zeros _ M k HM HlM ltac:(lia)) in Hx.
    destruct (k - 10 <=? emax - prec); [| discriminate].
    injection Hx as <-.
    assert (H2k : 0 < 2 ^ k) by (apply Z.pow_pos_nonneg; lia).
    unfold float_compare_int. f_equal.
    replace (size * 1048576 <? 0) with (size <? 0)
      by (destruct (Z.ltb_spec size 0), (Z.ltb_spec (size * 1048576) 0); lia).
    assert (Hv : cond_Zopp (size <? 0) (Zpos M) * 2 ^ k = size * 2 ^ 20).
    { unfold cond_Zopp. change (2 ^ 20) with 1048576.
      destruct (Z.ltb_spec size 0); lia. }
    destruct (Z.leb_spec 0 (k - 20)).
    + apply Z.compare_eq_iff.
      replace k with (k - 20 + 20) in Hv by lia.
      rewrite Z.pow_add_r in Hv by lia. lia.
    + apply Z.compare_eq_iff.
      assert (Hsplit : 2 ^ 20 = 2 ^ (- (k - 20)) * 2 ^ k)
        by (rewrite <- Z.pow_add_r by lia; f_equal; lia).
      rewrite Hsplit in Hv. nia.
Qed.

(** ** The shape of a quotient *)

Lemma loc_of_shr_record_of_loc m l : loc_of_shr_record (shr_record_of_loc m l) = l.
Proof. destruct l as [| []]; reflexivity. Qed.

Lemma shr_m_of_loc m l : shr_m (shr_record_of_loc m l) = m.
Proof. destruct l as [| []]; reflexivity. Qed.

(** Each shift drops one digit. *)
Lemma shr_digits (n : nat) (r : shr_record) :
  0 < shr_m r -> Z.of_nat n < Zdigits2 (shr_m r) ->
  0 < shr_m (Nat.iter n shr_1 r) /\
  Zdigits2 (shr_m (Nat.iter n shr_1 r)) = Zdigits2 (shr_m r) - Z.of_nat n.
Proof.
  intros Hpos. induction n as [| n IH]; intros Hn.
  - change (Nat.iter 0 shr_1 r) with r. split; [assumption | lia].
  - destruct IH as [IHpos IHd]; [lia |].
    change (Nat.iter (S n) shr_1 r) with (shr_1 (Nat.iter n shr_1 r)).
    destruct (Nat.iter n shr_1 r) as [m b c]. cbn [shr_m] in *.
    destruct m as [| p | p]; try lia.
    destruct p as [q | q |]; cbn [shr_1 shr_m Zdigits2 digits2_pos] in *.
    + split; [lia |]. rewrite Pos2Z.inj_succ in IHd. lia.
    + split; [lia |]. rewrite Pos2Z.inj_succ in IHd. lia.
    + lia.
Qed.

(** Rounding [mx] of at least 53 digits gives a 53-bit mantissa. *)
Lemma binary_round_aux_normal (s : bool) (mx ex : Z) (lx : location) :
  0 < mx -> 53 <= Zdigits2 mx -> emin <= ex + Zdigits2 mx - 53 ->
  exists (m : positive) (e : Z),
    Z.log2 (Zpos m) = 52 /\
    ex + Zdigits2 mx - 53 <= e <= ex + Zdigits2 mx - 52 /\
    binary_round_aux prec emax s mx ex lx
    = if e <=? emax - prec then S754_finite s m e else S754_infinity s.
Proof.
  intros Hpos Hd He.
  set (d := Zdigits2 mx) in *.
  unfold binary_round_aux, shr_fexp. fold d.
  replace (fexp prec emax (d + ex) - ex) with (d - 53)
    by (unfold fexp, SpecFloat.emin, emin, prec, emax in *; lia).
  assert (Hshr : exists r1,
             shr (shr_record_of_loc mx lx) ex (d - 53) = (r1, ex + (d - 53)) /\
             0 < shr_m r1 /\ Zdigits2 (shr_m r1) = 53).
  { unfold shr. destruct (d - 53) as [| pd | pd] eqn:Hpd; try lia.
    - eexists. split; [rewrite Z.add_0_r; reflexivity |].
      rewrite shr_m_of_loc. fold d. split; [assumption | lia].
    - eexists. split; [reflexivity |]. rewrite iter_pos_nat.
      destruct (shr_digits (Pos.to_nat pd) (shr_record_of_loc mx lx)) as [H1 H2].
      + rewrite shr_m_of_loc. assumption.
      + rewrite shr_m_of_loc, positive_nat_Z. fold d. lia.
      + split; [assumption |]. rewrite H2, shr_m_of_loc, positive_nat_Z. fold d. lia. }
  destruct Hshr as (r1 & -> & Hr1 & Hd1).
  set (e1 := ex + (d - 53)).
  set (m2 := round_nearest_even (shr_m r1) (loc_of_shr_record r1)).
  assert (Hm2 : m2 = shr_m r1 \/ m2 = shr_m r1 + 1).
  { subst m2. unfold round_nearest_even.
    destruct (loc_of_shr_record r1) as [| []]; try destruct (Z.even _); auto. }
  assert (Hlog1 : Z.log2 (shr_m r1) = 52) by (rewrite Zdigits2_log2 in Hd1; lia).
  assert (Hrange : 2 ^ 52 <= shr_m r1 < 2 ^ 53).
  { pose proof (Z.log2_spec (shr_m r1) Hr1) as Hs. rewrite Hlog1 in Hs.
    change (Z.succ 52) with 53 in Hs. exact Hs. }
  destruct (Z.eq_dec m2 (2 ^ 53)) as [Htop | Hnot].
  - exists (Z.to_pos (2 ^ 52)), (e1 + 1). split; [reflexivity | split; [subst e1; lia |]].
    rewrite Htop. change (Zdigits2 (2 ^ 53)) with 54.
    replace (fexp prec emax (54 + e1) - e1) with 1
      by (subst e1; unfold fexp, SpecFloat.emin, emin, prec, emax in *; lia).
    reflexivity.
  - assert (Hm2r : 2 ^ 52 <= m2 < 2 ^ 53) by lia.
    assert (Hlog2 : Z.log2 m2 = 52).
    { apply Z.log2_unique; [lia |]. change (52 + 1) with 53. lia. }
    exists (Z.to_pos m2), e1. rewrite Z2Pos.id by lia.
    split; [assumption | split; [subst e1; lia |]].
    rewrite (Zdigits2_log2 m2) by lia. rewrite Hlog2.
    replace (fexp prec emax (52 + 1 + e1) - e1) with 0
      by (subst e1; unfold fexp, SpecFloat.emin, emin, prec, emax in *; lia).
    cbn [shr shr_record_of_loc shr_m].
    destruct m2 as [| pm | pm]; try lia. reflexivity.
Qed.

(** The first division of line 123 gives a 53-bit mantissa, or raises. *)
Lemma int_truediv_normal (a : Z) :
  a <> 0 ->
  exists (m : positive) (e : Z),
    Z.log2 (Zpos m) = 52 /\ -63 <= e /\
    int_truediv a 1024 =
    if e <=? emax - prec then Ret (S754_finite (a <? 0) m e)
    else Raise "integer division result too large for a float".
Proof.
  intros Ha.
  set (A := Z.abs a).
  assert (HA : 0 < A) by (subst A; lia).
  set (L := Z.log2 A).
  assert (HL : 0 <= L) by (subst L; apply Z.log2_nonneg).
  set (sh := Z.max (63 - L) 0).
  assert (Hcore : exists q l,
             SFdiv_core_binary prec emax A 0 1024 0 = (q, - sh, l) /\
             0 < q /\ Zdigits2 q = L + sh - 9).
  { unfold SFdiv_core_binary.
    rewrite (Zdigits2_log2 A) by lia. fold L.
    change (Zdigits2 1024) with 11.
    replace (Z.min (fexp prec emax (L + 1 + 0 - (11 + 0))) (0 - 0)) with (- sh)
      by (subst sh; unfold fexp, SpecFloat.emin, emin, prec, emax in *; lia).
    replace (0 - 0 - - sh) with sh by lia.
    assert (Hm' : match sh with
                  | 0 => A
                  | Zpos _ => Z.shiftl A sh
                  | Zneg _ => 0
                  end = A * 2 ^ sh).
    { destruct sh as [| p | p] eqn:Hsh; [lia | | lia].
      rewrite Z.shiftl_mul_pow2 by lia. reflexivity. }
    rewrite Hm'.
    assert (H2sh : 0 < 2 ^ sh) by (apply Z.pow_pos_nonneg; subst sh; lia).
    assert (Hlog : Z.log2 (A * 2 ^ sh) = L + sh)
      by (rewrite Z.log2_mul_pow2 by (subst sh; lia); subst L; lia).
    assert (Hq : Z.log2 (A * 2 ^ sh / 2 ^ 10) = L + sh - 10).
    { rewrite <- Z.shiftr_div_pow2 by lia. rewrite Z.log2_shiftr by nia.
      rewrite Hlog. subst sh. lia. }
    assert (Hqpos : 0 < A * 2 ^ sh / 2 ^ 10).
    { destruct (Z.lt_ge_cases 0 (A * 2 ^ sh / 2 ^ 10)) as [Hp | Hp]; [assumption |].
      rewrite Z.log2_nonpos in Hq by lia. subst sh. lia. }
    change 1024 with (2 ^ 10) at 1.
    pose proof (Z.div_eucl_eq (A * 2 ^ sh) (2 ^ 10) ltac:(lia)) as Hde.
    unfold Z.div in Hq, Hqpos.
    destruct (Z.div_eucl (A * 2 ^ sh) (2 ^ 10)) as [q r]. cbn [fst] in *.
    exists q, (new_location (2 ^ 10) r). split_and!; [reflexivity | assumption |].
    rewrite Zdigits2_log2 by assumption. lia. }
  destruct Hcore as (q & l & Hcore & Hq & Hdq).
  destruct (binary_round_aux_normal (a <? 0) q (- sh) l Hq) as (m & e & Hm & He & Hround).
  - subst sh. lia.
  - rewrite Hdq. subst sh. unfold emin, emax, prec. lia.
  - exists m, e. split_and!; [assumption | subst sh; lia |].
    unfold int_truediv.
    replace (xorb (a <? 0) (1024 <? 0)) with (a <? 0)
      by (cbn; rewrite xorb_false_r; reflexivity).
    change (Z.abs 1024) with 1024. fold A.
    destruct a; [lia | |]; rewrite Hcore, Hround;
      destruct (e <=? emax - prec); reflexivity.
Qed.

(** What line 123 returns is zero, for no bytes, or a float with a 53-bit
    mantissa and the sign of the byte count. *)
Lemma mb_of_bytes_normal (a : Z) (x : spec_float) :
  mb_of_bytes a = Ret x ->
  (a = 0 /\ x = S754_zero false) \/
  (a <> 0 /\ exists (m : positive) (e : Z),
      x = S754_finite (a <? 0) m e /\ Z.log2 (Zpos m) = 52 /\ -73 <= e).
Proof.
  intros Hx. destruct (Z.eq_dec a 0) as [-> | Ha].
  - left. split; [reflexivity |]. vm_compute in Hx. congruence.
  - right. split; [assumption |].
    destruct (int_truediv_normal a Ha) as (m & e & Hm & He & Hdiv).
    unfold mb_of_bytes in Hx. rewrite Hdiv in Hx.
    destruct (Z.leb_spec e (emax - prec)) as [Hle | Hgt]; [| discriminate].
    unfold float_truediv_int in Hx. rewrite float_of_int_1024 in Hx. cbv iota beta in Hx.
    injection Hx as <-. unfold SFdiv.
    replace (xorb (a <? 0) false) with (a <? 0) by (rewrite xorb_false_r; reflexivity).
    pose proof (div_core_pow2 (a <? 0) m e (-42) 52) as H. cbv zeta in H. rewrite Hm in H.
    specialize (H ltac:(lia) ltac:(lia) ltac:(unfold emin, emax, prec in *; lia)).
    change (Zpos 4503599627370496) with (2 ^ 52).
    destruct (SFdiv_core_binary _ _ _ _ _ _) as [[mz ez] lz]. rewrite H.
    eexists _, _. split_and!; [reflexivity | | lia].
    replace (53 - (52 + 1)) with 0 by lia. rewrite Z.mul_1_r. cbn [Z.to_pos]. exact Hm.
Qed.

(** ** Decimal digits *)

Lemma append_cons (c : Ascii.ascii) (s t : string) :
  String.append (String c s) t = String c (String.append s t).
Proof. reflexivity. Qed.

Lemma append_nil_r (s : string) : String.append s "" = s.
Proof. induction s as [| c s IH]; [reflexivity |]. rewrite append_cons, IH. reflexivity. Qed.

Lemma append_assoc (s t u : string) :
  String.append (String.append s t) u = String.append s (String.append t u).
Proof.
  induction s as [| c s IH]; [reflexivity |]. rewrite !append_cons, IH. reflexivity.
Qed.

Lemma append_length (s t : string) :
  String.length (String.append s t) = (String.length s + String.length t)%nat.
Proof.
  induction s as [| c s IH]; [reflexivity |]. rewrite append_cons. cbn [String.length].
  rewrite IH. reflexivity.
Qed.

Lemma string_of_uint_revapp (l acc : Decimal.uint) :
  NilEmpty.string_of_uint (Decimal.revapp l acc)
  = String.append (NilEmpty.string_of_uint (Decimal.rev l)) (NilEmpty.string_of_uint acc).
Proof.
  revert acc. unfold Decimal.rev.
  induction l as [| l IH | l IH | l IH | l IH | l IH | l IH | l IH | l IH | l IH | l IH];
    intros acc; cbn [Decimal.revapp]; [reflexivity | ..].
  all: rewrite IH, (IH (_ Decimal.Nil)); cbn [NilEmpty.string_of_uint].
  all: rewrite append_assoc; reflexivity.
Qed.

Lemma string_of_uint_length (u : Decimal.uint) :
  String.length (NilEmpty.string_of_uint u) = Decimal.nb_digits u.
Proof. induction u; cbn; congruence. Qed.

Lemma str_int_pos (p : positive) :
  str_int (Zpos p) = NilEmpty.string_of_uint (Pos.to_uint p).
Proof.
  unfold str_int. cbn [Z.to_int Pos.to_int NilZero.string_of_int].
  unfold NilZero.string_of_uint.
  pose proof (DecimalPos.Unsigned.to_uint_nonnil p) as Hnn.
  destruct (Pos.to_uint p); [contradiction | reflexivity ..].
Qed.

(** Ten times a number is written with one more zero. *)
Lemma str_int_tenfold (z : Z) :
  0 < z -> str_int (z * 10) = String.append (str_int z) "0".
Proof.
  intros Hz. destruct z as [| p | p]; try lia.
  replace (Zpos p * 10) with (Zpos (10 * p)) by lia.
  rewrite !str_int_pos. unfold Pos.to_uint.
  change (Pos.to_little_uint (10 * p)) with (DecimalPos.Unsigned.to_lu (10 * Npos p)).
  rewrite DecimalPos.Unsigned.to_ldec_tenfold.
  cbn [DecimalPos.Unsigned.to_lu].
  unfold Decimal.rev at 1. cbn [Decimal.revapp].
  rewrite string_of_uint_revapp. reflexivity.
Qed.

Lemma zeros_succ (n : Z) : 0 <= n -> zeros (n + 1) = String.append (zeros n) "0".
Proof.
  intros Hn. unfold zeros. rewrite Z2Nat.inj_add by lia.
  change (Z.to_nat 1) with 1%nat.
  induction (Z.to_nat n) as [| k IH]; [reflexivity |].
  cbn [Nat.add repeat] in *.
  destruct k as [| k]; [reflexivity |].
  cbn [Nat.add repeat String.concat] in *. rewrite IH. reflexivity.
Qed.

Lemma str_int_pow10 (d v : Z) :
  0 < d -> 0 <= v -> str_int (d * 10 ^ v) = String.append (str_int d) (zeros v).
Proof.
  intros Hd Hv. revert v Hv. apply natlike_ind.
  - rewrite Z.mul_1_r. change (zeros 0) with ""%string. symmetry. apply append_nil_r.
  - intros v Hv IH. unfold Z.succ.
    rewrite Z.pow_add_r, Z.pow_1_r, Z.mul_assoc by lia.
    rewrite str_int_tenfold by (apply Z.mul_pos_pos; [lia | apply Z.pow_pos_nonneg; lia]).
    rewrite IH, zeros_succ by lia. apply append_assoc.
Qed.

Lemma to_lu_iter_succ (k : nat) (n : N) :
  DecimalPos.Unsigned.to_lu (Nat.iter k N.succ n)
  = Nat.iter k Decimal.Little.succ (DecimalPos.Unsigned.to_lu n).
Proof.
  induction k as [| k IH]; [reflexivity |].
  change (Nat.iter (S k) N.succ n) with (N.succ (Nat.iter k N.succ n)).
  rewrite DecimalPos.Unsigned.to_lu_succ, IH. reflexivity.
Qed.

(** A number of two digits or more has one digit more than its tenth. *)
Lemma nb_digits_tenfold (q : positive) (r : N) :
  (r < 10)%N ->
  Decimal.nb_digits (DecimalPos.Unsigned.to_lu (10 * Npos q + r))
  = S (Decimal.nb_digits (DecimalPos.Unsigned.to_lu (Npos q))).
Proof.
  intros Hr. rewrite N.add_comm, DecimalPos.Unsigned.Nadd_alt, to_lu_iter_succ.
  rewrite DecimalPos.Unsigned.to_ldec_tenfold.
  assert (Hcases : (r = 0 \/ r = 1 \/ r = 2 \/ r = 3 \/ r = 4 \/ r = 5 \/ r = 6 \/ r = 7
                    \/ r = 8 \/ r = 9)%N) by lia.
  destruct Hcases as [-> | [-> | [-> | [-> | [-> | [-> | [-> | [-> | [-> | ->]]]]]]]]];
    reflexivity.
Qed.

(** A positive number below [10^k] is written with at most [k] digits. *)
Lemma nb_digits_bound (k : nat) (p : positive) :
  Zpos p < 10 ^ Z.of_nat k ->
  (Decimal.nb_digits (Pos.to_little_uint p) <= k)%nat.
Proof.
  revert p. induction k as [| k IH]; intros p Hp.
  - change (10 ^ Z.of_nat 0) with 1 in Hp. lia.
  - destruct (Z.lt_ge_cases (Zpos p) 10) as [Hsmall | Hbig].
    + assert (Hcases : (p = 1 \/ p = 2 \/ p = 3 \/ p = 4 \/ p = 5 \/ p = 6 \/ p = 7
                        \/ p = 8 \/ p = 9)%positive) by lia.
      destruct Hcases as [-> | [-> | [-> | [-> | [-> | [-> | [-> | [-> | ->]]]]]]]];
        cbn; lia.
    + set (q := Zpos p / 10). set (r := Zpos p mod 10).
      pose proof (Z.div_mod (Zpos p) 10 ltac:(lia)) as Hdm. fold q r in Hdm.
      pose proof (Z.mod_pos_bound (Zpos p) 10 ltac:(lia)) as Hrb. fold r in Hrb.
      assert (Hq : 0 < q) by lia.
      assert (Hqk : q < 10 ^ Z.of_nat k).
      { rewrite Nat2Z.inj_succ, Z.pow_succ_r in Hp by lia. lia. }
      specialize (IH (Z.to_pos q) ltac:(rewrite Z2Pos.id by lia; exact Hqk)).
      change (Pos.to_little_uint p) with (DecimalPos.Unsigned.to_lu (Npos p)).
      replace (Npos p) with (10 * Npos (Z.to_pos q) + Z.to_N r)%N by lia.
      rewrite nb_digits_tenfold by lia.
      change (DecimalPos.Unsigned.to_lu (Npos (Z.to_pos q)))
        with (Pos.to_little_uint (Z.to_pos q)). lia.
Qed.

Lemma str_int_length (n : Z) (k : nat) :
  0 < n < 10 ^ Z.of_nat k -> (String.length (str_int n) <= k)%nat.
Proof.
  intros [Hn Hk]. destruct n as [| p | p]; try lia.
  rewrite str_int_pos, string_of_uint_length. unfold Pos.to_uint.
  rewrite DecimalFacts.nb_digits_rev. apply nb_digits_bound. assumption.
Qed.

Lemma str_int_nonempty (n : Z) : 0 < n -> (0 < String.length (str_int n))%nat.
Proof.
  intros Hn. destruct n as [| p | p]; try lia.
  rewrite str_int_pos, string_of_uint_length.
  pose proof (DecimalPos.Unsigned.to_uint_nonnil p) as Hnn.
  destruct (Pos.to_uint p); [contradiction | cbn; lia ..].
Qed.

(** ** The shortest digits of a whole number *)

Lemma strip_zeros_spec (fuel : nat) (d p d' p' : Z) :
  0 < d < 10 ^ Z.of_nat fuel ->
  strip_zeros fuel d p = (d', p') ->
  0 < d' /\ d' mod 10 <> 0 /\ p <= p' /\ d = d' * 10 ^ (p' - p).
Proof.
  revert d p. induction fuel as [| fuel IH]; intros d p [Hd Hlt].
  - change (10 ^ Z.of_nat 0) with 1 in Hlt. lia.
  - cbn [strip_zeros].
    destruct (Z.eqb_spec (d mod 10) 0) as [Hmod | Hmod];
      destruct (Z.eqb_spec d 0) as [Hz | Hz]; try lia; cbn [andb negb].
    + intros Hs.
      pose proof (Z.div_mod d 10 ltac:(lia)) as Hdm. rewrite Hmod, Z.add_0_r in Hdm.
      rewrite Nat2Z.inj_succ, Z.pow_succ_r in Hlt by lia.
      apply IH in Hs as (H1 & H2 & H3 & H4); [| lia].
      split_and!; [assumption | assumption | lia |].
      replace (p' - p) with (p' - (p + 1) + 1) by lia.
      rewrite Z.pow_add_r, Z.pow_1_r by lia. lia.
    + intros [= <- <-]. rewrite Z.sub_diag, Z.mul_1_r.
      split_and!; [assumption | assumption | lia | reflexivity].
Qed.

Lemma odd_mul_pow10 (d p : Z) : 1 <= p -> Z.odd (d * 10 ^ p) = false.
Proof.
  intros Hp. replace p with (p - 1 + 1) by lia.
  rewrite Z.pow_add_r, Z.pow_1_r by lia.
  rewrite !Z.odd_mul. change (Z.odd 10) with false.
  rewrite !andb_false_r. reflexivity.
Qed.

Lemma shortest_search_eq (fuel : nat) (k t xn lown highn den : Z) (incl : bool) :
  shortest_search fuel k t xn lown highn den incl =
  let p := t - k + 1 in
  let num10 := if 0 <=? p then 10 ^ p else 1 in
  let den10 := if 0 <=? p then 1 else 10 ^ (- p) in
  let dlo := (xn * den10) / (den * num10) in
  let inside d :=
    let c := d * num10 * den in
    if incl then (lown * den10 <=? c) && (c <=? highn * den10)
    else (lown * den10 <? c) && (c <? highn * den10) in
  let dist d := Z.abs (d * num10 * den - xn * den10) in
  let pick :=
    match inside dlo, inside (dlo + 1) with
    | true, true =>
        match dist dlo ?= dist (dlo + 1) with
        | Lt => Some dlo
        | Gt => Some (dlo + 1)
        | Eq => Some (if Z.even dlo then dlo else dlo + 1)
        end
    | true, false => Some dlo
    | false, true => Some (dlo + 1)
    | false, false => None
    end in
  match pick with
  | Some d => (d, p)
  | None =>
      match fuel with
      | O => (dlo, p)
      | S fuel' => shortest_search fuel' (k + 1) t xn lown highn den incl
      end
  end.
Proof. destruct fuel; reflexivity. Qed.

Ltac split_cmps :=
  repeat match goal with
         | |- context [Z.leb ?a ?b] => destruct (Z.leb_spec a b)
         | |- context [Z.ltb ?a ?b] => destruct (Z.ltb_spec a b)
         end;
  cbn [andb].

Section Shortest.

Variables (N den xn lown highn t : Z) (incl : bool).
Hypothesis Hden : 0 < den.
Hypothesis HN : 0 < N.
Hypothesis Hxn : xn = N * den.
Hypothesis Hin : lown < xn < highn.
Hypothesis Hwhole : forall c, lown <= c * den <= highn -> c = N \/ Z.odd c = true.

(** With [p <= 0] digits after the point, the first candidate is [N]. *)
Lemma search_step_fraction (fuel : nat) (k d q : Z) :
  t - k + 1 <= 0 ->
  shortest_search fuel k t xn lown highn den incl = (d, q) ->
  q = t - k + 1 /\ d = N * 10 ^ (- q).
Proof.
  intros Hp. rewrite shortest_search_eq. cbv zeta.
  set (p := t - k + 1) in *.
  assert (Hscale : exists T, 0 < T /\ T = 10 ^ (- p) /\
                     (if 0 <=? p then 10 ^ p else 1) = 1 /\
                     (if 0 <=? p then 1 else 10 ^ (- p)) = T).
  { exists (10 ^ (- p)). split; [apply Z.pow_pos_nonneg; lia |]. split; [reflexivity |].
    destruct (Z.leb_spec 0 p); [| split; reflexivity].
    replace p with 0 by lia. split; reflexivity. }
  destruct Hscale as (T & HT & HTp & -> & ->).
  rewrite !Z.mul_1_r.
  assert (Hdlo : xn * T / den = N * T).
  { rewrite Hxn. replace (N * den * T) with (N * T * den) by lia.
    apply Z.div_mul. lia. }
  rewrite Hdlo.
  set (X := xn * T).
  replace (N * T * den) with X by (subst X; rewrite Hxn; lia).
  replace ((N * T + 1) * den) with (X + den) by (subst X; rewrite Hxn; lia).
  assert (Hlo : lown * T < X) by (subst X; nia).
  assert (Hhi : X < highn * T) by (subst X; nia).
  set (LT := lown * T) in *. set (HT' := highn * T) in *.
  replace (Z.abs (X - X)) with 0 by lia.
  replace (Z.abs (X + den - X)) with den by lia.
  replace (0 ?= den) with Lt by (symmetry; apply Z.compare_lt_iff; lia).
  destruct incl; split_cmps; try lia.
  all: intros [= <- <-]; rewrite <- HTp; split; reflexivity.
Qed.

(** With [p >= 1] zeros at the end, a candidate is kept only when it is
    [N]. *)
Lemma search_step_whole (fuel : nat) (k d q : Z) :
  1 <= t - k + 1 ->
  shortest_search fuel k t xn lown highn den incl = (d, q) ->
  (q = t - k + 1 /\ d * 10 ^ q = N) \/
  (match fuel with
   | O => False
   | S fuel' => shortest_search fuel' (k + 1) t xn lown highn den incl = (d, q)
   end) \/
  (fuel = O).
Proof.
  intros Hp. rewrite shortest_search_eq. cbv zeta.
  set (p := t - k + 1) in *.
  destruct (Z.leb_spec 0 p); [| lia].
  rewrite !Z.mul_1_r.
  set (P := 10 ^ p).
  assert (HP : 0 < P) by (apply Z.pow_pos_nonneg; lia).
  set (Q := xn / (den * P)).
  assert (HQ : Q = N / P).
  { subst Q. rewrite Hxn, (Z.mul_comm N den). apply Z.div_mul_cancel_l; lia. }
  pose proof (Z.div_mod N P ltac:(lia)) as Hdm. rewrite <- HQ in Hdm.
  pose proof (Z.mod_pos_bound N P HP) as Hr.
  assert (Hkeep : forall c, lown <= c * P * den <= highn -> c * P = N).
  { intros c Hc. destruct (Hwhole (c * P) Hc) as [-> | Hodd]; [reflexivity |].
    subst P. rewrite odd_mul_pow10 in Hodd by lia. discriminate. }
  assert (Hlo : lown <= Q * P * den <= highn -> Q * P = N) by (apply Hkeep).
  assert (Hhi : lown <= (Q + 1) * P * den <= highn -> False).
  { intros Hc. apply Hkeep in Hc. lia. }
  destruct incl; split_cmps; try (exfalso; apply Hhi; lia).
  all: try (intros [= <- <-]; left; split; [reflexivity | apply Hlo; lia]).
  all: destruct fuel; [right; right; reflexivity | intros Hs; right; left; exact Hs].
Qed.

(** The search ends on the digits of [N] itself. *)
Lemma shortest_search_whole (fuel : nat) (k d q : Z) :
  t - k + 1 <= Z.of_nat fuel ->
  shortest_search fuel k t xn lown highn den incl = (d, q) ->
  (0 <= q /\ d * 10 ^ q = N) \/ (q < 0 /\ q = t - k + 1 /\ d = N * 10 ^ (- q)).
Proof.
  revert k. induction fuel as [| fuel IH]; intros k Hfuel Hs.
  - apply search_step_fraction in Hs as [Hq Hd]; [| lia].
    destruct (Z.eq_dec (t - k + 1) 0) as [H0 | Hne].
    + left. rewrite H0 in Hq. subst q. split; [lia |]. rewrite Hd.
      change (10 ^ (- 0)) with 1. change (10 ^ 0) with 1. lia.
    + right. split_and!; [lia | assumption | assumption].
  - destruct (Z.le_gt_cases (t - k + 1) 0) as [Hle | Hgt].
    + apply search_step_fraction in Hs as [Hq Hd]; [| lia].
      destruct (Z.eq_dec (t - k + 1) 0) as [H0 | Hne].
      * left. rewrite H0 in Hq. subst q. split; [lia |]. rewrite Hd.
        change (10 ^ (- 0)) with 1. change (10 ^ 0) with 1. lia.
      * right. split_and!; [lia | assumption | assumption].
    + apply search_step_whole in Hs as [[-> Hd] | [Hs | [=]]]; [| | lia].
      * left. split; [lia | assumption].
      * apply IH in Hs as [Hs | (Hq & -> & _)]; [left; assumption | lia | lia].
Qed.

End Shortest.

Lemma floor_log10_range (n d : Z) :
  let t0 := ((Z.log2 n - Z.log2 d) * 30103) / 100000 in
  t0 - 2 <= floor_log10 n d <= t0 + 2.
Proof.
  cbv zeta. unfold floor_log10.
  repeat match goal with |- context [if ?b then _ else _] => destruct b end; lia.
Qed.

Lemma append_nil_l (s : string) : String.append "" s = s.
Proof. reflexivity. Qed.

(** [repr] of a float that holds a whole number of at most 16 digits: the
    digits, then [.0]. *)
Lemma str_float_whole (s : bool) (M : positive) (E N : Z) :
  Z.log2 (Zpos M) = 52 -> E <= 1 ->
  0 < N < 10 ^ 16 ->
  N * 2 ^ (1 - E) = 2 * Zpos M ->
  str_float (S754_finite s M E)
  = String.append (if s then "-" else "") (String.append (str_int N) ".0").
Proof.
  intros HM HE [HN HN16] Hval.
  assert (HMr : 2 ^ 52 <= Zpos M < 2 ^ 53).
  { pose proof (Z.log2_spec (Zpos M) ltac:(lia)) as Hs. rewrite HM in Hs. exact Hs. }
  assert (HE52 : -52 <= E).
  { destruct (Z.le_gt_cases (-52) E) as [? | Hlow]; [assumption | exfalso].
    assert (2 ^ 54 <= 2 ^ (1 - E)) by (apply Z.pow_le_mono_r; lia).
    change (2 ^ 53) with 9007199254740992 in *.
    change (2 ^ 54) with 18014398509481984 in *. nia. }
  set (D := 2 ^ (2 - E)).
  assert (HD : D = 2 * 2 ^ (1 - E)).
  { subst D. replace (2 - E) with (1 + (1 - E)) by lia.
    rewrite Z.pow_add_r by lia. reflexivity. }
  assert (HD2 : 2 <= D).
  { subst D. change 2 with (2 ^ 1) at 1. apply Z.pow_le_mono_r; lia. }
  assert (HD4 : E <= 0 -> 4 <= D).
  { intros HE0. subst D. change 4 with (2 ^ 2). apply Z.pow_le_mono_r; lia. }
  assert (Hx : 4 * Zpos M = N * D) by (rewrite HD; lia).
  unfold str_float, shortest_digits.
  destruct (Z.leb_spec 0 (E - 2)) as [? | _]; [lia |].
  replace (- (E - 2)) with (2 - E) by lia. fold D.
  rewrite !Z.mul_1_r.
  set (low := if (Zpos M =? 2 ^ (prec - 1)) && (Py.emin <? E)
              then 4 * Zpos M - 1 else 4 * Zpos M - 2).
  assert (Hlow : 4 * Zpos M - 2 <= low < 4 * Zpos M)
    by (subst low; destruct (_ && _); lia).
  set (t := floor_log10 (4 * Zpos M) D).
  assert (Ht : -2 <= t <= 17).
  { pose proof (floor_log10_range (4 * Zpos M) D) as Hr. cbv zeta in Hr. fold t in Hr.
    replace (4 * Zpos M) with (Zpos M * 2 ^ 2) in Hr by lia.
    rewrite Z.log2_mul_pow2, HM in Hr by lia.
    unfold D in Hr. rewrite Z.log2_pow2 in Hr by lia.
    replace (2 + 52 - (2 - E)) with (52 + E) in Hr by lia.
    assert (0 <= (52 + E) * 30103 / 100000 < 16).
    { split; [apply Z.div_pos; lia |].
      apply Z.div_lt_upper_bound; lia. }
    lia. }
  destruct (shortest_search 17 1 t (4 * Zpos M) low (4 * Zpos M + 2) D (Z.even (Zpos M)))
    as [d q] eqn:Hsearch.
  apply (shortest_search_whole N D) in Hsearch; [| lia | lia | exact Hx | lia | | lia].
  2:{ intros c Hc. destruct (Z.le_gt_cases E 0) as [HE0 | HE1].
      - left. specialize (HD4 HE0). nia.
      - assert (E = 1) by lia. subst E.
        change (2 ^ (2 - 1)) with 2 in D. subst D.
        change (2 ^ (1 - 1)) with 1 in Hval.
        assert (Hc3 : c = N - 1 \/ c = N \/ c = N + 1) by lia.
        destruct Hc3 as [-> | [-> | ->]]; [right | left; reflexivity | right].
        + replace (N - 1) with (1 + 2 * (Zpos M - 1)) by lia.
          rewrite Z.odd_add_mul_2. reflexivity.
        + replace (N + 1) with (1 + 2 * Zpos M) by lia.
          rewrite Z.odd_add_mul_2. reflexivity. }
  assert (Hd : 0 < d < 10 ^ Z.of_nat 20).
  { change (10 ^ Z.of_nat 20) with (10 ^ 16 * 10000).
    destruct Hsearch as [[Hq Hd] | (Hq & Hqt & Hd)].
    - assert (0 < 10 ^ q) by (apply Z.pow_pos_nonneg; lia). nia.
    - assert (Hq2 : - q = 1 \/ - q = 2) by lia.
      destruct Hq2 as [Hq2 | Hq2]; rewrite Hq2 in Hd;
        [change (10 ^ 1) with 10 in Hd | change (10 ^ 2) with 100 in Hd]; lia. }
  destruct (strip_zeros 20 d q) as [d' q'] eqn:Hstrip.
  apply strip_zeros_spec in Hstrip as (Hd' & Hmod & Hqq & Hdd); [| exact Hd].
  assert (Hfinal : 0 <= q' /\ d' * 10 ^ q' = N).
  { destruct Hsearch as [[Hq HdN] | (Hq & Hqt & HdN)].
    - split; [lia |]. rewrite <- HdN, Hdd, <- Z.mul_assoc, <- Z.pow_add_r by lia.
      f_equal. f_equal. lia.
    - destruct (Z.le_gt_cases 0 q') as [Hq' | Hq'].
      + split; [assumption |].
        assert (H10 : 0 < 10 ^ (- q)) by (apply Z.pow_pos_nonneg; lia).
        replace (q' - q) with (q' + - q) in Hdd by lia.
        rewrite Z.pow_add_r, Z.mul_assoc in Hdd by lia. nia.
      + exfalso. apply Hmod.
        assert (H10 : 0 < 10 ^ (q' - q)) by (apply Z.pow_pos_nonneg; lia).
        assert (Hsplit : 10 ^ (- q) = 10 ^ (- q') * 10 ^ (q' - q))
          by (rewrite <- Z.pow_add_r by lia; f_equal; lia).
        rewrite Hsplit in HdN.
        assert (Hd'N : d' = N * 10 ^ (- q')) by nia.
        rewrite Hd'N. replace (- q') with (- q' - 1 + 1) by lia.
        rewrite Z.pow_add_r, Z.pow_1_r, Z.mul_assoc by lia.
        apply Z.mod_mul. lia. }
  destruct Hfinal as [Hq' HdN].
  assert (H10q : 0 < 10 ^ q') by (apply Z.pow_pos_nonneg; lia).
  assert (Hq16 : q' < 16).
  { apply (Z.pow_lt_mono_r_iff 10); [lia | lia | nia]. }
  assert (Hlen : (0 < String.length (str_int d') <= Z.to_nat (16 - q'))%nat).
  { split; [apply str_int_nonempty; assumption |].
    apply str_int_length. rewrite Z2Nat.id by lia. split; [assumption |].
    assert (Hsplit : 10 ^ 16 = 10 ^ (16 - q') * 10 ^ q')
      by (rewrite <- Z.pow_add_r by lia; f_equal; lia).
    rewrite Hsplit in HN16. nia. }
  rewrite <- HdN, str_int_pow10 by lia.
  set (ds := str_int d') in *.
  unfold format_repr. cbv zeta.
  set (nd := Z.of_nat (String.length ds)) in *.
  assert (Hnd : 1 <= nd <= 16 - q') by (subst nd; lia).
  destruct (Z.leb_spec (q' + nd) (-4)); [lia |].
  destruct (Z.ltb_spec 16 (q' + nd)); [lia |].
  destruct (Z.leb_spec (q' + nd) 0); [lia |].
  destruct (Z.leb_spec nd (q' + nd)); [| lia].
  cbn [orb String.concat].
  replace (q' + nd - nd) with q' by lia.
  rewrite !append_nil_l, append_assoc. reflexivity.
Qed.

(** ** [round(current, 0)] and its text *)

Lemma nearest_even_tie (m k : Z) :
  0 <= m -> 0 <= k ->
  2 * Z.abs (m - nearest_even m k * 2 ^ k) = 2 ^ k -> Z.even (nearest_even m k) = true.
Proof.
  intros Hm Hk. unfold nearest_even.
  assert (Hpk : 0 < 2 ^ k) by (apply Z.pow_pos_nonneg; lia).
  pose proof (Z.div_mod m (2 ^ k) ltac:(lia)) as Hdm.
  pose proof (Z.mod_pos_bound m (2 ^ k) Hpk) as Hr.
  set (q := m / 2 ^ k) in *. set (r := m mod 2 ^ k) in *. set (P := 2 ^ k) in *.
  destruct (Z.compare_spec (2 * r) P) as [Heq | Hlt | Hgt].
  - intros _. destruct (Z.even q) eqn:Hev; [assumption |].
    rewrite Z.even_add, Hev. reflexivity.
  - intros H. exfalso. nia.
  - intros H. exfalso. nia.
Qed.

Lemma nearest_even_bound (m k : Z) :
  0 <= m < 2 ^ 53 -> 1 <= k -> 0 <= nearest_even m k <= 2 ^ 52.
Proof.
  intros Hm Hk. unfold nearest_even.
  assert (Hpk : 2 <= 2 ^ k).
  { change 2 with (2 ^ 1) at 1. apply Z.pow_le_mono_r; lia. }
  pose proof (Z.div_mod m (2 ^ k) ltac:(lia)) as Hdm.
  pose proof (Z.mod_pos_bound m (2 ^ k) ltac:(lia)) as Hr.
  set (q := m / 2 ^ k) in *. set (r := m mod 2 ^ k) in *. set (P := 2 ^ k) in *.
  change (2 ^ 53) with 9007199254740992 in *. change (2 ^ 52) with 4503599627370496.
  assert (Hq : 0 <= q) by nia.
  assert (Hq' : q < 4503599627370496) by nia.
  destruct (Z.compare_spec (2 * r) P); [destruct (Z.even q) | |]; lia.
Qed.

(** The float of a whole number below [2^53] compares equal to it and is
    printed with its digits. *)
Lemma float_of_whole (s : bool) (n : Z) :
  0 < n < 2 ^ 53 ->
  float_compare_int (binary_normalize prec emax (cond_Zopp s n) 0 false) (cond_Zopp s n)
  = Some Eq /\
  float_sign (binary_normalize prec emax (cond_Zopp s n) 0 false) = s /\
  (n < 10 ^ 16 ->
   str_float (binary_normalize prec emax (cond_Zopp s n) 0 false) = whole_text s n).
Proof.
  intros [Hn Hlt].
  assert (Habs : Z.abs (cond_Zopp s n) = n) by (unfold cond_Zopp; destruct s; lia).
  assert (Hsign : (cond_Zopp s n <? 0) = s).
  { unfold cond_Zopp. destruct s; [apply Z.ltb_lt | apply Z.ltb_ge]; lia. }
  rewrite binary_normalize_exact by (rewrite ?Habs; unfold cond_Zopp; destruct s; lia).
  rewrite Habs, Hsign.
  set (L := Z.log2 n).
  assert (HL : 0 <= L < 53).
  { subst L. split; [apply Z.log2_nonneg | apply Z.log2_lt_pow2; lia]. }
  assert (HK : 0 < 2 ^ (52 - L)) by (apply Z.pow_pos_nonneg; lia).
  assert (HM : Zpos (Z.to_pos (n * 2 ^ (52 - L))) = n * 2 ^ (52 - L))
    by (apply Z2Pos.id; apply Z.mul_pos_pos; lia).
  split_and!.
  - unfold float_compare_int. rewrite HM. f_equal.
    destruct (Z.leb_spec 0 (L - 52)).
    + replace (L - 52) with 0 by lia. replace (52 - L) with 0 by lia.
      apply Z.compare_eq_iff. unfold cond_Zopp. destruct s; lia.
    + replace (- (L - 52)) with (52 - L) by lia.
      apply Z.compare_eq_iff. unfold cond_Zopp. destruct s; lia.
  - reflexivity.
  - intros H16. unfold whole_text. apply str_float_whole.
    + rewrite HM, Z.log2_mul_pow2 by lia. fold L. lia.
    + lia.
    + lia.
    + rewrite HM. replace (1 - (L - 52)) with (1 + (52 - L)) by lia.
      rewrite Z.pow_add_r by lia. change (2 ^ 1) with 2. lia.
Qed.

(** [round(x, 0)] of a float with a 53-bit mantissa is the float of the
    nearest whole number, and is printed with the digits of that number
    when they are at most 16. *)
Lemma round_float_whole (s : bool) (m : positive) (e : Z) :
  Z.log2 (Zpos m) = 52 ->
  exists z,
    nearest_whole (S754_finite s m e) z /\
    float_compare_int (round_float (S754_finite s m e)) z = Some Eq /\
    float_sign (round_float (S754_finite s m e)) = s /\
    (Z.abs z < 10 ^ 16 ->
     str_float (round_float (S754_finite s m e)) = whole_text s (Z.abs z)).
Proof.
  intros Hm.
  assert (Hmr : 2 ^ 52 <= Zpos m < 2 ^ 53).
  { pose proof (Z.log2_spec (Zpos m) ltac:(lia)) as Hs. rewrite Hm in Hs. exact Hs. }
  unfold nearest_whole, float_ratio, round_float.
  destruct (Z.leb_spec 0 e) as [He | He].
  - assert (Hpe : 0 < 2 ^ e) by (apply Z.pow_pos_nonneg; lia).
    exists (cond_Zopp s (Zpos m) * 2 ^ e). split_and!.
    + rewrite Z.mul_1_r, Z.sub_diag. change (Z.abs 0) with 0. lia.
    + rewrite Z.mul_1_r, Z.sub_diag. change (Z.abs 0) with 0. intros [=].
    + unfold float_compare_int. destruct (Z.leb_spec 0 e); [| lia].
      rewrite Z.compare_refl. reflexivity.
    + reflexivity.
    + intros H16.
      assert (Habs : Z.abs (cond_Zopp s (Zpos m) * 2 ^ e) = Zpos m * 2 ^ e)
        by (unfold cond_Zopp; destruct s; nia).
      rewrite Habs in *. unfold whole_text.
      assert (He1 : e <= 1).
      { destruct (Z.le_gt_cases e 1) as [? | Hbig]; [assumption | exfalso].
        assert (2 ^ 2 <= 2 ^ e) by (apply Z.pow_le_mono_r; lia).
        change (2 ^ 52) with 4503599627370496 in *. change (2 ^ 2) with 4 in *.
        change (10 ^ 16) with 10000000000000000 in *. nia. }
      apply str_float_whole; [assumption | assumption | lia |].
      assert (He01 : e = 0 \/ e = 1) by lia.
      destruct He01 as [-> | ->]; cbn; lia.
  - set (k := - e). assert (Hk : 1 <= k) by lia.
    pose proof (nearest_even_near (Zpos m) k ltac:(lia) ltac:(lia)) as [Hn0 Hnear].
    pose proof (nearest_even_tie (Zpos m) k ltac:(lia) ltac:(lia)) as Htie.
    pose proof (nearest_even_bound (Zpos m) k ltac:(lia) Hk) as Hbound.
    set (n0 := nearest_even (Zpos m) k) in *.
    assert (Hdist : forall den, Z.abs (cond_Zopp s (Zpos m) - cond_Zopp s n0 * den)
                                = Z.abs (Zpos m - n0 * den))
      by (intros den; unfold cond_Zopp; destruct s; lia).
    exists (cond_Zopp s n0). cbv beta iota. fold k. rewrite Hdist.
    split; [split; [exact Hnear |] |].
    { intros H. apply Htie in H. unfold cond_Zopp. destruct s; [| exact H].
      rewrite Z.even_opp. exact H. }
    destruct (Z.eqb_spec n0 0) as [H0 | H0].
    + rewrite H0. split_and!.
      * unfold cond_Zopp. destruct s; reflexivity.
      * reflexivity.
      * intros _. unfold cond_Zopp. destruct s; reflexivity.
    + change (2 ^ 52) with 4503599627370496 in Hbound.
      change (2 ^ 53) with 9007199254740992 in *.
      destruct (float_of_whole s n0) as (H1 & H2 & H3);
        [change (2 ^ 53) with 9007199254740992; lia |].
      split_and!; [exact H1 | exact H2 |].
      intros H16. replace (Z.abs (cond_Zopp s n0)) with n0 in *
        by (unfold cond_Zopp; destruct s; lia).
      apply H3. exact H16.
Qed.

(** ** Byte counts just above [2^53] *)

(** Rounding a 54-bit mantissa to 53 bits: the nearest, ties to even. *)
Lemma binary_round_aux_54_nearest (s : bool) (p : positive) (e : Z) :
  Z.log2 (Zpos p) = 53 -> nearest_even (Zpos p) 1 < 2 ^ 53 ->
  emin <= e + 1 <= emax - prec ->
  binary_round_aux prec emax s (Zpos p) e loc_Exact
  = S754_finite s (Z.to_pos (nearest_even (Zpos p) 1)) (e + 1).
Proof.
  intros Hp Hlt He.
  assert (Hpr : 2 ^ 53 <= Zpos p < 2 ^ 54).
  { pose proof (Z.log2_spec (Zpos p) ltac:(lia)) as Hs. rewrite Hp in Hs. exact Hs. }
  change (2 ^ 53) with 9007199254740992 in *. change (2 ^ 54) with 18014398509481984 in *.
  assert (Hround : exists q b,
             shr_1 {| shr_m := Zpos p; shr_r := false; shr_s := false |}
             = {| shr_m := Zpos q; shr_r := b; shr_s := false |} /\
             round_nearest_even (Zpos q)
               (loc_of_shr_record {| shr_m := Zpos q; shr_r := b; shr_s := false |})
             = nearest_even (Zpos p) 1 /\
             4503599627370496 <= Zpos q).
  { unfold nearest_even. change (2 ^ 1) with 2.
    destruct p as [q | q |]; [| | lia].
    - exists q, true. split; [reflexivity |].
      assert (Hd : Zpos q~1 / 2 = Zpos q)
        by (symmetry; apply (Z.div_unique _ _ _ 1); lia).
      assert (Hmod : Zpos q~1 mod 2 = 1)
        by (symmetry; apply (Z.mod_unique _ _ (Zpos q)); lia).
      rewrite Hd, Hmod. cbn [Z.mul Pos.mul Z.compare Pos.compare Pos.compare_cont].
      split; [reflexivity | lia].
    - exists q, false. split; [reflexivity |].
      assert (Hd : Zpos q~0 / 2 = Zpos q)
        by (symmetry; apply (Z.div_unique _ _ _ 0); lia).
      assert (Hmod : Zpos q~0 mod 2 = 0)
        by (symmetry; apply (Z.mod_unique _ _ (Zpos q)); lia).
      rewrite Hd, Hmod. split; [reflexivity | lia]. }
  destruct Hround as (q & b & Hshr & Hrne & Hq).
  unfold binary_round_aux, shr_fexp.
  rewrite (Zdigits2_log2 (Zpos p)) by lia. rewrite Hp.
  replace (fexp prec emax (53 + 1 + e) - e) with 1
    by (unfold fexp, SpecFloat.emin, emin, prec, emax in *; lia).
  cbn [shr shr_record_of_loc iter_pos]. rewrite Hshr. cbn [shr_m]. rewrite Hrne.
  set (m2 := nearest_even (Zpos p) 1) in *.
  assert (Hm2 : 4503599627370496 <= m2).
  { rewrite <- Hrne. unfold round_nearest_even.
    destruct (loc_of_shr_record _) as [| []]; try destruct (Z.even _); lia. }
  assert (Hlog : Z.log2 m2 = 52).
  { apply Z.log2_unique; [lia |]. change (2 ^ 52) with 4503599627370496.
    change (2 ^ (52 + 1)) with 9007199254740992. lia. }
  rewrite (Zdigits2_log2 m2) by lia. rewrite Hlog.
  replace (fexp prec emax (52 + 1 + (e + 1)) - (e + 1)) with 0
    by (unfold fexp, SpecFloat.emin, emin, prec, emax in *; lia).
  cbn [shr shr_record_of_loc shr_m].
  destruct m2 as [| pm | pm]; try lia. cbn [Z.to_pos].
  destruct (Z.leb_spec (e + 1) (emax - prec)); [reflexivity | lia].
Qed.

(** Up to [2^19] bytes above [2^53], line 123 gives a float between
    [2^33] and [2^33 + 1/2]. *)
Lemma mb_of_bytes_54 (a : Z) :
  2 ^ 53 <= Z.abs a <= 2 ^ 53 + 2 ^ 19 ->
  exists m2 : positive,
    2 ^ 52 <= Zpos m2 <= 2 ^ 52 + 2 ^ 18 /\
    mb_of_bytes a = Ret (S754_finite (a <? 0) m2 (-19)).
Proof.
  intros Ha.
  change (2 ^ 53) with 9007199254740992 in *. change (2 ^ 19) with 524288 in *.
  change (2 ^ 52) with 4503599627370496. change (2 ^ 18) with 262144.
  set (A := Z.abs a) in *.
  assert (HlogA : Z.log2 A = 53).
  { apply Z.log2_unique; [lia |]. change (2 ^ 53) with 9007199254740992.
    change (2 ^ (53 + 1)) with 18014398509481984. lia. }
  set (m2 := nearest_even A 1).
  assert (Hm2 : 4503599627370496 <= m2 <= 4503599627370496 + 262144).
  { subst m2. unfold nearest_even. change (2 ^ 1) with 2.
    pose proof (Z.div_mod A 2 ltac:(lia)) as Hdm.
    pose proof (Z.mod_pos_bound A 2 ltac:(lia)) as Hr.
    destruct (Z.compare_spec (2 * (A mod 2)) 2); [destruct (Z.even (A / 2)) eqn:Hev | |];
      lia. }
  assert (Hstep1 : int_truediv a 1024 = Ret (S754_finite (a <? 0) (Z.to_pos m2) (-9))).
  { unfold int_truediv.
    replace (xorb (a <? 0) (1024 <? 0)) with (a <? 0)
      by (cbn; rewrite xorb_false_r; reflexivity).
    change (Z.abs 1024) with 1024. fold A.
    assert (Hcore : SFdiv_core_binary prec emax A 0 1024 0 = (A, -10, loc_Exact)).
    { unfold SFdiv_core_binary. rewrite (Zdigits2_log2 A) by lia. rewrite HlogA.
      change (Zdigits2 1024) with 11.
      change (Z.min (fexp prec emax (53 + 1 + 0 - (11 + 0))) (0 - 0)) with (-10).
      change (0 - 0 - -10) with 10. cbv iota beta.
      rewrite Z.shiftl_mul_pow2 by lia. change 1024 with (2 ^ 10) at 1.
      rewrite div_eucl_pow2 by lia. rewrite new_location_zero. reflexivity. }
    assert (Hround : binary_round_aux prec emax (a <? 0) A (-10) loc_Exact
                     = S754_finite (a <? 0) (Z.to_pos m2) (-9)).
    { destruct A as [| pA | pA] eqn:HA; try lia.
      apply (binary_round_aux_54_nearest (a <? 0) pA (-10)).
      - exact HlogA.
      - fold m2. change (2 ^ 53) with 9007199254740992. lia.
      - unfold emin, emax, prec. lia. }
    destruct a; [lia | |]; rewrite Hcore, Hround; reflexivity. }
  exists (Z.to_pos m2). rewrite Z2Pos.id by lia. split; [exact Hm2 |].
  unfold mb_of_bytes. rewrite Hstep1. unfold float_truediv_int.
  rewrite float_of_int_1024. cbv iota beta. f_equal. unfold SFdiv.
  replace (xorb (a <? 0) false) with (a <? 0) by (rewrite xorb_false_r; reflexivity).
  assert (Hlog : Z.log2 (Zpos (Z.to_pos m2)) = 52).
  { rewrite Z2Pos.id by lia. apply Z.log2_unique; [lia |].
    change (2 ^ 52) with 4503599627370496. change (2 ^ (52 + 1)) with 9007199254740992. lia. }
  pose proof (div_core_pow2 (a <? 0) (Z.to_pos m2) (-9) (-42) 52) as H.
  cbv zeta in H. rewrite Hlog in H.
  specialize (H ltac:(lia) ltac:(lia) ltac:(unfold emin, emax, prec; lia)).
  change (Zpos 4503599627370496) with (2 ^ 52).
  destruct (SFdiv_core_binary _ _ _ _ _ _) as [[mz ez] lz]. rewrite H.
  f_equal. change (53 - (52 + 1)) with 0. rewrite Z.mul_1_r, Pos2Z.id. reflexivity.
Qed.

Lemma float_compare_int_inj (x : spec_float) (a b : Z) :
  float_compare_int x a = Some Eq -> float_compare_int x b = Some Eq -> a = b.
Proof.
  destruct x as [s | s | | s m e]; unfold float_compare_int; try discriminate.
  - destruct a, b; cbn; intros; first [reflexivity | discriminate].
  - destruct s; discriminate.
  - destruct (0 <=? e).
    + intros [= Ha%Z.compare_eq_iff] [= Hb%Z.compare_eq_iff]. lia.
    + assert (0 < 2 ^ (- e) \/ 2 ^ (- e) = 0) as [Hp | Hz].
      { pose proof (Z.pow_nonneg 2 (- e) ltac:(lia)). lia. }
      * intros [= Ha%Z.compare_eq_iff] [= Hb%Z.compare_eq_iff]. nia.
      * rewrite Hz, !Z.mul_0_r. unfold cond_Zopp. destruct s; discriminate.
Qed.

(** Up to [2^53 + 2^19] bytes, [round(current, 0)] is a whole number of
    megabytes nearest to the byte count. *)
Lemma round_mb_of_bytes_near (a : Z) :
  Z.abs a <= 2 ^ 53 + 2 ^ 19 ->
  exists current n,
    mb_of_bytes a = Ret current /\
    float_compare_int (round_float current) n = Some Eq /\
    2 * Z.abs (a - n * 1048576) <= 1048576.
Proof.
  intros Ha. destruct (Z.lt_ge_cases (Z.abs a) (2 ^ 53)) as [Hlt | Hge].
  - apply round_mb_of_bytes. assumption.
  - destruct (mb_of_bytes_54 a ltac:(lia)) as (m2 & Hm2 & Hmb).
    change (2 ^ 53) with 9007199254740992 in *. change (2 ^ 19) with 524288 in *.
    change (2 ^ 52) with 4503599627370496 in *. change (2 ^ 18) with 262144 in *.
    exists (S754_finite (a <? 0) m2 (-19)), (cond_Zopp (a <? 0) 8589934592).
    split; [exact Hmb |].
    assert (Hn : nearest_even (Zpos m2) 19 = 8589934592).
    { unfold nearest_even. change (2 ^ 19) with 524288.
      assert (Hq : Zpos m2 / 524288 = 8589934592)
        by (symmetry; apply (Z.div_unique _ _ _ (Zpos m2 - 4503599627370496)); lia).
      assert (Hr : Zpos m2 mod 524288 = Zpos m2 - 4503599627370496)
        by (symmetry; apply (Z.mod_unique _ _ 8589934592); lia).
      rewrite Hq, Hr.
      destruct (Z.compare_spec (2 * (Zpos m2 - 4503599627370496)) 524288);
        [reflexivity | reflexivity | lia]. }
    split.
    + unfold round_float. change (0 <=? -19) with false. cbv iota.
      change (- -19) with 19. rewrite Hn. change (8589934592 =? 0) with false. cbv iota.
      apply float_of_whole. change (2 ^ 53) with 9007199254740992. lia.
    + unfold cond_Zopp. destruct (Z.ltb_spec a 0); lia.
Qed.

Lemma exact_float_small (z : Z) : Z.abs z <= 2 ^ 53 -> exact_float z = true.
Proof.
  intros Hz. unfold exact_float. apply Z.eqb_eq.
  destruct (Z.eq_dec (Z.abs z) (2 ^ 53)) as [-> | Hne]; [reflexivity |].
  destruct (Z.eq_dec z 0) as [-> | Hnz]; [reflexivity |].
  assert (HL : Z.log2 (Z.abs z) < 53) by (apply Z.log2_lt_pow2; lia).
  rewrite Z.max_l by lia. apply Z.mod_1_r.
Qed.

(** The stored bytes of a size read back as that size exactly when the
    size has at most 53 significant bits. *)
Lemma exact_float_of_read (size : Z) (x : spec_float) :
  mb_of_bytes (size * 1048576) = Ret x ->
  int_eq_float size x = exact_float size.
Proof.
  intros Hx. destruct (exact_float size) eqn:Hex.
  - unfold int_eq_float. rewrite (mb_of_bytes_exact_float size x Hex Hx). reflexivity.
  - destruct (int_eq_float size x) eqn:Heq; [exfalso | reflexivity].
    assert (Hcmp : float_compare_int x size = Some Eq).
    { unfold int_eq_float in Heq. destruct (float_compare_int x size) as [[] |];
        first [reflexivity | discriminate]. }
    assert (Htrue : exact_float size = true); [| congruence].
    clear Hex Heq. unfold exact_float. apply Z.eqb_eq.
    destruct (mb_of_bytes_normal _ _ Hx) as [[Hz ->] | (Hnz & m & e & -> & Hm & He)].
    + replace size with 0 by lia. reflexivity.
    + assert (Hmr : 2 ^ 52 <= Zpos m < 2 ^ 53).
      { pose proof (Z.log2_spec (Zpos m) ltac:(lia)) as Hs. rewrite Hm in Hs. exact Hs. }
      unfold float_compare_int in Hcmp. injection Hcmp as Hcmp.
      destruct (Z.leb_spec 0 e) as [He0 | He0]; apply Z.compare_eq_iff in Hcmp.
      * assert (Hpe : 0 < 2 ^ e) by (apply Z.pow_pos_nonneg; lia).
        assert (Habs : Z.abs size = Zpos m * 2 ^ e)
          by (rewrite <- Hcmp; unfold cond_Zopp; destruct (_ <? _); nia).
        rewrite Habs, Z.log2_mul_pow2, Hm by lia.
        match goal with
        | |- context [Z.max 0 ?u] => replace (Z.max 0 u) with e by lia
        end.
        apply Z.mod_mul. lia.
      * assert (Hpe : 1 <= 2 ^ (- e)).
        { change 1 with (2 ^ 0). apply Z.pow_le_mono_r; lia. }
        assert (Habs : Z.abs size * 2 ^ (- e) = Zpos m)
          by (unfold cond_Zopp in Hcmp; destruct (_ <? _); nia).
        assert (Hlt : Z.abs size < 2 ^ 53) by nia.
        destruct (Z.eq_dec size 0) as [-> | Hs0]; [reflexivity |].
        assert (HL : Z.log2 (Z.abs size) < 53) by (apply Z.log2_lt_pow2; lia).
        rewrite Z.max_l by lia. apply Z.mod_1_r.
Qed.

(* ===================================================================== *)
(** * Every run has one of the shapes *)
(* ===================================================================== *)

Lemma changed_overwritten (b : bool) :
  <["changed" := PyBool b]> ({["changed" := PyBool false]} : gmap string pyval)
  = {["changed" := PyBool b]}.
Proof. apply insert_singleton_eq. Qed.

Section Adequacy.
Context {W : Type} (C : Collaborator W).

Ltac unfold_run :=
  unfold try_except, get_olplog_size, set_oplog_size, compact_oplog, call, peek,
    fail_json, exit_json, mbind, M_bind, bind, mret, M_ret, ret;
  cbv beta.

Lemma main_oplog_shape module w :
  match main_oplog C module {["changed" := PyBool false]} w with
  | (s, w', t) => oplog_shape module (finish s) t /\ calls C w t w'
  end.
Proof.
  unfold main_oplog. unfold_run.
  destruct (collStats_maxSize C w) as [[maxSize | e] w1] eqn:E1; cbn [app finish].
  2:{ split; [constructor | repeat (econstructor; eauto)]. }
  destruct (mb_of_bytes maxSize) as [x | e] eqn:Ex; cbn [app finish].
  2:{ split; [constructor; assumption | repeat (econstructor; eauto)]. }
  destruct (int_eq_float (oplog_size_mb module) x) eqn:Eeq; cbn [app finish].
  { split; [eapply OS_noop; eassumption | repeat (econstructor; eauto)]. }
  destruct (member_state C w1) as [[state | e] w2] eqn:E2; cbn [app finish].
  2:{ split; [eapply OS_state_failed; eassumption | repeat (econstructor; eauto)]. }
  destruct (check_mode module) eqn:Echk.
  { rewrite changed_overwritten.
    replace (if bool_decide (state = "SECONDARY"%string) && compact module
             then _ else _)
      with (fun w : W => (Next (result_of true (compact_predicted module state)
                                  (resized_msg x (oplog_size_mb module))), w, @nil event)).
    2:{ unfold compact_predicted. destruct (_ && _); reflexivity. }
    cbn [app finish].
    split; [eapply OS_simulate; eassumption | repeat (econstructor; eauto)]. }
  destruct (replSetResizeOplog C (oplog_size_mb module) w2) as [[[] | e] w3] eqn:E3;
    cbn [app finish].
  2:{ split; [eapply OS_resize_failed; eassumption | repeat (econstructor; eauto)]. }
  rewrite changed_overwritten. fold (compact_guard module state x).
  destruct (compact_guard module state x) eqn:Eg; cbn [app finish].
  2:{ split; [eapply OS_resized; eassumption | repeat (econstructor; eauto)]. }
  destruct (compact_cmd C w3) as [[[] | e] w4] eqn:E4; cbn [app finish].
  - split; [eapply OS_compacted; eassumption | repeat (econstructor; eauto)].
  - split; [eapply OS_compact_failed; eassumption | repeat (econstructor; eauto)].
Qed.

End Adequacy.

Lemma calls_app {W} (C : Collaborator W) w t1 w1 t2 w2 :
  calls C w t1 w1 -> calls C w1 t2 w2 -> calls C w (t1 ++ t2) w2.
Proof.
  induction 1; cbn [app]; intros; [assumption | econstructor; eauto ..].
Qed.

Section AdequacyMain.
Context {W : Type} (C : Collaborator W).

Ltac unfold_main :=
  unfold try_except, call, peek,
    fail_json, exit_json, mbind, M_bind, bind, mret, M_ret, ret;
  cbv beta.

Lemma main_authenticate_shape module user password w :
  match main_authenticate C module user password w with
  | (s, w', t) =>
      Forall (fun ev => is_session ev = true) t /\ calls C w t w' /\
      (s = Next tt \/ exists msg, s = Exit (Failed msg))
  end.
Proof.
  unfold main_authenticate. unfold_main.
  destruct (authenticate C _ _ _ w) as [[[] | e] w1] eqn:E1; cbn [app].
  2:{ split_and!; [repeat constructor | repeat (econstructor; eauto) | eauto]. }
  destruct (server_info_version C w1) as [[v | e] w2] eqn:E2; cbn [app].
  2:{ split_and!; [repeat constructor | repeat (econstructor; eauto) | eauto]. }
  destruct (check_compatibility C v (PyMongoVersion C)); cbn [app].
  all: split_and!; [repeat constructor | repeat (econstructor; eauto) | eauto].
Qed.

Theorem run_has_shape args w o w' t :
  run C args w = (o, w', t) -> run_shape args o t /\ calls C w t w'.
Proof.
  unfold run, main, AnsibleModule. unfold_main.
  destruct (argument_spec args) as [module | msg] eqn:Eargs.
  2:{ intros [= <- <- <-]. split; [constructor; assumption | constructor]. }
  destruct (pymongo_found C).
  2:{ intros [= <- <- <-]. split; [eapply RS_session_failed; eauto | constructor]. }
  destruct (MongoClient C _ w) as [[[] | e] w1] eqn:E1.
  2:{ intros [= <- <- <-]. cbn [app].
      split; [eapply RS_session_failed; [eassumption | repeat constructor]
             | repeat (econstructor; eauto)]. }
  set (ev1 := EvMongoClient _ _) in *.
  assert (Hs1 : is_session ev1 = true) by reflexivity.
  assert (Hc1 : forall t0 w0, calls C w1 t0 w0 -> calls C w (ev1 :: t0) w0)
    by (intros; econstructor; eauto).
  clearbody ev1.
  destruct (login_user module) as [user |], (login_password module) as [password |].
  - (* both given *)
    pose proof (main_authenticate_shape module user password w1) as Ha.
    destruct (main_authenticate C module user password w1) as [[sa wa] ta].
    destruct Ha as (Hsess & Hcalls & [-> | [msg ->]]).
    2:{ cbn [app]. intros [= <- <- <-].
        split; [eapply RS_session_failed; eauto | eauto]. }
    pose proof (main_oplog_shape C module wa) as Ho.
    destruct (main_oplog C module _ wa) as [[so wo] to].
    destruct Ho as [Hshape Hcalls2].
    destruct so as [result | o2]; cbn [finish] in Hshape; cbn [app];
      rewrite ?app_nil_r; intros [= <- <- <-].
    all: split; [apply (RS_oplog args module (ev1 :: ta)); auto
                | apply Hc1; eapply calls_app; eauto].
  - cbn [app]. intros [= <- <- <-].
    split; [eapply RS_session_failed; eauto | apply Hc1; constructor].
  - cbn [app]. intros [= <- <- <-].
    split; [eapply RS_session_failed; eauto | apply Hc1; constructor].
  - (* neither given: the credentials file *)
    set (ev2 := EvLoadMongocnf _).
    assert (Hs2 : is_session ev2 = true) by reflexivity.
    assert (Hc2 : forall t0 w0, calls C w1 t0 w0 -> calls C w1 (ev2 :: t0) w0)
      by (intros; constructor; assumption).
    clearbody ev2.
    destruct (load_mongocnf C w1) as [[user password] |].
    2:{ cbn [app]. intros [= <- <- <-].
        split; [eapply RS_no_credentials; eauto | apply Hc1, Hc2; constructor]. }
    pose proof (main_authenticate_shape module user password w1) as Ha.
    destruct (main_authenticate C module user password w1) as [[sa wa] ta].
    destruct Ha as (Hsess & Hcalls & [-> | [msg ->]]).
    2:{ cbn [app]. intros [= <- <- <-].
        split; [eapply RS_session_failed; eauto | eauto]. }
    pose proof (main_oplog_shape C module wa) as Ho.
    destruct (main_oplog C module _ wa) as [[so wo] to].
    destruct Ho as [Hshape Hcalls2].
    destruct so as [result | o2]; cbn [finish] in Hshape; cbn [app];
      rewrite ?app_nil_r; intros [= <- <- <-].
    all: split; [apply (RS_oplog args module (ev1 :: ev2 :: ta)); auto
                | apply Hc1, Hc2; eapply calls_app; eauto].
Qed.

End AdequacyMain.

(* ===================================================================== *)
(** * Reading results and traces *)
(* ===================================================================== *)

Lemma result_of_changed c k m : result_of c k m !! "changed" = Some (PyBool c).
Proof. unfold result_of. by simplify_map_eq. Qed.

Lemma result_of_compacted c k m : result_of c k m !! "compacted" = Some (PyBool k).
Proof. unfold result_of. by simplify_map_eq. Qed.

Lemma result_of_msg c k m : result_of c k m !! "msg" = Some (PyStr m).
Proof. unfold result_of. by simplify_map_eq. Qed.

Lemma in_after_session t1 t2 ev :
  Forall (fun ev => is_session ev = true) t1 ->
  is_session ev = false ->
  In ev (t1 ++ t2) -> In ev t2.
Proof.
  intros Hs Hev Hin. apply in_app_or in Hin as [Hin | Hin]; [| assumption].
  rewrite Forall_forall in Hs. apply list_elem_of_In, Hs in Hin. congruence.
Qed.

Lemma not_in_session t ev :
  Forall (fun ev => is_session ev = true) t ->
  is_session ev = false -> ~ In ev t.
Proof.
  intros Hs Hev Hin. rewrite Forall_forall in Hs.
  apply list_elem_of_In, Hs in Hin. congruence.
Qed.

Lemma session_no_write t :
  Forall (fun ev => is_session ev = true) t ->
  Forall (fun ev => is_write ev = false) t.
Proof.
  induction 1 as [| ev t Hev _ IH]; constructor; [| exact IH].
  destruct ev; cbn in *; congruence.
Qed.

(** From a run to its shape, with the accepted arguments identified. *)
Ltac run_cases H Hargs :=
  let Hshape := fresh "Hshape" in
  let Hcalls := fresh "Hcalls" in
  apply run_has_shape in H as [Hshape Hcalls];
  destruct Hshape as [? Hargs' | ? ? ? Hargs' ? | ? ? Hargs' ? | ? ? ? ? Hargs' ? Hoplog];
  [ .. | destruct Hoplog ];
  rewrite Hargs in Hargs';
  first [ discriminate Hargs' | injection Hargs' as <- ];
  simplify_eq.

Ltac run_cases_any H :=
  let Hshape := fresh "Hshape" in
  let Hcalls := fresh "Hcalls" in
  apply run_has_shape in H as [Hshape Hcalls];
  destruct Hshape as [? Hargs' | ? ? ? Hargs' ? | ? ? Hargs' ? | ? ? ? ? Hargs' ? Hoplog];
  [ .. | destruct Hoplog ].

Ltac not_in_trace H :=
  solve [ destruct H
        | exfalso; eapply not_in_session; [eassumption | | exact H]; reflexivity ].

Ltac in_trace H :=
  first [ apply in_after_session in H; [| assumption | reflexivity]
        | idtac ];
  cbn [In] in H;
  repeat match type of H with
         | _ \/ _ => destruct H as [H | H]
         | False => destruct H
         end;
  simplify_eq.

(** ** Facts used by several properties *)

Lemma compact_guard_true module state x :
  compact_guard module state x = true <->
  state = "SECONDARY"%string /\ compact module = true /\
  float_gt_int x (oplog_size_mb module) = true.
Proof.
  unfold compact_guard. rewrite !andb_true_iff, bool_decide_eq_true. tauto.
Qed.

Lemma result_of_inj c1 k1 m1 c2 k2 m2 :
  result_of c1 k1 m1 = result_of c2 k2 m2 -> c1 = c2 /\ k1 = k2 /\ m1 = m2.
Proof.
  intros H.
  pose proof (result_of_changed c1 k1 m1) as Hc.
  pose proof (result_of_compacted c1 k1 m1) as Hk.
  pose proof (result_of_msg c1 k1 m1) as Hm.
  rewrite H in Hc, Hk, Hm.
  rewrite result_of_changed in Hc. rewrite result_of_compacted in Hk.
  rewrite result_of_msg in Hm. split_and!; congruence.
Qed.

(** ** Two runs in sequence *)

Lemma calls_app_inv {W} (C : Collaborator W) t1 t2 w w' :
  calls C w (t1 ++ t2) w' -> exists w1, calls C w t1 w1 /\ calls C w1 t2 w'.
Proof.
  revert w. induction t1 as [| ev t1 IH]; cbn [app]; intros w H.
  - exists w. split; [constructor | assumption].
  - inversion H; subst;
      match goal with Hc : calls C _ (t1 ++ t2) _ |- _ => apply IH in Hc as (w1' & ? & ?) end;
      exists w1'; (split; [econstructor; eauto | assumption]).
Qed.

Lemma session_keeps_stored {W} (C : Collaborator W) stored t w w' :
  applies_writes C stored ->
  Forall (fun ev => is_session ev = true) t ->
  calls C w t w' -> stored w' = stored w.
Proof.
  intros Haw Hs Hc. induction Hc; [reflexivity | ..].
  all: inversion Hs; subst.
  all: try discriminate.
  all: rewrite IHHc by assumption.
  - eapply aw_MongoClient; eauto.
  - reflexivity.
  - eapply aw_authenticate; eauto.
  - eapply aw_server_info; eauto.
Qed.

Lemma member_applies_writes : applies_writes member m_maxSize.
Proof.
  split; cbn.
  all: try (intros; simplify_eq; reflexivity).
  - intros size w w1. destruct (m_resize_error w); intros [= <-]. reflexivity.
  - intros w r w1. destruct (m_compact_error w); intros [= <- <-]; reflexivity.
Qed.

Ltac calls_inv H :=
  repeat match type of H with
         | calls _ _ (_ :: _) _ =>
             inversion H as [| | | | | | | |]; subst; clear H;
             match goal with Hn : calls _ _ _ _ |- _ => rename Hn into H end
         | calls _ _ [] _ => inversion H; subst; clear H
         end.

(** An accepted resize leaves the desired size stored. *)
Lemma first_run_stores {W} (C : Collaborator W) stored args module w0 result w1 t
    maxSize current :
  applies_writes C stored ->
  argument_spec args = inl module ->
  check_mode module = false ->
  run C args w0 = (Exited result, w1, t) ->
  In (EvCollStats (Ret maxSize)) t ->
  mb_of_bytes maxSize = Ret current ->
  int_eq_float (oplog_size_mb module) current = false ->
  result !! "changed" = Some (PyBool true) /\
  stored w1 = oplog_size_mb module * 1048576.
Proof.
  intros Haw Hargs Hchk Hrun Hin Hmb Hne.
  remember (Exited result) as o eqn:Ho.
  run_cases Hrun Hargs; try discriminate; try not_in_trace Hin.
  all: in_trace Hin; try congruence.
  all: split; [apply result_of_changed |].
  all: apply calls_app_inv in Hcalls as (wa & _ & Hcalls).
  all: calls_inv Hcalls.
  all: repeat match goal with
         | Hr : replSetResizeOplog _ _ _ = (Ret tt, _) |- _ =>
             apply (aw_resize C stored Haw) in Hr
         | Hk : compact_cmd _ _ = _ |- _ => apply (aw_compact C stored Haw) in Hk
         end.
  all: congruence.
Qed.

(** A run that finds the desired size stored changes nothing. *)
Lemma second_run_no_op {W} (C : Collaborator W) stored args module w1 result w2 t :
  applies_writes C stored ->
  argument_spec args = inl module ->
  check_mode module = false ->
  stored w1 = oplog_size_mb module * 1048576 ->
  run C args w1 = (Exited result, w2, t) ->
  (exists r, In (EvCollStats r) t) ->
  result !! "changed" = Some (PyBool (negb (exact_float (oplog_size_mb module)))).
Proof.
  intros Haw Hargs Hchk Hst Hrun [r Hin].
  remember (Exited result) as o eqn:Ho.
  run_cases Hrun Hargs; try discriminate; try not_in_trace Hin.
  all: try congruence.
  all: apply calls_app_inv in Hcalls as (wa & Hsess & Hcalls).
  all: eapply session_keeps_stored in Hsess; [| eassumption | assumption].
  all: inversion Hcalls as [| | | | | rs wx wy ty wz Hstats Hrest | | |]; subst.
  all: apply (aw_collStats C stored Haw) in Hstats as Hread.
  all: assert (Hbytes : maxSize = oplog_size_mb module * 1048576) by congruence.
  all: rewrite Hbytes in *.
  all: match goal with
       | Hx : mb_of_bytes _ = Ret ?x |- _ =>
           pose proof (exact_float_of_read _ _ Hx) as Hexact
       end.
  all: rewrite result_of_changed.
  all: repeat f_equal.
  all: destruct (exact_float (oplog_size_mb module)); cbn [negb]; congruence.
Qed.

(** ** Runs without credentials *)

(** With neither [login_user] nor [login_password] and no credentials
    file, line 189 skips everything down to line 242. *)
Lemma no_credentials_exit {W} (C : Collaborator W) args module w w1 :
  argument_spec args = inl module ->
  pymongo_found C = true ->
  login_user module = None ->
  login_password module = None ->
  MongoClient C {| cp_host := login_host module;
                   cp_port := login_port module;
                   cp_ssl := if ssl module
                             then Some (ssl module, ssl_cert_reqs module) else None |} w
  = (Ret tt, w1) ->
  load_mongocnf C w1 = None ->
  run C args w
  = (Exited {["changed" := PyBool false]}, w1,
     [EvMongoClient {| cp_host := login_host module;
                       cp_port := login_port module;
                       cp_ssl := if ssl module
                                 then Some (ssl module, ssl_cert_reqs module) else None |}
        (Ret tt);
      EvLoadMongocnf None]).
Proof.
  intros Hargs Hpy Hu Hp Hconn Hcnf.
  unfold run, main, AnsibleModule. rewrite Hargs.
  unfold try_except, call, peek, fail_json, exit_json, mbind, M_bind, bind, mret, M_ret, ret.
  cbv beta iota. rewrite Hpy. cbv beta iota. rewrite Hconn. cbv beta iota.
  rewrite Hu, Hp. cbv beta iota. rewrite Hcnf. reflexivity.
Qed.


(* ===================================================================== *)
(** * The session, call by call *)
(* ===================================================================== *)

Section MainShape.
Context {W : Type} (C : Collaborator W).

Lemma main_authenticate_precise module user password w :
  match main_authenticate C module user password w with
  | (Next _, _, t) => auth_shape C module user password None t
  | (Exit o, _, t) => auth_shape C module user password (Some o) t
  end.
Proof.
  unfold main_authenticate.
  unfold try_except, call, fail_json, mbind, M_bind, bind, mret, M_ret, ret.
  cbv beta.
  destruct (authenticate C _ _ _ w) as [[[] | e] w1]; cbn [app].
  2:{ constructor. }
  destruct (server_info_version C w1) as [[v | e] w2]; cbn [app].
  2:{ constructor. }
  destruct (check_compatibility C v (PyMongoVersion C)) eqn:Ec; cbn [app].
  all: econstructor; eassumption.
Qed.

Lemma main_after_credentials module user password w tc :
  credentials module tc user password ->
  forall o w' t,
    (match main_authenticate C module user password w with
     | (Next _, wa, ta) =>
         match main_oplog C module {["changed" := PyBool false]} wa with
         | (s, wo, to) => (finish s, wo, ta ++ to)
         end
     | (Exit o, wa, ta) => (o, wa, ta)
     end) = (o, w', t) ->
    (session_shape C module (Some o)
       (EvMongoClient (connection_params_of module) (Ret tt) :: tc ++ t)) \/
    (exists ta to,
        t = ta ++ to /\
        session_shape C module None
          (EvMongoClient (connection_params_of module) (Ret tt) :: tc ++ ta) /\
        oplog_shape module o to).
Proof.
  intros Hcred o w' t.
  pose proof (main_authenticate_precise module user password w) as Ha.
  destruct (main_authenticate C module user password w) as [[[[] | oa] wa] ta].
  - pose proof (main_oplog_shape C module wa) as Ho.
    destruct (main_oplog C module _ wa) as [[so wo] to]. destruct Ho as [Ho _].
    intros [= <- <- <-]. right. exists ta, to.
    split_and!; [reflexivity | econstructor; eassumption | assumption].
  - intros [= <- <- <-]. left. econstructor; eassumption.
Qed.

Theorem run_has_main_shape args w o w' t :
  run C args w = (o, w', t) -> main_shape C args o t.
Proof.
  unfold run, main, AnsibleModule.
  unfold try_except, call, peek, fail_json, exit_json, mbind, M_bind, bind, mret, M_ret, ret.
  cbv beta.
  destruct (argument_spec args) as [module | msg] eqn:Eargs.
  2:{ intros [= <- <- <-]. constructor. assumption. }
  fold (connection_params_of module).
  destruct (pymongo_found C) eqn:Epy.
  2:{ intros [= <- <- <-]. eapply MS_session; [eassumption |]. constructor. assumption. }
  destruct (MongoClient C _ w) as [[[] | e] w1].
  2:{ intros [= <- <- <-]. cbn [app]. eapply MS_session; [eassumption |]. constructor. }
  destruct (login_user module) as [user |] eqn:Eu,
           (login_password module) as [password |] eqn:Ep.
  - pose proof (main_after_credentials module user password w1 []
                  (cred_given module user password Eu Ep)) as Hafter.
    destruct (main_authenticate C module user password w1) as [[[[] | oa] wa] ta].
    + destruct (main_oplog C module _ wa) as [[so wo] to].
      destruct so as [result | o2]; cbn [app]; rewrite ?app_nil_r; intros [= <- <- <-].
      all: destruct (Hafter _ _ _ eq_refl) as [Hs | (ta' & to' & Ht & Hs & Ho)].
      all: first [ eapply MS_session; [eassumption | exact Hs]
                 | rewrite Ht; apply (MS_oplog C args module (_ :: [] ++ ta')); assumption ].
    + cbn [app]. intros [= <- <- <-].
      destruct (Hafter _ _ _ eq_refl) as [Hs | (ta' & to' & Ht & Hs & Ho)].
      * eapply MS_session; [eassumption | exact Hs].
      * rewrite Ht. apply (MS_oplog C args module (_ :: [] ++ ta')); assumption.
  - cbn [app]. intros [= <- <- <-]. eapply MS_session; [eassumption |].
    apply SS_one_credential. rewrite Eu, Ep. split; [discriminate | congruence].
  - cbn [app]. intros [= <- <- <-]. eapply MS_session; [eassumption |].
    apply SS_one_credential. rewrite Eu, Ep. split; [discriminate | congruence].
  - destruct (load_mongocnf C w1) as [[user password] |].
    2:{ cbn [app]. intros [= <- <- <-]. eapply MS_session; [eassumption |].
        apply SS_no_credentials; assumption. }
    pose proof (main_after_credentials module user password w1 _
                  (cred_file module user password Eu Ep)) as Hafter.
    destruct (main_authenticate C module user password w1) as [[[[] | oa] wa] ta].
    + destruct (main_oplog C module _ wa) as [[so wo] to].
      destruct so as [result | o2]; cbn [app]; rewrite ?app_nil_r; intros [= <- <- <-].
      all: destruct (Hafter _ _ _ eq_refl) as [Hs | (ta' & to' & Ht & Hs & Ho)].
      all: first [ eapply MS_session; [eassumption | exact Hs]
                 | rewrite Ht; apply (MS_oplog C args module (_ :: [_] ++ ta')); assumption ].
    + cbn [app]. intros [= <- <- <-].
      destruct (Hafter _ _ _ eq_refl) as [Hs | (ta' & to' & Ht & Hs & Ho)].
      * eapply MS_session; [eassumption | exact Hs].
      * rewrite Ht. apply (MS_oplog C args module (_ :: [_] ++ ta')); assumption.
Qed.

End MainShape.


(** From a run to its shape, call by call: the trace becomes an explicit
    list of calls. *)
Ltac main_cases H Hargs :=
  let Hm := fresh "Hmain" in
  pose proof (run_has_main_shape _ _ _ _ _ _ H) as Hm;
  inversion Hm as [? Ha0 | module0 ? ? Ha0 Hs0 | module0 ? ? ? Ha0 Hs0 Ho0]; clear Hm;
  rewrite Hargs in Ha0;
  [ discriminate Ha0
  | injection Ha0 as <-;
    inversion Hs0 as [ ? | ? | ? | ? ? | ? ? ? ? ? Hcr Hau ]; clear Hs0;
    [ .. | inversion Hcr; clear Hcr; inversion Hau; clear Hau ]
  | injection Ha0 as <-;
    inversion Hs0 as [ ? | ? | ? | ? ? | ? ? ? ? ? Hcr Hau ]; clear Hs0;
    inversion Hcr; clear Hcr; inversion Hau; clear Hau;
    inversion Ho0; clear Ho0 ];
  subst; cbn [app] in *.

Ltac split_in H :=
  cbn [In] in H;
  repeat match type of H with
         | _ \/ _ => destruct H as [H | H]
         | False => destruct H
         end;
  simplify_eq.

(* ===================================================================== *)
(** * The properties *)
(* ===================================================================== *)

(** C1 (as amended). The compact command is called if and only if the
    member answered SECONDARY, [compact] is set, the size read is greater
    than the desired one and the resize call returned.  When these do not
    all hold no compact call is made, and a run outside check mode that
    read the current size and exits reports [compacted=false].  When the
    compact call returns the run reports [compacted=true]. *)
Theorem C1_compact_guard {W} (C : Collaborator W) args module w o w' t :
  run C args w = (o, w', t) ->
  argument_spec args = inl module ->
  ((exists r, In (EvCompact r) t) <-> compact_conditions module t) /\
  (~ compact_conditions module t ->
   (forall r, ~ In (EvCompact r) t) /\
   (check_mode module = false ->
    forall result r,
      o = Exited result -> In (EvCollStats r) t ->
      result !! "compacted" = Some (PyBool false))) /\
  (In (EvCompact (Ret tt)) t ->
   exists result, o = Exited result /\ result !! "compacted" = Some (PyBool true)).
Proof.
  intros Hrun Hargs.
  assert (Hiff : (exists r, In (EvCompact r) t) <-> compact_conditions module t).
  { unfold compact_conditions. run_cases Hrun Hargs.
    all: split;
      [ intros [r Hin]; try not_in_trace Hin; in_trace Hin
      | intros (maxSize' & cur' & Hs & Hmb & Hst & Hc & Hgt & Hr);
        try not_in_trace Hr; in_trace Hr ].
    all: try match goal with
           | Hg : compact_guard _ _ _ = true |- _ =>
               apply compact_guard_true in Hg as (-> & Hg1 & Hg2)
           end.
    all: try solve [ eexists _, _; split_and!; try eassumption;
                     apply in_or_app; right; cbn [In]; tauto ].
    all: try solve [ eexists; apply in_or_app; right; cbn [In]; eauto 6 ].
    in_trace Hs. in_trace Hst.
    match goal with
    | Hf : compact_guard ?m _ ?x = false |- _ =>
        assert (compact_guard m "SECONDARY" x = true)
          by (apply compact_guard_true; split_and!; congruence)
    end.
    congruence. }
  split; [exact Hiff |]. split.
  - intros Hno. split.
    + intros r Hin. apply Hno, Hiff. eauto.
    + intros Hchk result r Ho Hin. clear Hiff.
      run_cases Hrun Hargs; try discriminate.
      all: try not_in_trace Hin.
      all: try apply result_of_compacted.
      * congruence.
      * exfalso. apply Hno. unfold compact_conditions.
        match goal with
        | Hg : compact_guard _ _ _ = true |- _ =>
            apply compact_guard_true in Hg as (-> & Hg1 & Hg2)
        end.
        eexists _, _; split_and!; try eassumption;
          apply in_or_app; right; cbn [In]; tauto.
  - intros Hin. clear Hiff.
    run_cases Hrun Hargs; try not_in_trace Hin; in_trace Hin.
    eexists. split; [reflexivity | apply result_of_compacted].
Qed.

Lemma C1_witness :
  compact_conditions (task_module 8000 true false)
    (session_events ++
     [EvCollStats (Ret 16777216000); EvMemberState (Ret "SECONDARY"%string);
      EvResize 8000 (Ret tt); EvCompact (Ret tt)]) /\
  exists result,
    Exited (result_of true true "oplog has been resized from 16000.0 mb to 8000 mb")
    = Exited result /\
    result !! "compacted" = Some (PyBool true).
Proof.
  pose proof (C1_compact_guard member (task 8000 true false) (task_module 8000 true false)
                (a_member 16000 "SECONDARY")
                (Exited (result_of true true
                           "oplog has been resized from 16000.0 mb to 8000 mb"))
                (a_member 8000 "SECONDARY")
                (session_events ++
                 [EvCollStats (Ret 16777216000); EvMemberState (Ret "SECONDARY"%string);
                  EvResize 8000 (Ret tt); EvCompact (Ret tt)])
                ltac:(vm_compute; reflexivity) ltac:(vm_compute; reflexivity))
    as (Hiff & _ & Hdone).
  split.
  - apply Hiff. exists (Ret tt). vm_compute. tauto.
  - apply Hdone. vm_compute. tauto.
Defined.

(** C1 as stated fails in check mode: with a SECONDARY member, [compact]
    set and a larger current size, no resize call is made (so the four
    conditions do not hold) and no compact call is made, yet the result
    has [compacted=true]. *)
Lemma C1_counterexample :
  exists o w' t result,
    run member (task 8000 true true) (a_member 16000 "SECONDARY") = (o, w', t) /\
    ~ compact_conditions (task_module 8000 true true) t /\
    (forall r, ~ In (EvCompact r) t) /\
    o = Exited result /\
    result !! "compacted" = Some (PyBool true).
Proof.
  exists (Exited (result_of true true "oplog has been resized from 16000.0 mb to 8000 mb")),
    (a_member 16000 "SECONDARY"),
    (session_events ++
     [EvCollStats (Ret 16777216000); EvMemberState (Ret "SECONDARY"%string)]).
  eexists. split_and!.
  - vm_compute. reflexivity.
  - intros (maxSize & cur & _ & _ & _ & _ & _ & Hr).
    cbn in Hr. intuition discriminate.
  - intros r Hin. cbn in Hin. intuition discriminate.
  - reflexivity.
  - apply result_of_compacted.
Qed.



(** C3 (the code departs from it). Asked to shrink a 16000 MB oplog to
    8000 MB without [login_user] and [login_password], on a host without a
    credentials file, the run exits with [changed=false] and nothing else:
    the only calls are the connection and the look-up of the credentials
    file; the current size is never read. *)
Theorem C3_no_credentials_no_read :
  run member (anonymous (task 8000 true false)) (a_member 16000 "SECONDARY")
  = (Exited {["changed" := PyBool false]},
     a_member 16000 "SECONDARY",
     [EvMongoClient {| cp_host := "localhost"; cp_port := 27017; cp_ssl := None |} (Ret tt);
      EvLoadMongocnf None]).
Proof. vm_compute. reflexivity. Qed.

(** With the credentials given, the same task reads the size and acts. *)
Example with_credentials_reads :
  run member (task 8000 true false) (a_member 16000 "SECONDARY")
  = (Exited (result_of true true "oplog has been resized from 16000.0 mb to 8000 mb"),
     a_member 8000 "SECONDARY",
     session_events ++
     [EvCollStats (Ret 16777216000); EvMemberState (Ret "SECONDARY"%string);
      EvResize 8000 (Ret tt); EvCompact (Ret tt)]).
Proof. vm_compute. reflexivity. Qed.

(** C4. In check mode no run calls the resize or the compact command; a
    check-mode run that reads a current size different from the desired
    one and reads the member state exits with [changed=true] and
    [compacted] equal to [state == "SECONDARY" and compact]. *)
Theorem C4_check_mode_simulates {W} (C : Collaborator W)
    args module w o w' t :
  run C args w = (o, w', t) ->
  argument_spec args = inl module ->
  check_mode module = true ->
  Forall (fun ev => is_write ev = false) t /\
  forall maxSize current state,
    In (EvCollStats (Ret maxSize)) t ->
    mb_of_bytes maxSize = Ret current ->
    int_eq_float (oplog_size_mb module) current = false ->
    In (EvMemberState (Ret state)) t ->
    exists result,
      o = Exited result /\
      result !! "changed" = Some (PyBool true) /\
      result !! "compacted" =
        Some (PyBool (bool_decide (state = "SECONDARY"%string) && compact module)) /\
      result !! "msg" = Some (PyStr (resized_msg current (oplog_size_mb module))).
Proof.
  intros Hrun Hargs Hchk.
  run_cases Hrun Hargs; try congruence.
  all: split;
    [ first [ apply session_no_write; assumption
            | apply Forall_app; split;
              [apply session_no_write; assumption | repeat constructor] ] | ].
  all: intros maxSize' current state' Hin Hmb Hne Hst.
  all: try solve [exfalso; eapply not_in_session; [eassumption | | exact Hin]; reflexivity].
  all: in_trace Hin; try congruence.
  all: in_trace Hst.
  eexists. split_and!; [reflexivity | apply result_of_changed | apply result_of_compacted |].
  rewrite result_of_msg. congruence.
Qed.

Lemma C4_witness :
  Forall (fun ev => is_write ev = false)
    (session_events ++
     [EvCollStats (Ret 16777216000); EvMemberState (Ret "SECONDARY"%string)]) /\
  exists result,
    Exited (result_of true true "oplog has been resized from 16000.0 mb to 8000 mb")
    = Exited result /\
    result !! "changed" = Some (PyBool true) /\
    result !! "compacted" = Some (PyBool true) /\
    result !! "msg" = Some (PyStr "oplog has been resized from 16000.0 mb to 8000 mb").
Proof.
  pose proof (C4_check_mode_simulates member (task 8000 true true)
                (task_module 8000 true true)
                (a_member 16000 "SECONDARY")
                (Exited (result_of true true
                           "oplog has been resized from 16000.0 mb to 8000 mb"))
                (a_member 16000 "SECONDARY")
                (session_events ++
                 [EvCollStats (Ret 16777216000); EvMemberState (Ret "SECONDARY"%string)])
                ltac:(vm_compute; reflexivity) ltac:(vm_compute; reflexivity)
                ltac:(vm_compute; reflexivity)) as [Hw Hres].
  split; [exact Hw |].
  apply (Hres 16777216000 (S754_finite false 8796093022208000 (-39)) "SECONDARY"%string).
  - vm_compute. tauto.
  - vm_compute. reflexivity.
  - vm_compute. reflexivity.
  - vm_compute. tauto.
Defined.

(** C5. A failed resize ends the run with the one message "Unable to set
    oplog size: <cause>" and no compact call is made; a compact call is
    only ever made right after a resize call that returned; a failed
    compact ends the run with "Error compacting member oplog: <cause>";
    and a run ends either with a result or with a failure message. *)
Theorem C5_failures_end_the_run {W} (C : Collaborator W) args w o w' t :
  run C args w = (o, w', t) ->
  (forall size cause,
     In (EvResize size (Raise cause)) t ->
     o = Failed ("Unable to set oplog size: " +:+ cause) /\
     forall r, ~ In (EvCompact r) t) /\
  (forall r,
     In (EvCompact r) t ->
     exists t0 size, t = t0 ++ [EvResize size (Ret tt); EvCompact r]) /\
  (forall cause,
     In (EvCompact (Raise cause)) t ->
     o = Failed ("Error compacting member oplog: " +:+ cause)) /\
  ((exists result, o = Exited result /\ forall msg, o <> Failed msg) \/
   (exists msg, o = Failed msg /\ forall result, o <> Exited result)).
Proof.
  intros Hrun. run_cases_any Hrun.
  all: split_and!.
  all: try (intros size cause Hin; try not_in_trace Hin; in_trace Hin;
            (split; [reflexivity |]); intros r Hc; in_trace Hc).
  all: try (intros r Hin; try not_in_trace Hin; in_trace Hin;
            eexists (_ ++ [_; _]), _; rewrite <- app_assoc; reflexivity).
  all: try (intros cause Hin; try not_in_trace Hin; in_trace Hin; reflexivity).
  all: first [ left; eexists; split; [reflexivity | intros ?; discriminate]
             | right; eexists; split; [reflexivity | intros ?; discriminate] ].
Qed.

Lemma C5_witness :
  Failed "Unable to set oplog size: not authorized"
  = Failed ("Unable to set oplog size: " +:+ "not authorized") /\
  forall r,
    ~ In (EvCompact r)
        (session_events ++
         [EvCollStats (Ret 16777216000); EvMemberState (Ret "SECONDARY"%string);
          EvResize 8000 (Raise "not authorized")]).
Proof.
  apply (proj1 (C5_failures_end_the_run member (task 8000 true false)
                  (refusing (Some "not authorized"%string) None (a_member 16000 "SECONDARY"))
                  (Failed "Unable to set oplog size: not authorized")
                  (refusing (Some "not authorized"%string) None (a_member 16000 "SECONDARY"))
                  (session_events ++
                   [EvCollStats (Ret 16777216000); EvMemberState (Ret "SECONDARY"%string);
                    EvResize 8000 (Raise "not authorized")])
                  ltac:(vm_compute; reflexivity)) 8000 "not authorized"%string).
  vm_compute. tauto.
Defined.

(** C6. Take a check-mode run and a real run with the same desired size
    and [compact] set, which both read the same current size, different
    from the desired one, from a SECONDARY member.  The check-mode run
    reports [compacted=true].  If the desired size is greater than the
    current one (growing), the real run makes no compact call and reports
    [compacted=false]; if it is smaller (shrinking), the real run reports
    [compacted=true] as predicted. *)
Theorem C6_check_mode_overpredicts {W} (C : Collaborator W)
    args1 module1 w1 o1 w1' t1 args2 module2 w2 result2 w2' t2 maxSize current :
  run C args1 w1 = (o1, w1', t1) ->
  run C args2 w2 = (Exited result2, w2', t2) ->
  argument_spec args1 = inl module1 ->
  argument_spec args2 = inl module2 ->
  check_mode module1 = true ->
  check_mode module2 = false ->
  oplog_size_mb module1 = oplog_size_mb module2 ->
  compact module1 = true ->
  compact module2 = true ->
  mb_of_bytes maxSize = Ret current ->
  int_eq_float (oplog_size_mb module2) current = false ->
  In (EvCollStats (Ret maxSize)) t1 ->
  In (EvCollStats (Ret maxSize)) t2 ->
  In (EvMemberState (Ret "SECONDARY"%string)) t1 ->
  In (EvMemberState (Ret "SECONDARY"%string)) t2 ->
  (exists result1, o1 = Exited result1 /\ result1 !! "compacted" = Some (PyBool true)) /\
  (float_compare_int current (oplog_size_mb module2) = Some Lt ->
   result2 !! "compacted" = Some (PyBool false) /\ forall r, ~ In (EvCompact r) t2) /\
  (float_compare_int current (oplog_size_mb module2) = Some Gt ->
   result2 !! "compacted" = Some (PyBool true)).
Proof.
  intros Hrun1 Hrun2 Hargs1 Hargs2 Hchk1 Hchk2 Hsize Hc1 Hc2 Hmb Hne Hs1 Hs2 Hst1 Hst2.
  split; [| split].
  - clear Hrun2 Hs2 Hst2. rewrite <- Hsize in Hne.
    run_cases Hrun1 Hargs1; try not_in_trace Hs1.
    all: in_trace Hs1; try congruence.
    all: try not_in_trace Hst1; in_trace Hst1.
    eexists. split; [reflexivity |]. rewrite result_of_compacted.
    unfold compact_predicted. rewrite Hc1. reflexivity.
  - intros Hlt. clear Hrun1 Hs1 Hst1.
    remember (Exited result2) as o2 eqn:Ho2.
    run_cases Hrun2 Hargs2; try discriminate; try not_in_trace Hs2.
    all: in_trace Hs2; try congruence.
    all: in_trace Hst2.
    + split; [apply result_of_compacted |]. intros r Hin. in_trace Hin.
    + match goal with
      | Hg : compact_guard _ _ _ = true |- _ =>
          apply compact_guard_true in Hg as (_ & _ & Hgt)
      end.
      unfold float_gt_int in Hgt. replace x with current in Hgt by congruence.
      rewrite Hlt in Hgt. discriminate.
  - intros Hgt. clear Hrun1 Hs1 Hst1.
    remember (Exited result2) as o2 eqn:Ho2.
    run_cases Hrun2 Hargs2; try discriminate; try not_in_trace Hs2.
    all: in_trace Hs2; try congruence.
    all: in_trace Hst2.
    + match goal with
      | Hg : compact_guard ?m _ ?x = false |- _ =>
          assert (compact_guard m "SECONDARY" x = true)
            by (apply compact_guard_true; split_and!; try congruence;
                unfold float_gt_int; replace x with current by congruence;
                rewrite Hgt; reflexivity)
      end.
      congruence.
    + apply result_of_compacted.
Qed.

Lemma C6_witness :
  (exists result1,
     Exited (result_of true true "oplog has been resized from 8000.0 mb to 16000 mb")
     = Exited result1 /\
     result1 !! "compacted" = Some (PyBool true)) /\
  result_of true false "oplog has been resized from 8000.0 mb to 16000 mb" !! "compacted"
  = Some (PyBool false) /\
  forall r,
    ~ In (EvCompact r)
        (session_events ++
         [EvCollStats (Ret 8388608000); EvMemberState (Ret "SECONDARY"%string);
          EvResize 16000 (Ret tt)]).
Proof.
  pose proof (C6_check_mode_overpredicts member
                (task 16000 true true) (task_module 16000 true true)
                (a_member 8000 "SECONDARY")
                (Exited (result_of true true
                           "oplog has been resized from 8000.0 mb to 16000 mb"))
                (a_member 8000 "SECONDARY")
                (session_events ++
                 [EvCollStats (Ret 8388608000); EvMemberState (Ret "SECONDARY"%string)])
                (task 16000 true false) (task_module 16000 true false)
                (a_member 8000 "SECONDARY")
                (result_of true false "oplog has been resized from 8000.0 mb to 16000 mb")
                (a_member 16000 "SECONDARY")
                (session_events ++
                 [EvCollStats (Ret 8388608000); EvMemberState (Ret "SECONDARY"%string);
                  EvResize 16000 (Ret tt)])
                8388608000 (S754_finite false 8796093022208000 (-40))
                ltac:(vm_compute; reflexivity) ltac:(vm_compute; reflexivity)
                ltac:(vm_compute; reflexivity) ltac:(vm_compute; reflexivity)
                ltac:(vm_compute; reflexivity) ltac:(vm_compute; reflexivity)
                ltac:(vm_compute; reflexivity) ltac:(vm_compute; reflexivity)
                ltac:(vm_compute; reflexivity) ltac:(vm_compute; reflexivity)
                ltac:(vm_compute; reflexivity)
                ltac:(vm_compute; tauto) ltac:(vm_compute; tauto)
                ltac:(vm_compute; tauto) ltac:(vm_compute; tauto))
    as (Hcheck & Hgrow & _).
  split; [exact Hcheck |].
  apply Hgrow. vm_compute. reflexivity.
Defined.

(** The size in megabytes may be fractional: one byte is [2^-20] MB. *)
Example one_byte_in_mb :
  mb_of_bytes 1 = Ret (S754_finite false 4503599627370496 (-72)).
Proof. reflexivity. Qed.

(** C7 as stated fails on large byte counts: [2^60 + 1] bytes divided by
    1024 twice is rounded to [2^40] MB, and the run takes the no-op branch
    for a desired size of [2^40] although the byte counts differ. *)
Lemma C7_counterexample :
  run member (task (2 ^ 40) false false) (member_of_bytes (2 ^ 60 + 1) "PRIMARY")
  = (Exited (result_of false false "oplog_size_mb is already 1099511627776 mb"),
     member_of_bytes (2 ^ 60 + 1) "PRIMARY",
     session_events ++ [EvCollStats (Ret (2 ^ 60 + 1))]) /\
  2 ^ 60 + 1 <> 2 ^ 40 * 1048576.
Proof. split; [vm_compute; reflexivity | discriminate]. Qed.

(** C7 (as amended). For a byte count of magnitude below [2^53] the two
    divisions by 1024 are exact, so the size in megabytes (possibly
    fractional) compares with any integer as the byte count compares with
    that many megabytes; the comparison of line 209 has no tolerance, and
    a run that reads such a byte count takes the no-op branch if and only
    if [maxSize = oplog_size_mb * 1024 * 1024]. *)
Theorem C7_no_op_iff_exact_bytes {W} (C : Collaborator W)
    args module w o w' t maxSize :
  run C args w = (o, w', t) ->
  argument_spec args = inl module ->
  In (EvCollStats (Ret maxSize)) t ->
  Z.abs maxSize < 2 ^ 53 ->
  (exists current,
     mb_of_bytes maxSize = Ret current /\
     (forall z, float_compare_int current z = Some (maxSize ?= z * 1048576)) /\
     (int_eq_float (oplog_size_mb module) current = true <->
      maxSize = oplog_size_mb module * 1048576)) /\
  (o = Exited (result_of false false (already_msg (oplog_size_mb module))) <->
   maxSize = oplog_size_mb module * 1048576).
Proof.
  intros Hrun Hargs Hin Hlt.
  destruct (mb_of_bytes_compare maxSize 0 Hlt) as (current & Hmb & _).
  assert (Hcmp : forall z, float_compare_int current z = Some (maxSize ?= z * 1048576)).
  { intros z. destruct (mb_of_bytes_compare maxSize z Hlt) as (c' & Hmb' & Hc').
    congruence. }
  assert (Heq : int_eq_float (oplog_size_mb module) current = true <->
                maxSize = oplog_size_mb module * 1048576).
  { unfold int_eq_float. rewrite Hcmp.
    destruct (Z.compare_spec maxSize (oplog_size_mb module * 1048576));
      split; intros; try discriminate; try lia; reflexivity. }
  split; [exists current; auto |].
  run_cases Hrun Hargs; try not_in_trace Hin.
  all: in_trace Hin; try congruence.
  all: match goal with
       | Hx : mb_of_bytes _ = Ret ?x |- _ =>
           assert (x = current) by congruence; subst x
       end.
  all: split; [intros Ho | intros Hb].
  all: try discriminate.
  all: try (apply Heq; assumption).
  all: try reflexivity.
  all: try (injection Ho as Ho; apply result_of_inj in Ho as (? & ? & ?); discriminate).
  all: apply Heq in Hb; congruence.
Qed.

Lemma C7_witness :
  (exists current,
     mb_of_bytes 8388608000 = Ret current /\
     (forall z, float_compare_int current z = Some (8388608000 ?= z * 1048576)) /\
     (int_eq_float 8000 current = true <-> 8388608000 = 8000 * 1048576)) /\
  (Exited (result_of false false "oplog_size_mb is already 8000 mb")
   = Exited (result_of false false (already_msg 8000)) <->
   8388608000 = 8000 * 1048576).
Proof.
  apply (C7_no_op_iff_exact_bytes member (task 8000 false false)
           (task_module 8000 false false) (a_member 8000 "PRIMARY")
           (Exited (result_of false false "oplog_size_mb is already 8000 mb"))
           (a_member 8000 "PRIMARY")
           (session_events ++ [EvCollStats (Ret 8388608000)]) 8388608000).
  - vm_compute. reflexivity.
  - vm_compute. reflexivity.
  - vm_compute. tauto.
  - vm_compute. reflexivity.
Defined.




(** A size that [AnsibleModule] cannot convert to an integer is refused
    with the message of the conversion, before any call. *)
Example unconvertible_size_refused {W} (C : Collaborator W) (w : W) (why : string)
    (check : bool) :
  run C {| a_login_user := Some "admin"%string;
           a_login_password := Some "secret"%string;
           a_login_database := None;
           a_login_host := None;
           a_login_port := None;
           a_oplog_size_mb := Some (Unconvertible why);
           a_compact := None;
           a_ssl := None;
           a_ssl_cert_reqs := None;
           a_check_mode := check |} w
  = (Failed why, w, []).
Proof. reflexivity. Qed.

(** The text of [<new>] reads back as the desired size. *)
Lemma str_int_reads_back (z : Z) :
  Z.of_int <$> NilZero.int_of_string (str_int z) = Some z.
Proof.
  unfold str_int.
  assert (Hnn : forall p, Pos.to_uint p <> Decimal.Nil)
    by (intros p; apply DecimalPos.Unsigned.to_uint_nonnil).
  rewrite NilZero.isi.
  - cbn [fmap option_fmap option_map]. f_equal. apply DecimalZ.of_to.
  - destruct z as [| p | p]; cbn [Z.to_int]; [discriminate | | discriminate].
    intros [= H]. exact (Hnn p H).
  - destruct z as [| p | p]; cbn [Z.to_int]; [discriminate | discriminate |].
    intros [= H]. exact (Hnn p H).
Qed.

(** A byte count that a float holds exactly is divided without rounding. *)
Lemma nearest_whole_exact_bytes (a : Z) (x : spec_float) (z : Z) :
  exact_float a = true -> 2 ^ 53 <= Z.abs a ->
  mb_of_bytes a = Ret x -> nearest_whole x z ->
  2 * Z.abs (a - z * 1048576) <= 1048576.
Proof.
  intros Hexact Hbig Hmb Hnear.
  destruct (exact_float_split a Hexact Hbig) as (M & k & Ha & HM & Hk).
  rewrite (mb_of_bytes_zeros a M k Ha HM) in Hmb by lia.
  destruct (k - 10 <=? emax - prec); [| discriminate].
  injection Hmb as <-.
  unfold nearest_whole, float_ratio in Hnear.
  assert (Hval : a = cond_Zopp (a <? 0) (Zpos M) * 2 ^ k).
  { destruct (Z.ltb_spec a 0); cbn [cond_Zopp]; lia. }
  destruct (Z.leb_spec 0 (k - 20)) as [Hk20 | Hk20].
  - destruct Hnear as [Hnear _].
    assert (Hpow : 2 ^ k = 2 ^ (k - 20) * 1048576).
    { replace k with ((k - 20) + 20) at 1 by lia.
      rewrite Z.pow_add_r by lia. reflexivity. }
    assert (Heq : cond_Zopp (a <? 0) (Zpos M) * 2 ^ (k - 20) = z) by lia.
    rewrite Hval, Hpow, Z.mul_assoc, Heq. lia.
  - destruct Hnear as [Hnear _].
    assert (Hpow : 2 ^ (- (k - 20)) * 2 ^ k = 1048576).
    { rewrite <- Z.pow_add_r by lia. replace (- (k - 20) + k) with 20 by lia. reflexivity. }
    assert (H2k : 0 < 2 ^ k) by (apply Z.pow_pos_nonneg; lia).
    set (d := 2 ^ (- (k - 20))) in *. set (c := cond_Zopp (a <? 0) (Zpos M)) in *.
    assert (Hmul : a - z * 1048576 = (c - z * d) * 2 ^ k) by (rewrite <- Hpow; rewrite Hval at 1; ring).
    rewrite Hmul, Z.abs_mul, (Z.abs_eq (2 ^ k)) by lia.
    nia.
Qed.

(** What line 123 returns, rounded: the whole number nearest to it,
    printed with its digits when these are at most 16, and the whole
    number of megabytes nearest to the byte count when this is at most
    [2^53 + 2^19] or has at most 53 significant bits. *)
Lemma mb_of_bytes_rounded (a : Z) (x : spec_float) :
  mb_of_bytes a = Ret x ->
  exists z,
    nearest_whole x z /\
    float_compare_int (round_float x) z = Some Eq /\
    (Z.abs z < 10 ^ 16 ->
     str_float (round_float x)
     = (if a <? 0 then "-" else "") +:+ str_int (Z.abs z) +:+ ".0") /\
    (Z.abs a <= 2 ^ 53 + 2 ^ 19 \/ exact_float a = true ->
     2 * Z.abs (a - z * 1048576) <= 1048576).
Proof.
  intros Hx.
  assert (Hnear : forall z,
             nearest_whole x z ->
             float_compare_int (round_float x) z = Some Eq ->
             Z.abs a <= 2 ^ 53 + 2 ^ 19 \/ exact_float a = true ->
             2 * Z.abs (a - z * 1048576) <= 1048576).
  { intros z Hw Hz Hcases.
    assert (Ha : Z.abs a <= 2 ^ 53 + 2 ^ 19 \/
                 (exact_float a = true /\ 2 ^ 53 <= Z.abs a)).
    { destruct (Z.le_gt_cases (Z.abs a) (2 ^ 53 + 2 ^ 19)) as [Hle | Hgt].
      - left. exact Hle.
      - right. destruct Hcases as [Hle | Hexact]; [lia | split; [exact Hexact | lia]]. }
    clear Hcases. destruct Ha as [Ha | [Hexact Hbig]];
      [| exact (nearest_whole_exact_bytes a x z Hexact Hbig Hx Hw)].
    destruct (round_mb_of_bytes_near a Ha) as (x' & n & Hx' & Hn & Hd).
    assert (x' = x) by congruence. subst x'.
    rewrite (float_compare_int_inj _ _ _ Hz Hn). exact Hd. }
  destruct (mb_of_bytes_normal a x Hx) as [[-> ->] | (Ha & m & e & -> & Hm & He)].
  - exists 0. split_and!.
    + unfold nearest_whole. cbn. split; [lia | discriminate].
    + reflexivity.
    + intros _. reflexivity.
    + intros _. cbn. lia.
  - destruct (round_float_whole (a <? 0) m e Hm) as (z & Hz1 & Hz2 & _ & Hz4).
    exists z. split_and!; [exact Hz1 | exact Hz2 | exact Hz4 | apply Hnear; assumption].
Qed.

(** C9 as stated fails above [2^53 + 2^19] bytes, where the division of
    line 123 no longer keeps every byte: an oplog of
    [2^53 + 2^19 + 1] bytes is nearer to 8589934593 MB than to
    8589934592 MB, and the message shows the latter. *)
Lemma C9_counterexample :
  run member (task 8000 false false) (member_of_bytes (2 ^ 53 + 2 ^ 19 + 1) "PRIMARY")
  = (Exited (result_of true false
               "oplog has been resized from 8589934592.0 mb to 8000 mb"),
     a_member 8000 "PRIMARY",
     session_events ++
     [EvCollStats (Ret (2 ^ 53 + 2 ^ 19 + 1)); EvMemberState (Ret "PRIMARY"%string);
      EvResize 8000 (Ret tt)]) /\
  1048576 < 2 * Z.abs (2 ^ 53 + 2 ^ 19 + 1 - 8589934592 * 1048576) /\
  2 * Z.abs (2 ^ 53 + 2 ^ 19 + 1 - 8589934593 * 1048576) < 1048576.
Proof. split_and!; vm_compute; reflexivity. Qed.

(** C9 (as amended). A run that exits with [changed=true] either
    simulated the resize (check mode, no write) or made the resize call,
    which returned.  Its message is "oplog has been resized from <old> mb
    to <new> mb".  <new> is the desired size, printed as the [int] it is.
    <old> is the text of [round(current, 0)], where [current] is the
    float that line 123 computed from the byte count: [old] is the whole
    number nearest to [current], the even one on a tie, and when it has
    at most 16 digits the text is a sign, its digits and [.0].  For a byte
    count of magnitude at most [2^53 + 2^19], and for any byte count of at
    most 53 significant bits, [old] is a whole number of megabytes nearest
    to the byte count. *)
Theorem C9_resize_message {W} (C : Collaborator W)
    args module w result w' t maxSize :
  run C args w = (Exited result, w', t) ->
  argument_spec args = inl module ->
  In (EvCollStats (Ret maxSize)) t ->
  result !! "changed" = Some (PyBool true) ->
  exists current old,
    mb_of_bytes maxSize = Ret current /\
    nearest_whole current old /\
    float_compare_int (round_float current) old = Some Eq /\
    result !! "msg" =
      Some (PyStr ("oplog has been resized from " +:+ str_float (round_float current)
                   +:+ " mb to " +:+ str_int (oplog_size_mb module) +:+ " mb")) /\
    (Z.abs old < 10 ^ 16 ->
     result !! "msg" =
       Some (PyStr ("oplog has been resized from "
                    +:+ ((if maxSize <? 0 then "-" else "") +:+ str_int (Z.abs old) +:+ ".0")
                    +:+ " mb to " +:+ str_int (oplog_size_mb module) +:+ " mb"))) /\
    Z.of_int <$> NilZero.int_of_string (str_int (Z.abs old)) = Some (Z.abs old) /\
    Z.of_int <$> NilZero.int_of_string (str_int (oplog_size_mb module))
    = Some (oplog_size_mb module) /\
    (Z.abs maxSize <= 2 ^ 53 + 2 ^ 19 \/ exact_float maxSize = true ->
     2 * Z.abs (maxSize - old * 1048576) <= 1048576) /\
    ((check_mode module = true /\ Forall (fun ev => is_write ev = false) t) \/
     (check_mode module = false /\ In (EvResize (oplog_size_mb module) (Ret tt)) t)).
Proof.
  intros Hrun Hargs Hin Hchanged.
  assert (Hgoal : forall current,
             mb_of_bytes maxSize = Ret current ->
             result !! "msg" = Some (PyStr (resized_msg current (oplog_size_mb module))) ->
             ((check_mode module = true /\ Forall (fun ev => is_write ev = false) t) \/
              (check_mode module = false /\
               In (EvResize (oplog_size_mb module) (Ret tt)) t)) ->
             exists current old,
               mb_of_bytes maxSize = Ret current /\
               nearest_whole current old /\
               float_compare_int (round_float current) old = Some Eq /\
               result !! "msg" =
                 Some (PyStr ("oplog has been resized from "
                              +:+ str_float (round_float current)
                              +:+ " mb to " +:+ str_int (oplog_size_mb module) +:+ " mb")) /\
               (Z.abs old < 10 ^ 16 ->
                result !! "msg" =
                  Some (PyStr ("oplog has been resized from "
                               +:+ ((if maxSize <? 0 then "-" else "")
                                    +:+ str_int (Z.abs old) +:+ ".0")
                               +:+ " mb to " +:+ str_int (oplog_size_mb module) +:+ " mb"))) /\
               Z.of_int <$> NilZero.int_of_string (str_int (Z.abs old)) = Some (Z.abs old) /\
               Z.of_int <$> NilZero.int_of_string (str_int (oplog_size_mb module))
               = Some (oplog_size_mb module) /\
               (Z.abs maxSize <= 2 ^ 53 + 2 ^ 19 \/ exact_float maxSize = true ->
                2 * Z.abs (maxSize - old * 1048576) <= 1048576) /\
               ((check_mode module = true /\ Forall (fun ev => is_write ev = false) t) \/
                (check_mode module = false /\
                 In (EvResize (oplog_size_mb module) (Ret tt)) t))).
  { intros current Hmb Hmsg Hmode.
    destruct (mb_of_bytes_rounded maxSize current Hmb) as (old & H1 & H2 & H3 & H4).
    exists current, old.
    split_and!; [exact Hmb | exact H1 | exact H2 | exact Hmsg | | | | exact H4 | exact Hmode].
    - intros H16. rewrite Hmsg. unfold resized_msg. rewrite (H3 H16). reflexivity.
    - apply str_int_reads_back.
    - apply str_int_reads_back. }
  remember (Exited result) as o eqn:Ho.
  run_cases Hrun Hargs; try discriminate; try not_in_trace Hin.
  all: in_trace Hin.
  all: try (rewrite result_of_changed in Hchanged; discriminate).
  all: eapply Hgoal; [eassumption | apply result_of_msg |].
  - left. split; [assumption |].
    apply Forall_app. split; [apply session_no_write; assumption | repeat constructor].
  - right. split; [assumption |]. apply in_or_app. right. cbn [In]. tauto.
  - right. split; [assumption |]. apply in_or_app. right. cbn [In]. tauto.
Qed.

Lemma C9_witness :
  exists current old,
    mb_of_bytes 16777216000 = Ret current /\
    nearest_whole current old /\
    float_compare_int (round_float current) old = Some Eq /\
    result_of true true "oplog has been resized from 16000.0 mb to 8000 mb" !! "msg" =
      Some (PyStr ("oplog has been resized from " +:+ str_float (round_float current)
                   +:+ " mb to " +:+ str_int (oplog_size_mb (task_module 8000 true false))
                   +:+ " mb")) /\
    (Z.abs old < 10 ^ 16 ->
     result_of true true "oplog has been resized from 16000.0 mb to 8000 mb" !! "msg" =
       Some (PyStr ("oplog has been resized from "
                    +:+ ((if 16777216000 <? 0 then "-" else "")
                         +:+ str_int (Z.abs old) +:+ ".0")
                    +:+ " mb to " +:+ str_int (oplog_size_mb (task_module 8000 true false))
                    +:+ " mb"))) /\
    Z.of_int <$> NilZero.int_of_string (str_int (Z.abs old)) = Some (Z.abs old) /\
    Z.of_int <$> NilZero.int_of_string (str_int (oplog_size_mb (task_module 8000 true false)))
    = Some (oplog_size_mb (task_module 8000 true false)) /\
    (Z.abs 16777216000 <= 2 ^ 53 + 2 ^ 19 \/ exact_float 16777216000 = true ->
     2 * Z.abs (16777216000 - old * 1048576) <= 1048576) /\
    ((check_mode (task_module 8000 true false) = true /\
      Forall (fun ev => is_write ev = false)
        (session_events ++
           [EvCollStats (Ret 16777216000); EvMemberState (Ret "SECONDARY"%string);
            EvResize 8000 (Ret tt); EvCompact (Ret tt)])) \/
     (check_mode (task_module 8000 true false) = false /\
      In (EvResize (oplog_size_mb (task_module 8000 true false)) (Ret tt))
        (session_events ++
           [EvCollStats (Ret 16777216000); EvMemberState (Ret "SECONDARY"%string);
            EvResize 8000 (Ret tt); EvCompact (Ret tt)]))).
Proof.
  apply (C9_resize_message member (task 8000 true false) (task_module 8000 true false)
           (a_member 16000 "SECONDARY")
           (result_of true true "oplog has been resized from 16000.0 mb to 8000 mb")
           (a_member 8000 "SECONDARY")
           (session_events ++
              [EvCollStats (Ret 16777216000); EvMemberState (Ret "SECONDARY"%string);
               EvResize 8000 (Ret tt); EvCompact (Ret tt)])
           16777216000).
  - vm_compute. reflexivity.
  - vm_compute. reflexivity.
  - vm_compute. tauto.
  - vm_compute. reflexivity.
Defined.

(** The whole number shown for 16000 MB is 16000. *)
Example old_of_16000_mb (current : spec_float) (old : Z) :
  mb_of_bytes 16777216000 = Ret current ->
  float_compare_int (round_float current) old = Some Eq ->
  old = 16000.
Proof.
  intros Hc Ho. vm_compute in Hc. injection Hc as <-.
  apply (float_compare_int_inj _ _ _ Ho). vm_compute. reflexivity.
Qed.

(** From [10^16] on Python prints a float with an exponent. *)
Example repr_of_1e16 :
  str_float (binary_normalize prec emax (10 ^ 16) 0 false) = "1e+16"%string /\
  str_float (binary_normalize prec emax (10 ^ 16 - 2) 0 false)
  = "9999999999999998.0"%string.
Proof. split; vm_compute; reflexivity. Qed.

(** The message of the second example of the specification. *)
Example resized_msg_16000_8000 :
  resized_msg (S754_finite false 8796093022208000 (-39)) 8000
  = "oplog has been resized from 16000.0 mb to 8000 mb"%string.
Proof. vm_compute. reflexivity. Qed.

(** C10 as stated fails for a desired size that is not read back exactly:
    against the member that applies writes, two runs asking for
    [2^53 + 1] MB both report [changed=true], although the first leaves
    exactly that size stored.  It also fails, by design, in check mode,
    where no run writes: two check-mode runs asking for 8000 MB on a
    16000 MB oplog both report [changed=true]. *)
Lemma C10_counterexample :
  (exists result1 w1 t1 result2 w2 t2,
     run member (task (2 ^ 53 + 1) false false) (a_member 8000 "PRIMARY")
     = (Exited result1, w1, t1) /\
     run member (task (2 ^ 53 + 1) false false) w1 = (Exited result2, w2, t2) /\
     m_maxSize w1 = (2 ^ 53 + 1) * 1048576 /\
     result1 !! "changed" = Some (PyBool true) /\
     result2 !! "changed" = Some (PyBool true)) /\
  (exists result1 w1 t1 result2 w2 t2,
     run member (task 8000 false true) (a_member 16000 "PRIMARY")
     = (Exited result1, w1, t1) /\
     run member (task 8000 false true) w1 = (Exited result2, w2, t2) /\
     result1 !! "changed" = Some (PyBool true) /\
     result2 !! "changed" = Some (PyBool true)).
Proof.
  split.
  - do 6 eexists. split_and!.
    + vm_compute. reflexivity.
    + vm_compute. reflexivity.
    + reflexivity.
    + vm_compute. reflexivity.
    + vm_compute. reflexivity.
  - do 6 eexists. split_and!.
    + vm_compute. reflexivity.
    + vm_compute. reflexivity.
    + vm_compute. reflexivity.
    + vm_compute. reflexivity.
Qed.

(** C10 (as amended). Against a collaborator that applies writes, take
    two runs in sequence with the same arguments, outside check mode, that
    both read the current size and exit with a result.  If the first run
    finds a size different from the desired one, it reports
    [changed=true], and the second reports [changed=false] exactly when
    the desired size has at most 53 significant bits, as every size up to
    [2^53] MB has: these are the sizes that a float holds exactly.  For
    any other size the second run reports [changed=true] again. *)
Theorem C10_idempotent {W} (C : Collaborator W) (stored : W -> Z)
    args module w0 result1 w1 t1 result2 w2 t2 maxSize current :
  applies_writes C stored ->
  argument_spec args = inl module ->
  check_mode module = false ->
  run C args w0 = (Exited result1, w1, t1) ->
  In (EvCollStats (Ret maxSize)) t1 ->
  mb_of_bytes maxSize = Ret current ->
  int_eq_float (oplog_size_mb module) current = false ->
  run C args w1 = (Exited result2, w2, t2) ->
  (exists r, In (EvCollStats r) t2) ->
  result1 !! "changed" = Some (PyBool true) /\
  (exact_float (oplog_size_mb module) = true ->
   result2 !! "changed" = Some (PyBool false)) /\
  (Z.abs (oplog_size_mb module) <= 2 ^ 53 ->
   result2 !! "changed" = Some (PyBool false)) /\
  (exact_float (oplog_size_mb module) = false ->
   result2 !! "changed" = Some (PyBool true)).
Proof.
  intros Haw Hargs Hchk Hrun1 Hin1 Hmb Hne Hrun2 Hin2.
  destruct (first_run_stores C stored args module w0 result1 w1 t1 maxSize current)
    as [Hchanged Hstored]; try assumption.
  pose proof (second_run_no_op C stored args module w1 result2 w2 t2
                Haw Hargs Hchk Hstored Hrun2 Hin2) as Hsecond.
  split_and!; [exact Hchanged | | |].
  - intros Hex. rewrite Hex in Hsecond. exact Hsecond.
  - intros Hsmall. rewrite (exact_float_small _ Hsmall) in Hsecond. exact Hsecond.
  - intros Hex. rewrite Hex in Hsecond. exact Hsecond.
Qed.

Lemma C10_witness :
  result_of true false "oplog has been resized from 16000.0 mb to 8000 mb" !! "changed"
  = Some (PyBool true) /\
  result_of false false "oplog_size_mb is already 8000 mb" !! "changed"
  = Some (PyBool false).
Proof.
  pose proof (C10_idempotent member m_maxSize (task 8000 false false)
                (task_module 8000 false false)
                (a_member 16000 "PRIMARY")
                (result_of true false "oplog has been resized from 16000.0 mb to 8000 mb")
                (a_member 8000 "PRIMARY")
                (session_events ++
                 [EvCollStats (Ret 16777216000); EvMemberState (Ret "PRIMARY"%string);
                  EvResize 8000 (Ret tt)])
                (result_of false false "oplog_size_mb is already 8000 mb")
                (a_member 8000 "PRIMARY")
                (session_events ++ [EvCollStats (Ret 8388608000)])
                16777216000 (S754_finite false 8796093022208000 (-39))
                member_applies_writes
                ltac:(vm_compute; reflexivity) ltac:(vm_compute; reflexivity)
                ltac:(vm_compute; reflexivity) ltac:(vm_compute; tauto)
                ltac:(vm_compute; reflexivity) ltac:(vm_compute; reflexivity)
                ltac:(vm_compute; reflexivity)
                ltac:(eexists; vm_compute; tauto))
    as (Hfirst & Hexact & _ & _).
  split; [exact Hfirst | apply Hexact; vm_compute; reflexivity].
Defined.

(** Sizes of more than 16 digits that a float holds exactly are read back
    as they are: two runs asking for [2^60] MB report [changed=true], then
    [changed=false]. *)
Example idempotent_2_60 :
  exists result1 w1 t1 result2 w2 t2,
    run member (task (2 ^ 60) false false) (a_member 8000 "PRIMARY")
    = (Exited result1, w1, t1) /\
    run member (task (2 ^ 60) false false) w1 = (Exited result2, w2, t2) /\
    result1 !! "changed" = Some (PyBool true) /\
    result2 !! "changed" = Some (PyBool false).
Proof.
  do 6 eexists. split_and!.
  - vm_compute. reflexivity.
  - vm_compute. reflexivity.
  - vm_compute. reflexivity.
  - vm_compute. reflexivity.
Qed.

(** ** The examples of the specification *)

Example example_1 :
  run member (task 8000 false false) (a_member 8000 "PRIMARY")
  = (Exited (result_of false false "oplog_size_mb is already 8000 mb"),
     a_member 8000 "PRIMARY",
     session_events ++ [EvCollStats (Ret 8388608000)]).
Proof. vm_compute. reflexivity. Qed.

Example example_3 :
  run member (task 16000 true false) (a_member 8000 "SECONDARY")
  = (Exited (result_of true false "oplog has been resized from 8000.0 mb to 16000 mb"),
     a_member 16000 "SECONDARY",
     session_events ++
     [EvCollStats (Ret 8388608000); EvMemberState (Ret "SECONDARY"%string);
      EvResize 16000 (Ret tt)]).
Proof. vm_compute. reflexivity. Qed.

Example example_4 :
  run member (task 16000 false true) (a_member 8000 "PRIMARY")
  = (Exited (result_of true false "oplog has been resized from 8000.0 mb to 16000 mb"),
     a_member 8000 "PRIMARY",
     session_events ++
     [EvCollStats (Ret 8388608000); EvMemberState (Ret "PRIMARY"%string)]).
Proof. vm_compute. reflexivity. Qed.

(* ===================================================================== *)
(** * Further properties of [main] *)
(* ===================================================================== *)

(** X1. Lines 150-152: a run with accepted arguments makes no call at all
    exactly when pymongo is missing, and it then fails with the message of
    [missing_required_lib]. *)
Theorem X1_missing_pymongo {W} (C : Collaborator W) args module w o w' t :
  run C args w = (o, w', t) ->
  argument_spec args = inl module ->
  (t = [] <-> pymongo_found C = false) /\
  (pymongo_found C = false -> o = Failed (missing_required_lib C "pymongo") /\ w' = w).
Proof.
  intros Hrun Hargs.
  assert (Hmissing : pymongo_found C = false ->
            o = Failed (missing_required_lib C "pymongo") /\ w' = w /\ t = []).
  { intros Hpy. revert Hrun. unfold run, main, AnsibleModule. rewrite Hargs.
    unfold fail_json, mbind, M_bind, bind, mret, M_ret, ret. cbv beta. rewrite Hpy.
    intros [= <- <- <-]. split_and!; reflexivity. }
  split; [| intros Hpy; destruct (Hmissing Hpy) as (? & ? & ?); split; assumption].
  split; [| intros Hpy; apply Hmissing; assumption].
  main_cases Hrun Hargs; first [ discriminate | intros _; assumption ].
Qed.

Lemma X1_witness :
  (@nil event = [] <-> pymongo_found (faulty pymongo_missing) = false) /\
  (pymongo_found (faulty pymongo_missing) = false ->
   Failed "Failed to import the required Python library (pymongo)"
   = Failed (missing_required_lib (faulty pymongo_missing) "pymongo") /\
   a_member 16000 "SECONDARY" = a_member 16000 "SECONDARY").
Proof.
  apply (X1_missing_pymongo (faulty pymongo_missing) (task 8000 true false)
           (task_module 8000 true false)).
  - vm_compute. reflexivity.
  - vm_compute. reflexivity.
Defined.


Ltac ends_here :=
  first [ exists []; reflexivity
        | eexists [_]; reflexivity
        | eexists [_; _]; reflexivity
        | eexists [_; _; _]; reflexivity
        | eexists [_; _; _; _]; reflexivity
        | eexists [_; _; _; _; _]; reflexivity
        | eexists [_; _; _; _; _; _]; reflexivity
        | eexists [_; _; _; _; _; _; _]; reflexivity ].

(** X2. Lines 176-179: when [MongoClient] raises, the run fails with
    "Unable to connect to MongoDB: <cause>" and that call is the only one
    made. *)
Theorem X2_connection_failure {W} (C : Collaborator W) args module w o w' t p e :
  run C args w = (o, w', t) ->
  argument_spec args = inl module ->
  In (EvMongoClient p (Raise e)) t ->
  o = Failed ("Unable to connect to MongoDB: " +:+ e) /\
  t = [EvMongoClient (connection_params_of module) (Raise e)].
Proof.
  intros Hrun Hargs Hin.
  main_cases Hrun Hargs; split_in Hin.
  split; reflexivity.
Qed.

Lemma X2_witness :
  Failed "Unable to connect to MongoDB: connection refused"
  = Failed ("Unable to connect to MongoDB: " +:+ "connection refused") /\
  [EvMongoClient local (Raise "connection refused")]
  = [EvMongoClient (connection_params_of (task_module 8000 true false))
       (Raise "connection refused")].
Proof.
  apply (X2_connection_failure (faulty (connect_fails "connection refused"))
           (task 8000 true false) (task_module 8000 true false)
           (a_member 16000 "SECONDARY") _ (a_member 16000 "SECONDARY") _ local).
  - vm_compute. reflexivity.
  - vm_compute. reflexivity.
  - vm_compute. tauto.
Defined.

(** X3. Lines 167-177: a run connects at most once, as its first call,
    with the host and port of the task; the [ssl] and [ssl_cert_reqs]
    entries are passed when [ssl] is set and left out otherwise. *)
Theorem X3_connection_parameters {W} (C : Collaborator W) args module w o w' t p r :
  run C args w = (o, w', t) ->
  argument_spec args = inl module ->
  In (EvMongoClient p r) t ->
  (exists t', t = EvMongoClient p r :: t' /\ forall p' r', ~ In (EvMongoClient p' r') t') /\
  cp_host p = login_host module /\
  cp_port p = login_port module /\
  cp_ssl p = (if ssl module then Some (true, ssl_cert_reqs module) else None).
Proof.
  intros Hrun Hargs Hin.
  assert (Hssl : cp_ssl (connection_params_of module)
                 = if ssl module then Some (true, ssl_cert_reqs module) else None).
  { unfold connection_params_of. cbn. destruct (ssl module); reflexivity. }
  main_cases Hrun Hargs; split_in Hin.
  all: split_and!; [| reflexivity | reflexivity | exact Hssl].
  all: eexists; split; [reflexivity |]; intros p' r' Hin'; split_in Hin'.
Qed.

Lemma X3_witness :
  (exists t',
      session_events ++ [EvCollStats (Ret 8388608000)]
      = EvMongoClient local (Ret tt) :: t' /\
      forall p' r', ~ In (EvMongoClient p' r') t') /\
  cp_host local = login_host (task_module 8000 false false) /\
  cp_port local = login_port (task_module 8000 false false) /\
  cp_ssl local = (if ssl (task_module 8000 false false)
                  then Some (true, ssl_cert_reqs (task_module 8000 false false))
                  else None).
Proof.
  apply (X3_connection_parameters member (task 8000 false false)
           (task_module 8000 false false) (a_member 8000 "PRIMARY")
           (Exited (result_of false false "oplog_size_mb is already 8000 mb"))
           (a_member 8000 "PRIMARY")).
  - vm_compute. reflexivity.
  - vm_compute. reflexivity.
  - vm_compute. tauto.
Defined.

(** X4. Lines 181-187: when exactly one of [login_user] and
    [login_password] is given, a run that connected fails with the message
    of line 187 and makes no other call. *)
Theorem X4_one_credential {W} (C : Collaborator W) args module w o w' t p :
  run C args w = (o, w', t) ->
  argument_spec args = inl module ->
  (login_user module = None <-> login_password module <> None) ->
  In (EvMongoClient p (Ret tt)) t ->
  o = Failed both_required_msg /\
  t = [EvMongoClient (connection_params_of module) (Ret tt)].
Proof.
  intros Hrun Hargs Hone Hin.
  main_cases Hrun Hargs; split_in Hin.
  all: try (split; reflexivity).
  all: exfalso;
    repeat match goal with
           | Hu : login_user _ = _ |- _ => rewrite Hu in Hone; clear Hu
           | Hp : login_password _ = _ |- _ => rewrite Hp in Hone; clear Hp
           end;
    destruct Hone as [H1 H2];
    first [ apply H1; [reflexivity | reflexivity]
          | (assert (@None string = None -> False) by (intros _; discriminate (H2 ltac:(discriminate)))); auto
          | discriminate (H2 ltac:(discriminate)) ].
Qed.

Lemma X4_witness :
  Failed both_required_msg = Failed both_required_msg /\
  [EvMongoClient local (Ret tt)]
  = [EvMongoClient
       (connection_params_of
          (task_module_with (Some "admin"%string) None 8000 true false))
       (Ret tt)].
Proof.
  apply (X4_one_credential member (without_password (task 8000 true false))
           (task_module_with (Some "admin"%string) None 8000 true false)
           (a_member 16000 "SECONDARY") _ (a_member 16000 "SECONDARY") _ local).
  - vm_compute. reflexivity.
  - vm_compute. reflexivity.
  - cbn. split; [discriminate | intros H; destruct H; reflexivity].
  - vm_compute. tauto.
Defined.


(** X5. Lines 181-191: the credentials passed to [authenticate] are those
    of the task when both are given, and then the credentials file is not
    read; otherwise both were omitted and they are the ones the file
    holds.  The source is always [login_database]. *)
Theorem X5_credential_source {W} (C : Collaborator W) args module w o w' t u p s r :
  run C args w = (o, w', t) ->
  argument_spec args = inl module ->
  In (EvAuthenticate u p s r) t ->
  s = login_database module /\
  ((login_user module = Some u /\ login_password module = Some p /\
    forall c, ~ In (EvLoadMongocnf c) t) \/
   (login_user module = None /\ login_password module = None /\
    In (EvLoadMongocnf (Some (u, p))) t)).
Proof.
  intros Hrun Hargs Hin.
  main_cases Hrun Hargs; split_in Hin.
  all: split; [reflexivity |].
  all: first [ left; split_and!; [assumption | assumption |];
               intros c Hc; split_in Hc
             | right; split_and!; [assumption | assumption |];
               cbn [In]; tauto ].
Qed.

Lemma X5_witness :
  "admin"%string = login_database (task_module_with None None 8000 false false) /\
  ((login_user (task_module_with None None 8000 false false) = Some "backup"%string /\
    login_password (task_module_with None None 8000 false false) = Some "hunter2"%string /\
    forall c,
      ~ In (EvLoadMongocnf c)
          [EvMongoClient local (Ret tt);
           EvLoadMongocnf (Some ("backup", "hunter2")%string);
           EvAuthenticate "backup" "hunter2" "admin" (Ret tt);
           EvServerInfo (Ret "4.4.0"%string); EvCollStats (Ret 8388608000)]) \/
   (login_user (task_module_with None None 8000 false false) = None /\
    login_password (task_module_with None None 8000 false false) = None /\
    In (EvLoadMongocnf (Some ("backup", "hunter2")%string))
      [EvMongoClient local (Ret tt);
       EvLoadMongocnf (Some ("backup", "hunter2")%string);
       EvAuthenticate "backup" "hunter2" "admin" (Ret tt);
       EvServerInfo (Ret "4.4.0"%string); EvCollStats (Ret 8388608000)])).
Proof.
  apply (X5_credential_source member (anonymous (task 8000 false false))
           (task_module_with None None 8000 false false)
           (with_mongocnf "backup" "hunter2" (a_member 8000 "PRIMARY"))
           (Exited (result_of false false "oplog_size_mb is already 8000 mb"))
           (with_mongocnf "backup" "hunter2" (a_member 8000 "PRIMARY"))
           _ "backup"%string "hunter2"%string "admin"%string (Ret tt)).
  - vm_compute. reflexivity.
  - vm_compute. reflexivity.
  - vm_compute. tauto.
Defined.

(** X6. Lines 190-203: when [authenticate] raises, the run fails with
    "Unable to authenticate with MongoDB: <cause>"; when [server_info]
    raises, it fails with "Unable to get MongoDB server version: <cause>",
    the handler of line 202 notwithstanding.  Either call is then the last
    one of the run. *)
Theorem X6_authentication_failures {W} (C : Collaborator W) args module w o w' t :
  run C args w = (o, w', t) ->
  argument_spec args = inl module ->
  (forall u p s e,
      In (EvAuthenticate u p s (Raise e)) t ->
      o = Failed ("Unable to authenticate with MongoDB: " +:+ e) /\
      exists t0, t = t0 ++ [EvAuthenticate u p s (Raise e)]) /\
  (forall e,
      In (EvServerInfo (Raise e)) t ->
      o = Failed ("Unable to get MongoDB server version: " +:+ e) /\
      exists t0, t = t0 ++ [EvServerInfo (Raise e)]).
Proof.
  intros Hrun Hargs.
  split; [intros u p s e Hin | intros e Hin].
  all: main_cases Hrun Hargs; split_in Hin.
  all: split; [reflexivity | ends_here].
Qed.

Lemma X6_witness :
  Failed "Unable to authenticate with MongoDB: Authentication failed."
  = Failed ("Unable to authenticate with MongoDB: " +:+ "Authentication failed.") /\
  exists t0,
    [EvMongoClient local (Ret tt);
     EvAuthenticate "admin" "secret" "admin" (Raise "Authentication failed.")]
    = t0 ++ [EvAuthenticate "admin" "secret" "admin" (Raise "Authentication failed.")].
Proof.
  apply (proj1 (X6_authentication_failures
                  (faulty (authenticate_fails "Authentication failed."))
                  (task 8000 true false) (task_module 8000 true false)
                  (a_member 16000 "SECONDARY")
                  (Failed "Unable to authenticate with MongoDB: Authentication failed.")
                  (a_member 16000 "SECONDARY")
                  [EvMongoClient local (Ret tt);
                   EvAuthenticate "admin" "secret" "admin" (Raise "Authentication failed.")]
                  ltac:(vm_compute; reflexivity) ltac:(vm_compute; reflexivity))).
  vm_compute. tauto.
Defined.

(** X7. Lines 193-203: once the server version is known, the run goes on
    to read the oplog size exactly when [check_compatibility] accepts the
    pair of versions; when it calls [fail_json] the run fails with its
    message, when it raises the run fails with "Unable to authenticate
    with MongoDB: <cause>", and in both cases no further call is made. *)
Theorem X7_version_check {W} (C : Collaborator W) args module w o w' t version :
  run C args w = (o, w', t) ->
  argument_spec args = inl module ->
  In (EvServerInfo (Ret version)) t ->
  match check_compatibility C version (PyMongoVersion C) with
  | CompatOk => exists t0 r t1, t = t0 ++ EvServerInfo (Ret version) :: EvCollStats r :: t1
  | CompatFailJson msg =>
      o = Failed msg /\ exists t0, t = t0 ++ [EvServerInfo (Ret version)]
  | CompatRaise e =>
      o = Failed ("Unable to authenticate with MongoDB: " +:+ e) /\
      exists t0, t = t0 ++ [EvServerInfo (Ret version)]
  end.
Proof.
  intros Hrun Hargs Hin.
  main_cases Hrun Hargs; split_in Hin.
  all: match goal with
       | Hc : check_compatibility _ _ _ = _ |- _ => rewrite Hc
       end.
  all: first [ split; [reflexivity | ends_here]
             | eexists [_], _, _; reflexivity
             | eexists [_; _], _, _; reflexivity
             | eexists [_; _; _], _, _; reflexivity ].
Qed.

Lemma X7_witness :
  match check_compatibility (faulty (incompatible (CompatFailJson "unsupported")))
          "4.4.0" (PyMongoVersion (faulty (incompatible (CompatFailJson "unsupported")))) with
  | CompatOk =>
      exists t0 r t1,
        session_events = t0 ++ EvServerInfo (Ret "4.4.0"%string) :: EvCollStats r :: t1
  | CompatFailJson msg =>
      Failed "unsupported" = Failed msg /\
      exists t0, session_events = t0 ++ [EvServerInfo (Ret "4.4.0"%string)]
  | CompatRaise e =>
      Failed "unsupported" = Failed ("Unable to authenticate with MongoDB: " +:+ e) /\
      exists t0, session_events = t0 ++ [EvServerInfo (Ret "4.4.0"%string)]
  end.
Proof.
  apply (X7_version_check (faulty (incompatible (CompatFailJson "unsupported")))
           (task 8000 true false) (task_module 8000 true false)
           (a_member 16000 "SECONDARY") (Failed "unsupported")
           (a_member 16000 "SECONDARY") session_events "4.4.0"%string).
  - vm_compute. reflexivity.
  - vm_compute. reflexivity.
  - vm_compute. tauto.
Defined.

(** X8. Lines 122-123 and 205-208: when the [collStats] command raises,
    or the division of line 123 does (a byte count too large for a
    float), the run fails with "Unable to get current oplog size:
    <cause>" and makes no further call. *)
Theorem X8_size_read_failure {W} (C : Collaborator W) args module w o w' t r e :
  run C args w = (o, w', t) ->
  argument_spec args = inl module ->
  In (EvCollStats r) t ->
  r = Raise e \/ (exists maxSize, r = Ret maxSize /\ mb_of_bytes maxSize = Raise e) ->
  o = Failed ("Unable to get current oplog size: " +:+ e) /\
  exists t0, t = t0 ++ [EvCollStats r].
Proof.
  intros Hrun Hargs Hin Hr.
  main_cases Hrun Hargs; split_in Hin.
  all: destruct Hr as [Hr | (maxSize' & Hr & Hmb)]; simplify_eq.
  all: try congruence.
  all: split; [congruence | ends_here].
Qed.

Lemma X8_witness :
  Failed "Unable to get current oplog size: integer division result too large for a float"
  = Failed ("Unable to get current oplog size: "
            +:+ "integer division result too large for a float") /\
  exists t0,
    session_events ++ [EvCollStats (Ret (2 ^ 1034))]
    = t0 ++ [EvCollStats (Ret (2 ^ 1034))].
Proof.
  apply (X8_size_read_failure member (task 8000 true false) (task_module 8000 true false)
           (member_of_bytes (2 ^ 1034) "SECONDARY")
           (Failed "Unable to get current oplog size: integer division result too large for a float")
           (member_of_bytes (2 ^ 1034) "SECONDARY")).
  - vm_compute. reflexivity.
  - vm_compute. reflexivity.
  - apply in_or_app. right. left. reflexivity.
  - right. exists (2 ^ 1034). split; [reflexivity | vm_compute; reflexivity].
Defined.

(** X9. Lines 209-216: the member state is asked for exactly when a size
    was read that differs from the desired one; when that call raises the
    run fails with "Unable to get member state: <cause>" and makes no
    further call. *)
Theorem X9_member_state {W} (C : Collaborator W) args module w o w' t :
  run C args w = (o, w', t) ->
  argument_spec args = inl module ->
  ((exists r, In (EvMemberState r) t) <->
   (exists maxSize x, In (EvCollStats (Ret maxSize)) t /\
                      mb_of_bytes maxSize = Ret x /\
                      int_eq_float (oplog_size_mb module) x = false)) /\
  (forall e, In (EvMemberState (Raise e)) t ->
             o = Failed ("Unable to get member state: " +:+ e) /\
             exists t0, t = t0 ++ [EvMemberState (Raise e)]).
Proof.
  intros Hrun Hargs.
  split; [split; [intros (r & Hin) | intros (maxSize' & x' & Hin & Hmb & Hne)]
         | intros e Hin].
  all: main_cases Hrun Hargs; split_in Hin.
  all: try solve [ eexists _, _; split_and!; [cbn [In]; tauto | eassumption | assumption] ].
  all: try solve [ eexists; cbn [In]; tauto ].
  all: try solve [ split; [reflexivity | ends_here] ].
  all: congruence.
Qed.

Lemma X9_witness :
  Failed "Unable to get member state: not running with --replSet"
  = Failed ("Unable to get member state: " +:+ "not running with --replSet") /\
  exists t0,
    session_events ++
      [EvCollStats (Ret 16777216000); EvMemberState (Raise "not running with --replSet")]
    = t0 ++ [EvMemberState (Raise "not running with --replSet")].
Proof.
  apply (proj2 (X9_member_state
                  (faulty (member_state_fails "not running with --replSet"))
                  (task 8000 true false) (task_module 8000 true false)
                  (a_member 16000 "SECONDARY")
                  (Failed "Unable to get member state: not running with --replSet")
                  (a_member 16000 "SECONDARY")
                  (session_events ++
                     [EvCollStats (Ret 16777216000);
                      EvMemberState (Raise "not running with --replSet")])
                  ltac:(vm_compute; reflexivity) ltac:(vm_compute; reflexivity))).
  vm_compute. tauto.
Defined.

(** X10. Lines 126-127 and 217-227: a resize is sent exactly when the
    member state was read and the run is not in check mode, and the size
    sent is [oplog_size_mb] as the task gave it. *)
Theorem X10_resize_call {W} (C : Collaborator W) args module w o w' t :
  run C args w = (o, w', t) ->
  argument_spec args = inl module ->
  ((exists size r, In (EvResize size r) t) <->
   (check_mode module = false /\ exists state, In (EvMemberState (Ret state)) t)) /\
  (forall size r, In (EvResize size r) t -> size = oplog_size_mb module).
Proof.
  intros Hrun Hargs.
  split; [split; [intros (size & r & Hin) | intros (Hcheck & state' & Hin)]
         | intros size r Hin].
  all: main_cases Hrun Hargs; split_in Hin.
  all: try solve [ split; [assumption | eexists; cbn [In]; tauto] ].
  all: try solve [ eexists _, _; cbn [In]; tauto ].
  all: try reflexivity.
  all: congruence.
Qed.

Lemma X10_witness :
  8000 = oplog_size_mb (task_module 8000 true false).
Proof.
  apply (proj2 (X10_resize_call member (task 8000 true false) (task_module 8000 true false)
                  (a_member 16000 "SECONDARY")
                  (Exited (result_of true true
                             "oplog has been resized from 16000.0 mb to 8000 mb"))
                  (a_member 8000 "SECONDARY")
                  (session_events ++
                     [EvCollStats (Ret 16777216000); EvMemberState (Ret "SECONDARY"%string);
                      EvResize 8000 (Ret tt); EvCompact (Ret tt)])
                  ltac:(vm_compute; reflexivity) ltac:(vm_compute; reflexivity))
           8000 (Ret tt)).
  vm_compute. tauto.
Defined.

(** X11. Lines 176-240: the calls of a run follow the order of the code,
    and none is made twice: connect, credentials file, authenticate,
    server version, [collStats], member state, resize, compact.  Nothing
    is retried and nothing is read again after a write. *)
Theorem X11_call_order {W} (C : Collaborator W) args w o w' t :
  run C args w = (o, w', t) ->
  StronglySorted lt (map call_rank t).
Proof.
  intros Hrun.
  destruct (argument_spec args) as [module | msg] eqn:Hargs.
  2:{ apply run_has_main_shape in Hrun. inversion Hrun; subst; [constructor | congruence ..]. }
  main_cases Hrun Hargs.
  all: cbn [map call_rank].
  all: repeat (constructor; [| repeat (constructor; [lia |]); constructor]); constructor.
Qed.

Lemma X11_witness :
  StronglySorted lt
    (map call_rank
       (session_events ++
          [EvCollStats (Ret 16777216000); EvMemberState (Ret "SECONDARY"%string);
           EvResize 8000 (Ret tt); EvCompact (Ret tt)])).
Proof.
  apply (X11_call_order member (task 8000 true false) (a_member 16000 "SECONDARY")
           (Exited (result_of true true
                      "oplog has been resized from 16000.0 mb to 8000 mb"))
           (a_member 8000 "SECONDARY")).
  vm_compute. reflexivity.
Defined.


Lemma result_of_keys c k m key :
  is_Some (result_of c k m !! key) ->
  key = "changed"%string \/ key = "compacted"%string \/ key = "msg"%string.
Proof.
  unfold result_of. intros [v Hv].
  destruct (decide (key = "compacted"%string)) as [-> | H1]; [tauto |].
  destruct (decide (key = "msg"%string)) as [-> | H2]; [tauto |].
  destruct (decide (key = "changed"%string)) as [-> | H3]; [tauto |].
  exfalso. by simplify_map_eq.
Qed.

(** X12. Lines 163-165 and 205-242: the result of a run that exits holds
    [changed] always, and [msg] and [compacted] exactly when the oplog
    size was read, and no other key; when [changed] is false no resize or
    compact was sent, and [compacted] is true only with [changed]. *)
Theorem X12_result_keys {W} (C : Collaborator W) args w result w' t :
  run C args w = (Exited result, w', t) ->
  (exists changed, result !! "changed" = Some (PyBool changed)) /\
  ((exists r, In (EvCollStats r) t) <-> is_Some (result !! "msg")) /\
  (is_Some (result !! "msg") <-> is_Some (result !! "compacted")) /\
  (forall key, is_Some (result !! key) ->
               key = "changed"%string \/ key = "compacted"%string \/ key = "msg"%string) /\
  (result !! "changed" = Some (PyBool false) ->
   forall ev, In ev t -> is_write ev = false) /\
  (result !! "compacted" = Some (PyBool true) ->
   result !! "changed" = Some (PyBool true)).
Proof.
  intros Hrun.
  destruct (argument_spec args) as [module | msg] eqn:Hargs.
  2:{ apply run_has_main_shape in Hrun. inversion Hrun; subst; congruence. }
  remember (Exited result) as o eqn:Ho. revert Ho.
  main_cases Hrun Hargs; intros Ho; try discriminate Ho.
  all: injection Ho as <-.
  all: rewrite ?result_of_changed, ?result_of_compacted, ?result_of_msg.
  all: split_and!.
  all: try solve [ eexists; first [ reflexivity | apply result_of_changed ] ].
  all: try solve [ split; intros _; first [ eexists; reflexivity | eexists; cbn [In]; tauto ] ].
  all: try solve [ apply result_of_keys ].
  all: try solve [ intros [=] ].
  all: try solve [ intros _; reflexivity ].
  all: try solve [ intros _ ev Hin; split_in Hin; reflexivity ].
  all: try solve [ split; [ intros (r & Hin); split_in Hin | intros [v Hv]; by simplify_map_eq ] ].
  all: try solve [ split; intros [v Hv]; by simplify_map_eq ].
  all: try solve [ intros Hv; by simplify_map_eq ].
  all: try solve [ intros key [v Hv];
                   destruct (decide (key = "changed"%string)) as [-> | Hk]; [tauto |];
                   by simplify_map_eq ].
Qed.

Lemma X12_witness :
  (exists changed,
      result_of true true "oplog has been resized from 16000.0 mb to 8000 mb" !! "changed"
      = Some (PyBool changed)) /\
  ((exists r,
       In (EvCollStats r)
          (session_events ++
             [EvCollStats (Ret 16777216000); EvMemberState (Ret "SECONDARY"%string);
              EvResize 8000 (Ret tt); EvCompact (Ret tt)])) <->
   is_Some (result_of true true "oplog has been resized from 16000.0 mb to 8000 mb" !! "msg")) /\
  (is_Some (result_of true true "oplog has been resized from 16000.0 mb to 8000 mb" !! "msg") <->
   is_Some (result_of true true "oplog has been resized from 16000.0 mb to 8000 mb"
              !! "compacted")) /\
  (forall key,
      is_Some (result_of true true "oplog has been resized from 16000.0 mb to 8000 mb" !! key) ->
      key = "changed"%string \/ key = "compacted"%string \/ key = "msg"%string) /\
  (result_of true true "oplog has been resized from 16000.0 mb to 8000 mb" !! "changed"
   = Some (PyBool false) ->
   forall ev,
     In ev (session_events ++
              [EvCollStats (Ret 16777216000); EvMemberState (Ret "SECONDARY"%string);
               EvResize 8000 (Ret tt); EvCompact (Ret tt)]) ->
     is_write ev = false) /\
  (result_of true true "oplog has been resized from 16000.0 mb to 8000 mb" !! "compacted"
   = Some (PyBool true) ->
   result_of true true "oplog has been resized from 16000.0 mb to 8000 mb" !! "changed"
   = Some (PyBool true)).
Proof.
  apply (X12_result_keys member (task 8000 true false) (a_member 16000 "SECONDARY")
           (result_of true true "oplog has been resized from 16000.0 mb to 8000 mb")
           (a_member 8000 "SECONDARY")).
  vm_compute. reflexivity.
Defined.

(** ** What happens to the configured size *)

Lemma calls_stored {W} (C : Collaborator W) stored w t w' :
  only_resize_writes C stored ->
  calls C w t w' ->
  stored w' = match last_resize t with
              | Some size => size * 1048576
              | None => stored w
              end.
Proof.
  intros Horw Hc. induction Hc; [reflexivity | ..].
  all: cbn [last_resize]; destruct (last_resize t) as [size' |]; [assumption |].
  all: rewrite IHHc.
  - eapply orw_MongoClient; eassumption.
  - reflexivity.
  - eapply orw_authenticate; eassumption.
  - eapply orw_server_info; eassumption.
  - eapply orw_collStats; eassumption.
  - eapply orw_member_state; eassumption.
  - destruct r as [[] | e].
    + eapply orw_resize; eassumption.
    + eapply orw_resize_failed; eassumption.
  - eapply orw_compact; eassumption.
Qed.

Lemma member_only_resize_writes f : only_resize_writes (faulty f) m_maxSize.
Proof.
  split; cbn.
  all: try (intros; simplify_eq; reflexivity).
  - intros size w w1. destruct (m_resize_error w); intros [= <-]. reflexivity.
  - intros size e w w1. destruct (m_resize_error w); intros [= <- <-]. reflexivity.
  - intros w r w1. destruct (m_compact_error w); intros [= <- <-]; reflexivity.
Qed.

(** X13. Lines 126-127 and 217-240, for a member whose configured size
    changes only when a resize returns: a run leaves the configured size
    as it found it unless its resize call returned, and then the size is
    [oplog_size_mb] megabytes, also when the compact that follows fails.
    A run in check mode and a run that reports [changed] false leave the
    size as it was. *)
Theorem X13_configured_size {W} (C : Collaborator W) (stored : W -> Z) args module w o w' t :
  only_resize_writes C stored ->
  run C args w = (o, w', t) ->
  argument_spec args = inl module ->
  ((exists size, In (EvResize size (Ret tt)) t) ->
   stored w' = oplog_size_mb module * 1048576) /\
  ((forall size, ~ In (EvResize size (Ret tt)) t) -> stored w' = stored w) /\
  (check_mode module = true -> stored w' = stored w) /\
  (forall result, o = Exited result -> result !! "changed" = Some (PyBool false) ->
                  stored w' = stored w).
Proof.
  intros Horw Hrun Hargs.
  pose proof (proj2 (run_has_shape C _ _ _ _ _ Hrun)) as Hcalls.
  apply (calls_stored C stored _ _ _ Horw) in Hcalls.
  split_and!; [intros (size & Hin) | intros Hno | intros Hcheck | intros result].
  all: main_cases Hrun Hargs.
  all: cbn [last_resize] in Hcalls.
  all: try (intros Ho Hch).
  all: try exact Hcalls.
  all: try solve [ split_in Hin ].
  all: try solve [ exfalso; eapply Hno; cbn [In]; eauto 10 ].
  all: try congruence.
  all: try discriminate Ho.
  all: injection Ho as <-; rewrite result_of_changed in Hch; discriminate Hch.
Qed.

Lemma X13_witness :
  m_maxSize (refusing None (Some "compact failed"%string) (a_member 8000 "SECONDARY"))
  = oplog_size_mb (task_module 8000 true false) * 1048576.
Proof.
  apply (proj1 (X13_configured_size (faulty no_faults) m_maxSize
                  (task 8000 true false) (task_module 8000 true false)
                  (refusing None (Some "compact failed"%string) (a_member 16000 "SECONDARY"))
                  (Failed "Error compacting member oplog: compact failed")
                  (refusing None (Some "compact failed"%string) (a_member 8000 "SECONDARY"))
                  (session_events ++
                     [EvCollStats (Ret 16777216000); EvMemberState (Ret "SECONDARY"%string);
                      EvResize 8000 (Ret tt); EvCompact (Raise "compact failed")])
                  (member_only_resize_writes no_faults)
                  ltac:(vm_compute; reflexivity) ltac:(vm_compute; reflexivity))).
  exists 8000. vm_compute. tauto.
Defined.

(** X14. Lines 176-240: no exception of a call is swallowed.  A call that
    raises is the last call of the run, and the run fails with a message
    that ends with the cause; so a run that exits with a result made only
    calls that returned. *)
Theorem X14_no_exception_swallowed {W} (C : Collaborator W) args w o w' t :
  run C args w = (o, w', t) ->
  (forall ev e, In ev t -> raised ev = Some e ->
                (exists context, o = Failed (context +:+ e)) /\
                exists t0, t = t0 ++ [ev]) /\
  (forall result, o = Exited result -> forall ev, In ev t -> raised ev = None).
Proof.
  intros Hrun.
  destruct (argument_spec args) as [module | msg] eqn:Hargs.
  2:{ apply run_has_main_shape in Hrun.
      inversion Hrun; subst; [| congruence ..].
      split; [intros ev e [] | intros result _ ev []]. }
  split; [intros ev e Hin Hr | intros result Ho ev Hin; revert Ho].
  all: main_cases Hrun Hargs; try (intros Ho; try discriminate Ho).
  all: split_in Hin; try discriminate Hr; try reflexivity.
  all: injection Hr as <-.
  all: split; [eexists; reflexivity | ends_here].
Qed.

Lemma X14_witness :
  (exists context,
      Failed "Error compacting member oplog: compact failed"
      = Failed (context +:+ "compact failed")) /\
  exists t0,
    session_events ++
      [EvCollStats (Ret 16777216000); EvMemberState (Ret "SECONDARY"%string);
       EvResize 8000 (Ret tt); EvCompact (Raise "compact failed")]
    = t0 ++ [EvCompact (Raise "compact failed")].
Proof.
  apply (proj1 (X14_no_exception_swallowed member (task 8000 true false)
                  (refusing None (Some "compact failed"%string) (a_member 16000 "SECONDARY"))
                  (Failed "Error compacting member oplog: compact failed")
                  (refusing None (Some "compact failed"%string) (a_member 8000 "SECONDARY"))
                  (session_events ++
                     [EvCollStats (Ret 16777216000); EvMemberState (Ret "SECONDARY"%string);
                      EvResize 8000 (Ret tt); EvCompact (Raise "compact failed")])
                  ltac:(vm_compute; reflexivity))
           (EvCompact (Raise "compact failed")) "compact failed"%string).
  - vm_compute. tauto.
  - reflexivity.
Defined.

(** X15. Lines 135-148 and 167-177: the [ssl] entries reach [MongoClient]
    exactly when the task sets [ssl], and the certificate requirement
    passed is then one of the three names that the argument specification
    admits, so the [getattr] of line 174 finds it. *)
Theorem X15_ssl_entries {W} (C : Collaborator W) args w o w' t p r :
  run C args w = (o, w', t) ->
  In (EvMongoClient p r) t ->
  match cp_ssl p with
  | Some (flag, reqs) =>
      a_ssl args = Some true /\ flag = true /\
      reqs = default "CERT_REQUIRED"%string (a_ssl_cert_reqs args) /\
      (reqs = "CERT_NONE" \/ reqs = "CERT_OPTIONAL" \/ reqs = "CERT_REQUIRED")%string
  | None => a_ssl args = None \/ a_ssl args = Some false
  end.
Proof.
  intros Hrun Hin.
  assert (Hspec : forall module, argument_spec args = inl module ->
                    match cp_ssl (connection_params_of module) with
                    | Some (flag, reqs) =>
                        a_ssl args = Some true /\ flag = true /\
                        reqs = default "CERT_REQUIRED"%string (a_ssl_cert_reqs args) /\
                        (reqs = "CERT_NONE" \/ reqs = "CERT_OPTIONAL" \/ reqs = "CERT_REQUIRED")%string
                    | None => a_ssl args = None \/ a_ssl args = Some false
                    end).
  { intros module. unfold argument_spec.
    destruct (a_oplog_size_mb args) as [[size | why] |]; [| discriminate | discriminate].
    case_bool_decide as Hin'; [| discriminate].
    intros [= <-]. unfold connection_params_of. cbn.
    destruct (a_ssl args) as [[] |]; cbn; [| tauto | tauto].
    split_and!; [reflexivity .. |].
    unfold ssl_cert_reqs_choices in Hin'.
    rewrite !elem_of_cons, elem_of_nil in Hin'. tauto. }
  destruct (argument_spec args) as [module | msg] eqn:Hargs.
  2:{ apply run_has_main_shape in Hrun.
      inversion Hrun; subst; [destruct Hin | congruence ..]. }
  specialize (Hspec module eq_refl).
  main_cases Hrun Hargs; split_in Hin; exact Hspec.
Qed.

Lemma X15_witness :
  a_ssl (over_ssl (task 8000 true false)) = Some true /\
  true = true /\
  "CERT_NONE"%string
  = default "CERT_REQUIRED"%string (a_ssl_cert_reqs (over_ssl (task 8000 true false))) /\
  ("CERT_NONE" = "CERT_NONE" \/ "CERT_NONE" = "CERT_OPTIONAL" \/
   "CERT_NONE" = "CERT_REQUIRED")%string.
Proof.
  apply (X15_ssl_entries member (over_ssl (task 8000 true false))
           (a_member 16000 "SECONDARY")
           (Exited (result_of true true
                      "oplog has been resized from 16000.0 mb to 8000 mb"))
           (a_member 8000 "SECONDARY")
           [EvMongoClient
              {| cp_host := "localhost"; cp_port := 27017;
                 cp_ssl := Some (true, "CERT_NONE"%string) |} (Ret tt);
            EvAuthenticate "admin" "secret" "admin" (Ret tt);
            EvServerInfo (Ret "4.4.0"%string);
            EvCollStats (Ret 16777216000); EvMemberState (Ret "SECONDARY"%string);
            EvResize 8000 (Ret tt); EvCompact (Ret tt)]
           {| cp_host := "localhost"; cp_port := 27017;
              cp_ssl := Some (true, "CERT_NONE"%string) |} (Ret tt)).
  - vm_compute. reflexivity.
  - vm_compute. tauto.
Defined.


(** ** Check mode against the run it stands for *)

Lemma argument_spec_check_mode check args :
  argument_spec (with_check_mode check args) =
  match argument_spec args with
  | inl module => inl (in_check_mode check module)
  | inr msg => inr msg
  end.
Proof.
  unfold argument_spec. cbn.
  destruct (a_oplog_size_mb args) as [[size | why] |]; [| reflexivity | reflexivity].
  case_bool_decide; reflexivity.
Qed.

Lemma main_oplog_check_mode {W} (C : Collaborator W) module w :
  match main_oplog C (in_check_mode true module) {["changed" := PyBool false]} w,
        main_oplog C (in_check_mode false module) {["changed" := PyBool false]} w with
  | (s, w1, t), (s', w1', t') =>
      exists t2, t' = t ++ t2 /\
                 Forall (fun ev => is_write ev = true) t2 /\
                 (t2 = [] -> finish s' = finish s /\ w1' = w1) /\
                 (t2 <> [] <->
                  exists result, finish s = Exited result /\
                                 result !! "changed" = Some (PyBool true))
  end.
Proof.
  unfold main_oplog.
  unfold try_except, get_olplog_size, set_oplog_size, compact_oplog, call, peek,
    fail_json, exit_json, mbind, M_bind, bind, mret, M_ret, ret.
  cbv beta. cbn [check_mode oplog_size_mb compact in_check_mode].
  destruct (collStats_maxSize C w) as [[maxSize | e] w1]; cbn [app finish].
  2:{ exists []. split_and!; [reflexivity | constructor | tauto |].
      split; [congruence | intros (? & [=] & _)]. }
  destruct (mb_of_bytes maxSize) as [x | e]; cbn [app finish].
  2:{ exists []. split_and!; [reflexivity | constructor | tauto |].
      split; [congruence | intros (? & [=] & _)]. }
  destruct (int_eq_float (oplog_size_mb module) x); cbn [app finish].
  { exists []. split_and!; [reflexivity | constructor | tauto |].
    split; [congruence | intros (? & [= <-] & Hch)]. by simplify_map_eq. }
  destruct (member_state C w1) as [[state | e] w2]; cbn [app finish].
  2:{ exists []. split_and!; [reflexivity | constructor | tauto |].
      split; [congruence | intros (? & [=] & _)]. }
  assert (Hchanged : forall b : bool,
             exists result,
               finish
                 (if b then
                    Next (<["compacted" := PyBool true]>
                            (<["msg" := PyStr (resized_msg x (oplog_size_mb module))]>
                               (<["changed" := PyBool true]> {["changed" := PyBool false]})))
                  else
                    Next (<["compacted" := PyBool false]>
                            (<["msg" := PyStr (resized_msg x (oplog_size_mb module))]>
                               (<["changed" := PyBool true]> {["changed" := PyBool false]}))))
               = Exited result /\
               result !! "changed" = Some (PyBool true)).
  { intros []; eexists; (split; [reflexivity | by simplify_map_eq]). }
  destruct (bool_decide (state = "SECONDARY"%string) && compact module) eqn:Eg;
    cbn [andb app].
  all: destruct (replSetResizeOplog C (oplog_size_mb module) w2) as [[[] | e] w3];
    cbn [app].
  all: try solve
         [ eexists [_]; split_and!;
           [ reflexivity | repeat constructor | discriminate
           | split; [intros _; first [apply (Hchanged true) | apply (Hchanged false)]
                    | discriminate] ] ].
  destruct (float_gt_int x (oplog_size_mb module)); cbn [app].
  2:{ eexists [_]; split_and!;
        [ reflexivity | repeat constructor | discriminate
        | split; [intros _; apply (Hchanged true) | discriminate] ]. }
  destruct (compact_cmd C w3) as [[[] | e] w4]; cbn [app].
  all: eexists [_; _]; split_and!;
    [ reflexivity | repeat constructor | discriminate
    | split; [intros _; apply (Hchanged true) | discriminate] ].
Qed.

(** X16. Lines 217-240: a run in check mode makes exactly the calls with
    which the run without check mode, from the same state of the member,
    begins, and what the latter adds are the resize and the compact.  When
    it adds nothing the two runs end alike; it adds something exactly when
    the check-mode run reports [changed] true. *)
Theorem X16_check_mode_prefix {W} (C : Collaborator W) args w o w1 t o' w1' t' :
  run C (with_check_mode true args) w = (o, w1, t) ->
  run C (with_check_mode false args) w = (o', w1', t') ->
  exists t2, t' = t ++ t2 /\
             Forall (fun ev => is_write ev = true) t2 /\
             (t2 = [] -> o' = o /\ w1' = w1) /\
             (t2 <> [] <->
              exists result, o = Exited result /\
                             result !! "changed" = Some (PyBool true)).
Proof.
  assert (Hsame : forall (o0 : outcome) (w0 : W) (t0 : list event),
             (forall result, o0 = Exited result ->
                             result !! "changed" = Some (PyBool true) -> False) ->
             (o0, w0, t0) = (o, w1, t) -> (o0, w0, t0) = (o', w1', t') ->
             exists t2, t' = t ++ t2 /\
                        Forall (fun ev => is_write ev = true) t2 /\
                        (t2 = [] -> o' = o /\ w1' = w1) /\
                        (t2 <> [] <->
                         exists result, o = Exited result /\
                                        result !! "changed" = Some (PyBool true))).
  { intros o0 w0 t0 Hno [= <- <- <-] [= <- <- <-]. exists [].
    split_and!; [symmetry; apply app_nil_r | constructor | tauto |].
    split; [congruence | intros (result & Ho & Hch); exfalso; eauto]. }
  assert (Hfailed : forall msg result, Failed msg = Exited result ->
                                       result !! "changed" = Some (PyBool true) -> False)
    by discriminate.
  assert (Hinitial : forall result : gmap string pyval,
             Exited {["changed" := PyBool false]} = Exited result ->
             result !! "changed" = Some (PyBool true) -> False).
  { intros result [= <-] Hch. by simplify_map_eq. }
  assert (Hoplog : forall module (wa : W) (t0 ta : list event),
             (match main_oplog C (in_check_mode true module) {["changed" := PyBool false]} wa with
              | (s, wo, to) => (finish s, wo, t0 ++ ta ++ to)
              end) = (o, w1, t) ->
             (match main_oplog C (in_check_mode false module) {["changed" := PyBool false]} wa with
              | (s, wo, to) => (finish s, wo, t0 ++ ta ++ to)
              end) = (o', w1', t') ->
             exists t2, t' = t ++ t2 /\
                        Forall (fun ev => is_write ev = true) t2 /\
                        (t2 = [] -> o' = o /\ w1' = w1) /\
                        (t2 <> [] <->
                         exists result, o = Exited result /\
                                        result !! "changed" = Some (PyBool true))).
  { intros module wa t0 ta.
    pose proof (main_oplog_check_mode C module wa) as Hd.
    destruct (main_oplog C (in_check_mode true module) _ wa) as [[s wo] to].
    destruct (main_oplog C (in_check_mode false module) _ wa) as [[s' wo'] to'].
    destruct Hd as (t2 & -> & Hw & Hnil & Hne).
    intros [= <- <- <-] [= <- <- <-]. exists t2.
    split_and!; [by rewrite !app_assoc | assumption | assumption | assumption]. }
  assert (Hafter : forall module user password (w0 : W) (t0 : list event),
             (match main_authenticate C (in_check_mode true module) user password w0 with
              | (Next _, wa, ta) =>
                  match main_oplog C (in_check_mode true module) {["changed" := PyBool false]} wa with
                  | (s, wo, to) => (finish s, wo, t0 ++ ta ++ to)
                  end
              | (Exit oa, wa, ta) => (oa, wa, t0 ++ ta)
              end) = (o, w1, t) ->
             (match main_authenticate C (in_check_mode false module) user password w0 with
              | (Next _, wa, ta) =>
                  match main_oplog C (in_check_mode false module) {["changed" := PyBool false]} wa with
                  | (s, wo, to) => (finish s, wo, t0 ++ ta ++ to)
                  end
              | (Exit oa, wa, ta) => (oa, wa, t0 ++ ta)
              end) = (o', w1', t') ->
             exists t2, t' = t ++ t2 /\
                        Forall (fun ev => is_write ev = true) t2 /\
                        (t2 = [] -> o' = o /\ w1' = w1) /\
                        (t2 <> [] <->
                         exists result, o = Exited result /\
                                        result !! "changed" = Some (PyBool true))).
  { intros module user password w0 t0.
    change (main_authenticate C (in_check_mode false module) user password w0)
      with (main_authenticate C (in_check_mode true module) user password w0).
    pose proof (main_authenticate_precise C (in_check_mode true module) user password w0) as Ha.
    destruct (main_authenticate C (in_check_mode true module) user password w0)
      as [[[[] | oa] wa] ta].
    - apply Hoplog.
    - apply Hsame. inversion Ha; discriminate. }
  unfold run, main, AnsibleModule.
  rewrite !argument_spec_check_mode.
  unfold try_except, call, peek, fail_json, exit_json, mbind, M_bind, bind, mret, M_ret, ret.
  cbv beta.
  destruct (argument_spec args) as [module | msg]; [| apply Hsame, Hfailed].
  cbn [login_user login_password login_host login_port ssl ssl_cert_reqs in_check_mode].
  destruct (pymongo_found C); [| apply Hsame, Hfailed].
  destruct (MongoClient C _ w) as [[[] | e] wc]; [| apply Hsame, Hfailed].
  destruct (login_user module) as [user |], (login_password module) as [password |].
  2, 3: apply Hsame, Hfailed.
  - specialize (Hafter module user password wc [EvMongoClient (connection_params_of module) (Ret tt)]).
    unfold connection_params_of in Hafter.
    destruct (main_authenticate C (in_check_mode true module) user password wc)
      as [[[[] | oa] wa] ta] eqn:Ea.
    all: change (main_authenticate C (in_check_mode false module) user password wc)
           with (main_authenticate C (in_check_mode true module) user password wc) in *.
    all: rewrite Ea in *.
    + destruct (main_oplog C (in_check_mode true module) _ wa) as [[[r | o2] wo] to];
        destruct (main_oplog C (in_check_mode false module) _ wa) as [[[r' | o2'] wo'] to'];
        cbn [app finish] in *; rewrite ?app_nil_r; exact Hafter.
    + cbn [app] in *. exact Hafter.
  - destruct (load_mongocnf C wc) as [[user password] |].
    2:{ apply Hsame, Hinitial. }
    specialize (Hafter module user password wc
                  [EvMongoClient (connection_params_of module) (Ret tt);
                   EvLoadMongocnf (Some (user, password))]).
    unfold connection_params_of in Hafter.
    destruct (main_authenticate C (in_check_mode true module) user password wc)
      as [[[[] | oa] wa] ta] eqn:Ea.
    all: change (main_authenticate C (in_check_mode false module) user password wc)
           with (main_authenticate C (in_check_mode true module) user password wc) in *.
    all: rewrite Ea in *.
    + destruct (main_oplog C (in_check_mode true module) _ wa) as [[[r | o2] wo] to];
        destruct (main_oplog C (in_check_mode false module) _ wa) as [[[r' | o2'] wo'] to'];
        cbn [app finish] in *; rewrite ?app_nil_r; exact Hafter.
    + cbn [app] in *. exact Hafter.
Qed.

Lemma X16_witness :
  exists t2,
    session_events ++
      [EvCollStats (Ret 16777216000); EvMemberState (Ret "SECONDARY"%string);
       EvResize 8000 (Ret tt); EvCompact (Ret tt)]
    = (session_events ++
         [EvCollStats (Ret 16777216000); EvMemberState (Ret "SECONDARY"%string)]) ++ t2 /\
    Forall (fun ev => is_write ev = true) t2 /\
    (t2 = [] ->
     Exited (result_of true true "oplog has been resized from 16000.0 mb to 8000 mb")
     = Exited (result_of true true "oplog has been resized from 16000.0 mb to 8000 mb") /\
     a_member 8000 "SECONDARY" = a_member 16000 "SECONDARY") /\
    (t2 <> [] <->
     exists result,
       Exited (result_of true true "oplog has been resized from 16000.0 mb to 8000 mb")
       = Exited result /\
       result !! "changed" = Some (PyBool true)).
Proof.
  apply (X16_check_mode_prefix member (task 8000 true false) (a_member 16000 "SECONDARY")
           (Exited (result_of true true
                      "oplog has been resized from 16000.0 mb to 8000 mb"))
           (a_member 16000 "SECONDARY")
           (session_events ++
              [EvCollStats (Ret 16777216000); EvMemberState (Ret "SECONDARY"%string)])
           (Exited (result_of true true
                      "oplog has been resized from 16000.0 mb to 8000 mb"))
           (a_member 8000 "SECONDARY")
           (session_events ++
              [EvCollStats (Ret 16777216000); EvMemberState (Ret "SECONDARY"%string);
               EvResize 8000 (Ret tt); EvCompact (Ret tt)])).
  - vm_compute. reflexivity.
  - vm_compute. reflexivity.
Defined.


(** ** The shrink test in bytes *)

Lemma float_gt_int_bytes maxSize x size :
  Z.abs maxSize < 2 ^ 53 ->
  mb_of_bytes maxSize = Ret x ->
  float_gt_int x size = true <-> size * 1048576 < maxSize.
Proof.
  intros Hlt Hx.
  destruct (mb_of_bytes_compare maxSize size Hlt) as (x' & Hx' & Hcmp).
  rewrite Hx in Hx'. injection Hx' as <-.
  unfold float_gt_int. rewrite Hcmp.
  destruct (Z.compare_spec maxSize (size * 1048576)); split; (discriminate || lia || reflexivity).
Qed.

(** X17. Lines 123 and 233, for byte counts of magnitude below 2^53: the
    oplog is compacted exactly when the run is not in check mode,
    [compact] is set, the member answered [SECONDARY], the resize returned
    and the configured size in bytes is greater than [oplog_size_mb] times
    1024 * 1024: the division of line 123 loses nothing of the comparison
    of line 233. *)
Theorem X17_compact_on_shrink_in_bytes {W} (C : Collaborator W) args module w o w' t maxSize :
  run C args w = (o, w', t) ->
  argument_spec args = inl module ->
  In (EvCollStats (Ret maxSize)) t ->
  Z.abs maxSize < 2 ^ 53 ->
  ((exists r, In (EvCompact r) t) <->
   check_mode module = false /\
   compact module = true /\
   In (EvMemberState (Ret "SECONDARY"%string)) t /\
   In (EvResize (oplog_size_mb module) (Ret tt)) t /\
   oplog_size_mb module * 1048576 < maxSize).
Proof.
  intros Hrun Hargs Hin Hlt.
  split; [intros (r & Hc) | intros (Hcheck & Hcompact & Hstate & Hresize & Hgt)].
  all: main_cases Hrun Hargs; split_in Hin.
  all: try solve [ split_in Hc ].
  all: try solve [ split_in Hstate ].
  all: try solve [ split_in Hresize ].
  all: try solve [ rewrite Hcheck in *; discriminate ].
  all: try solve [ eexists; cbn [In]; do 6 right; left; reflexivity
                 | eexists; cbn [In]; do 7 right; left; reflexivity ].
  all: try solve
         [ match goal with
           | Hg : compact_guard _ _ _ = true |- _ =>
               apply compact_guard_true in Hg as (-> & Hg2 & Hg3);
               eapply float_gt_int_bytes in Hg3; [| eassumption | eassumption];
               split_and!; [assumption | assumption | cbn [In]; tauto | cbn [In]; tauto
                           | assumption]
           end ].
  all: exfalso; split_in Hstate;
    match goal with
    | Hg : compact_guard _ _ ?x = false |- _ =>
        assert (compact_guard module "SECONDARY" x = true) as Hg';
        [ apply compact_guard_true; split_and!; [reflexivity | assumption |];
          eapply float_gt_int_bytes; eassumption
        | rewrite Hg' in Hg; discriminate Hg ]
    end.
Qed.

Lemma X17_witness :
  (exists r,
      In (EvCompact r)
         (session_events ++
            [EvCollStats (Ret 16777216000); EvMemberState (Ret "SECONDARY"%string);
             EvResize 8000 (Ret tt); EvCompact (Ret tt)])) <->
  check_mode (task_module 8000 true false) = false /\
  compact (task_module 8000 true false) = true /\
  In (EvMemberState (Ret "SECONDARY"%string))
     (session_events ++
        [EvCollStats (Ret 16777216000); EvMemberState (Ret "SECONDARY"%string);
         EvResize 8000 (Ret tt); EvCompact (Ret tt)]) /\
  In (EvResize (oplog_size_mb (task_module 8000 true false)) (Ret tt))
     (session_events ++
        [EvCollStats (Ret 16777216000); EvMemberState (Ret "SECONDARY"%string);
         EvResize 8000 (Ret tt); EvCompact (Ret tt)]) /\
  oplog_size_mb (task_module 8000 true false) * 1048576 < 16777216000.
Proof.
  apply (X17_compact_on_shrink_in_bytes member (task 8000 true false)
           (task_module 8000 true false) (a_member 16000 "SECONDARY")
           (Exited (result_of true true
                      "oplog has been resized from 16000.0 mb to 8000 mb"))
           (a_member 8000 "SECONDARY")).
  - vm_compute. reflexivity.
  - vm_compute. reflexivity.
  - vm_compute. tauto.
  - vm_compute. reflexivity.
Defined.
